(** * wheatTDM: the tiller-density raster pipeline

    A shallow embedding of the geoprocessing core of the repository
    (tillerDensityApp/rs_indices.py, tillerDensityApp/deep_learning.py,
    tillerDensityApp/views.py and legacy_infer/app.py) together with the
    properties its design document states about it.

    Conventions of the embedding.
    - A NumPy float32 is an IEEE-754 binary32 number: [spec_float] of the
      standard library with precision 24 and exponent bound 128, rounded to
      nearest even.  A Python float is binary64 (precision 53, bound 1024).
    - A NumPy array is its shape together with its indexing function
      ([arr[i, j]] is [a2_get arr i j]); only indices inside the shape are
      meaningful.
    - A Python exception is a value of [exn]; a function that can raise
      returns a [result].
    - Calls into rasterio, shapely, pyproj and Keras are parameters of the
      sections that use them. *)

From Stdlib Require Import ZArith List String Bool Lia Arith.
From Stdlib Require Import Floats.SpecFloat.
From Stdlib Require Import DecimalString QArith Qround.
Import ListNotations.
Local Open Scope string_scope.

(** ** Python exceptions and results *)

Inductive exn : Type :=
| ValueError (msg : string)
| IndexError (msg : string)
| KeyError (msg : string)
| RuntimeError (msg : string).

Inductive result (A : Type) : Type :=
| Ok (a : A)
| Raise (e : exn).
Arguments Ok {A} a.
Arguments Raise {A} e.

Definition bind {A B : Type} (r : result A) (k : A -> result B) : result B :=
match r with
| Ok a => k a
| Raise e => Raise e
end.

Declare Scope py_scope.
Delimit Scope py_scope with py.
Notation "x <- r ;; k" := (bind r (fun x => k))
(at level 61, r at next level, right associativity) : py_scope.
Notation "' p <- r ;; k" := (bind r (fun x => let p := x in k))
(at level 61, p pattern, r at next level, right associativity) : py_scope.

(** [str(n)] for a non-negative integer. *)
Definition str_nat (n : nat) : string := NilEmpty.string_of_uint (Nat.to_uint n).

(** [msg] contains [piece] as a contiguous substring. *)
Definition mentions (msg piece : string) : Prop :=
exists before after, msg = before ++ piece ++ after.

(** ** IEEE-754 numbers *)

(** The IEEE-754 predicates shared by both formats. *)
Module IEEE.
(** [np.isfinite] / [math.isfinite]. *)
Definition isfinite (x : spec_float) : bool :=
    match x with
    | S754_zero _ | S754_finite _ _ _ => true
    | S754_infinity _ | S754_nan => false
    end.

(** Positive or negative zero. *)
Definition is_zero (x : spec_float) : bool :=
    match x with
    | S754_zero _ => true
    | _ => false
    end.

(** The rational number a finite float stands for. *)
Definition to_Q (x : spec_float) : Q :=
  match x with
  | S754_finite s m (Zneg k) => Qmake (cond_Zopp s (Zpos m)) (2 ^ k)
  | S754_finite s m e => Qmake (cond_Zopp s (Zpos m) * 2 ^ e) 1
  | _ => 0%Q
  end.

(** Python's [a != b], [a > b] and [a >= b]. *)
Definition neb (a b : spec_float) : bool := negb (SFeqb a b).
Definition gtb (a b : spec_float) : bool := SFltb b a.
Definition geb (a b : spec_float) : bool := SFleb b a.
End IEEE.

(** binary32, the element type of every raster in the pipeline, and
    binary64, the type of a Python [float]. *)
Definition f32 : Type := spec_float.
Definition f64 : Type := spec_float.

Module F32.
Definition prec := 24%Z.
Definition emax := 128%Z.

(** The number [m * 2^e], rounded to the format. *)
Definition of_scaled (m e : Z) : f32 := binary_normalize prec emax m e false.
Definition of_Z (m : Z) : f32 := of_scaled m 0.

Definition add : f32 -> f32 -> f32 := SFadd prec emax.
Definition sub : f32 -> f32 -> f32 := SFsub prec emax.
Definition mul : f32 -> f32 -> f32 := SFmul prec emax.
Definition div : f32 -> f32 -> f32 := SFdiv prec emax.
Definition sqrt : f32 -> f32 := SFsqrt prec emax.
End F32.

Module F64.
Definition prec := 53%Z.
Definition emax := 1024%Z.

Definition of_scaled (m e : Z) : f64 := binary_normalize prec emax m e false.
Definition of_Z (m : Z) : f64 := of_scaled m 0.

Definition add : f64 -> f64 -> f64 := SFadd prec emax.
Definition mul : f64 -> f64 -> f64 := SFmul prec emax.
End F64.

(** ** NumPy arrays *)

Record array2 (A : Type) : Type := mk_array2 {
a2_rows : nat;
a2_cols : nat;
a2_get : nat -> nat -> A
}.
Arguments mk_array2 {A} _ _ _.
Arguments a2_rows {A} _.
Arguments a2_cols {A} _.
Arguments a2_get {A} _ _ _.

Record array3 (A : Type) : Type := mk_array3 {
a3_dim0 : nat;
a3_dim1 : nat;
a3_dim2 : nat;
a3_get : nat -> nat -> nat -> A
}.
Arguments mk_array3 {A} _ _ _ _.
Arguments a3_dim0 {A} _.
Arguments a3_dim1 {A} _.
Arguments a3_dim2 {A} _.
Arguments a3_get {A} _ _ _ _.

Record array1 (A : Type) : Type := mk_array1 {
  a1_size : nat;
  a1_get : nat -> A
}.
Arguments mk_array1 {A} _ _.
Arguments a1_size {A} _.
Arguments a1_get {A} _ _.

Module Np.
(** [np.transpose(a, (1, 2, 0))]. *)
Definition transpose_120 {A} (a : array3 A) : array3 A :=
    mk_array3 (a3_dim1 a) (a3_dim2 a) (a3_dim0 a)
              (fun i j k => a3_get a k i j).

(** [a[:, :, k]]. *)
Definition slice_last {A} (a : array3 A) (k : nat) : array2 A :=
    mk_array2 (a3_dim0 a) (a3_dim1 a) (fun i j => a3_get a i j k).

(** [a[:, :, k]] with NumPy's bounds check. *)
Definition index_last (a : array3 f32) (k : nat) : result (array2 f32) :=
  if (k <? a3_dim2 a)%nat then Ok (slice_last a k)
  else Raise (IndexError ("index " ++ str_nat k
                          ++ " is out of bounds for axis 2 with size "
                          ++ str_nat (a3_dim2 a))).

(** An elementwise operation on one array. *)
Definition map {A B} (f : A -> B) (a : array2 A) : array2 B :=
    mk_array2 (a2_rows a) (a2_cols a) (fun i j => f (a2_get a i j)).

(** An elementwise operation on two arrays of the same shape. *)
Definition map2 {A B C} (f : A -> B -> C) (a : array2 A) (b : array2 B)
    : array2 C :=
    mk_array2 (a2_rows a) (a2_cols a)
              (fun i j => f (a2_get a i j) (a2_get b i j)).

(** [np.full((rows, cols), v)]. *)
Definition full {A} (rows cols : nat) (v : A) : array2 A :=
    mk_array2 rows cols (fun _ _ => v).

(** [np.any(a, axis=0)] of a boolean array computed from [a] by [p]. *)
Definition any_axis0 {A} (p : A -> bool) (a : array3 A) : array2 bool :=
    mk_array2 (a3_dim1 a) (a3_dim2 a)
              (fun i j => existsb (fun b => p (a3_get a b i j))
                                  (seq 0 (a3_dim0 a))).

(** [np.stack(layers, axis=0)]. *)
Definition stack (layers : list (array2 f32)) : result (array3 f32) :=
  match layers with
  | [] => Raise (ValueError "need at least one array to stack")
  | a :: rest =>
      if forallb (fun b => Nat.eqb (a2_rows b) (a2_rows a)
                           && Nat.eqb (a2_cols b) (a2_cols a)) rest
      then Ok (mk_array3 (List.length layers) (a2_rows a) (a2_cols a)
                         (fun f i j => a2_get (nth f layers a) i j))
      else Raise (ValueError "all input arrays must have the same shape")
  end.

(** [a.reshape(a.shape[0], -1)] for a non-empty first axis: row-major
    flattening of the two trailing axes. *)
Definition reshape_flat_tail {A} (a : array3 A) : array2 A :=
  mk_array2 (a3_dim0 a) (a3_dim1 a * a3_dim2 a)
            (fun f p => a3_get a f (p / a3_dim2 a) (p mod a3_dim2 a)).

(** [a.T]. *)
Definition T {A} (a : array2 A) : array2 A :=
  mk_array2 (a2_cols a) (a2_rows a) (fun i j => a2_get a j i).

(** [preds.reshape(height, width)]: the size must fit. *)
Definition reshape_2d {A} (a : array1 A) (height width : nat)
  : result (array2 A) :=
  if Nat.eqb (a1_size a) (height * width) then
    Ok (mk_array2 height width (fun i j => a1_get a (i * width + j)))
  else
    Raise (ValueError ("cannot reshape array of size " ++ str_nat (a1_size a)
                       ++ " into shape (" ++ str_nat height ++ ","
                       ++ str_nat width ++ ")")).

(** [x.reshape(n, f, 1)] of a matrix of shape (n, f). *)
Definition reshape_steps {A} (x : array2 A) : array3 A :=
  mk_array3 (a2_rows x) (a2_cols x) 1 (fun s step _ => a2_get x s step).

(** [x.reshape(n, 1, f)] of a matrix of shape (n, f). *)
Definition reshape_channels {A} (x : array2 A) : array3 A :=
  mk_array3 (a2_rows x) 1 (a2_cols x) (fun s _ ch => a2_get x s ch).

(** [np.repeat(a, k, axis=1)]. *)
Definition repeat_axis1 {A} (a : array3 A) (k : nat) : array3 A :=
  mk_array3 (a3_dim0 a) (a3_dim1 a * k) (a3_dim2 a)
            (fun s step ch => a3_get a s (step / k) ch).






End Np.

(** Arithmetic on float32 arrays, written as in the Python source. *)
Declare Scope arr_scope.
Delimit Scope arr_scope with arr.
Notation "a + b" := (Np.map2 F32.add a b) : arr_scope.
Notation "a - b" := (Np.map2 F32.sub a b) : arr_scope.
Notation "a * b" := (Np.map2 F32.mul a b) : arr_scope.
Notation "a / b" := (Np.map2 F32.div a b) : arr_scope.
(** A Python scalar on one side of the operator. *)
Notation "c *: a" := (Np.map (F32.mul c) a) (at level 40) : arr_scope.
Notation "a :* c" := (Np.map (fun x => F32.mul x c) a) (at level 40) : arr_scope.
Notation "a +: c" := (Np.map (fun x => F32.add x c) a) (at level 50) : arr_scope.
Notation "a -: c" := (Np.map (fun x => F32.sub x c) a) (at level 50) : arr_scope.

(** ** A Python [dict]: keys in insertion order *)

Module Dict.
Definition t (V : Type) := list (string * V).

(** [d[k] = v]: an existing key keeps its position. *)
Fixpoint set {V} (d : t V) (k : string) (v : V) : t V :=
    match d with
    | [] => [(k, v)]
    | (k', v') :: rest =>
        if String.eqb k' k then (k', v) :: rest
        else (k', v') :: set rest k v
    end.

(** [d[k]]. *)
Fixpoint get {V} (d : t V) (k : string) : result V :=
    match d with
    | [] => Raise (KeyError k)
    | (k', v') :: rest => if String.eqb k' k then Ok v' else get rest k
    end.

(** [d.pop(k, None)], for its effect on the dictionary. *)
Fixpoint remove {V} (d : t V) (k : string) : t V :=
  match d with
  | [] => []
  | (k', v') :: rest =>
      if String.eqb k' k then rest else (k', v') :: remove rest k
  end.

(** [list(d.keys())]. *)
Definition keys {V} (d : t V) : list string := List.map fst d.
End Dict.

(** ** tillerDensityApp/rs_indices.py *)

Module RsIndices.
Local Open Scope py_scope.

(** The float32 values of the literals of the module. *)
Definition c0_5 : f32 := F32.of_scaled 1 (-1).
Definition c1_0 : f32 := F32.of_Z 1.
Definition c1_5 : f32 := F32.of_scaled 3 (-1).
Definition c2_0 : f32 := F32.of_Z 2.
Definition c2_5 : f32 := F32.of_scaled 5 (-1).
Definition c6_0 : f32 := F32.of_Z 6.
Definition c7_5 : f32 := F32.of_scaled 15 (-1).
Definition c8_0 : f32 := F32.of_Z 8.

(** [evi_calculation(NIR, RED, BLUE)], "Enhanced Vegetation Index":
    [G * ((NIR - RED) / (NIR + C1 * RED - C2 * BLUE + L))] with
    [G = 2.5], [C1 = 6], [C2 = 7.5], [L = 1]. *)
Definition evi_calculation (NIR RED BLUE : array2 f32) : array2 f32 :=
  let G := c2_5 in
  let C1 := c6_0 in
  let C2 := c7_5 in
  let L := c1_0 in
  (G *: ((NIR - RED) / (NIR + C1 *: RED - C2 *: BLUE +: L)))%arr.

Definition FEATURE_ORDER_21 : list string :=
  [ "B"; "G1"; "G"; "Y"; "R"; "RE"; "NIR";
    "NDVI"; "EVI"; "GNDVI"; "SAVI"; "NDRE"; "MSAVI"; "GCI"; "RVI_1";
    "RGVI"; "NDWI"; "RVI_2"; "SIPI"; "NEXG"; "NGRDI" ].

(** [out[~np.isfinite(out)] = fill_value] on one element. *)
Definition sanitize1 (fill_value x : f32) : f32 :=
  if negb (IEEE.isfinite x) then fill_value else x.

(** [_sanitize(arr, fill_value)]: the array is already float32, so
    [np.asarray] keeps its values. *)
Definition _sanitize (arr : array2 f32) (fill_value : f32) : array2 f32 :=
  Np.map (sanitize1 fill_value) arr.

Definition fill_value : f32 := F32.of_Z (-9999).

(** [list(indices_layers.keys()) != FEATURE_ORDER_21]. *)
Definition keys_differ (ks expected : list string) : bool :=
  negb (if list_eq_dec string_dec ks expected then true else false).

(** [indices_calculator(input_image)] on an array of shape
    (height, width, bands). *)
Definition indices_calculator (input_image : array3 f32)
  : result (Dict.t (array2 f32)) :=
  let indices_layers : Dict.t (array2 f32) := [] in
  B <- Np.index_last input_image 0 ;;
  G <- Np.index_last input_image 1 ;;
  R <- Np.index_last input_image 2 ;;
  NIR <- Np.index_last input_image 3 ;;
  SWIR1 <- Np.index_last input_image 4 ;;
  SWIR2 <- Np.index_last input_image 5 ;;
  let NDVI := ((NIR - R) / (NIR + R))%arr in
  let NDVI := _sanitize NDVI fill_value in
  let EVI := ((NIR - R) / (NIR + c6_0 *: R - c7_5 *: B +: c1_0))%arr in
  let EVI := _sanitize EVI fill_value in
  let GNDVI := ((NIR - G) / (NIR + G))%arr in
  let GNDVI := _sanitize GNDVI fill_value in
  let L_val := c0_5 in
  let SAVI := (((NIR - R) / (NIR + R +: L_val)) :* c1_5)%arr in
  let SAVI := _sanitize SAVI fill_value in
  let NDMI := ((NIR - SWIR1) / (NIR + SWIR1))%arr in
  let NDMI := _sanitize NDMI fill_value in
  let MSAVI :=
    (c0_5 *: ((c2_0 *: NIR) +: c1_0
              - Np.map F32.sqrt
                  (Np.map (fun x => F32.mul x x) ((c2_0 *: NIR) +: c1_0)
                   - c8_0 *: (NIR - R))))%arr in
  let MSAVI := _sanitize MSAVI fill_value in
  let GCI := ((NIR / G) -: c1_0)%arr in
  let GCI := _sanitize GCI fill_value in
  let RVI_1 := (NIR / R)%arr in
  let RVI_1 := _sanitize RVI_1 fill_value in
  let RGVI := (R / G)%arr in
  let RGVI := _sanitize RGVI fill_value in
  let NDWI := ((G - NIR) / (G + NIR))%arr in
  let NDWI := _sanitize NDWI fill_value in
  let RVI_2 := (NIR / G)%arr in
  let RVI_2 := _sanitize RVI_2 fill_value in
  let SIPI := ((NIR - B) / (NIR + R))%arr in
  let SIPI := _sanitize SIPI fill_value in
  let NEXG := ((c2_0 *: G - R - B) / (G + R + B))%arr in
  let NEXG := _sanitize NEXG fill_value in
  let NGRDI := ((G - R) / (G + R))%arr in
  let NGRDI := _sanitize NGRDI fill_value in
  let NIRv := _sanitize (NIR * NDVI)%arr fill_value in
  let indices_layers := Dict.set indices_layers "B" (_sanitize B fill_value) in
  let indices_layers := Dict.set indices_layers "G1" (_sanitize SWIR1 fill_value) in
  let indices_layers := Dict.set indices_layers "G" (_sanitize G fill_value) in
  let indices_layers := Dict.set indices_layers "Y" (_sanitize SWIR2 fill_value) in
  let indices_layers := Dict.set indices_layers "R" (_sanitize R fill_value) in
  let indices_layers := Dict.set indices_layers "RE" NIRv in
  let indices_layers := Dict.set indices_layers "NIR" (_sanitize NIR fill_value) in
  let indices_layers := Dict.set indices_layers "NDVI" NDVI in
  let indices_layers := Dict.set indices_layers "EVI" EVI in
  let indices_layers := Dict.set indices_layers "GNDVI" GNDVI in
  let indices_layers := Dict.set indices_layers "SAVI" SAVI in
  let indices_layers := Dict.set indices_layers "NDRE" NDMI in
  let indices_layers := Dict.set indices_layers "MSAVI" MSAVI in
  let indices_layers := Dict.set indices_layers "GCI" GCI in
  let indices_layers := Dict.set indices_layers "RVI_1" RVI_1 in
  let indices_layers := Dict.set indices_layers "RGVI" RGVI in
  let indices_layers := Dict.set indices_layers "NDWI" NDWI in
  let indices_layers := Dict.set indices_layers "RVI_2" RVI_2 in
  let indices_layers := Dict.set indices_layers "SIPI" SIPI in
  let indices_layers := Dict.set indices_layers "NEXG" NEXG in
  let indices_layers := Dict.set indices_layers "NGRDI" NGRDI in
  if keys_differ (Dict.keys indices_layers) FEATURE_ORDER_21 then
    Raise (ValueError "Feature order mismatch for PS-compatible 21-feature schema.")
  else
    Ok indices_layers.

End RsIndices.


(** ** tillerDensityApp/deep_learning.py: feature preparation *)

Module DeepLearning.
Import RsIndices.
Local Open Scope py_scope.

(** [[features_dict[name] for name in names]]. *)
Fixpoint lookup_all (features_dict : Dict.t (array2 f32)) (names : list string)
  : result (list (array2 f32)) :=
  match names with
  | [] => Ok []
  | name :: rest =>
      layer <- Dict.get features_dict name ;;
      layers <- lookup_all features_dict rest ;;
      Ok (layer :: layers)
  end.

(** [repr] of a list of strings, as an f-string prints it. *)
Definition repr_names (names : list string) : string :=
  "[" ++ String.concat ", " (List.map (fun n => "'" ++ n ++ "'") names) ++ "]".

(** [prepare_features(clipped_image)] on an array of shape
    (bands, height, width). *)
Definition prepare_features (clipped_image : array3 f32)
  : result (array2 f32 * nat * nat) :=
  let bands := a3_dim0 clipped_image in
  let height := a3_dim1 clipped_image in
  let width := a3_dim2 clipped_image in
  if negb (Nat.eqb bands 6) then
    Raise (ValueError ("Expected 6-band HLS input, got " ++ str_nat bands
                       ++ " bands."))
  else
    let clipped_image_hwc := Np.transpose_120 clipped_image in
    features_dict <- indices_calculator clipped_image_hwc ;;
    let band_names := Dict.keys features_dict in
    if keys_differ band_names FEATURE_ORDER_21 then
      Raise (ValueError ("Feature order mismatch. Expected "
                         ++ repr_names FEATURE_ORDER_21 ++ ", got "
                         ++ repr_names band_names ++ "."))
    else
      layers <- lookup_all features_dict FEATURE_ORDER_21 ;;
      stacked_array <- Np.stack layers ;;
      let feature_input := Np.T (Np.reshape_flat_tail stacked_array) in
      Ok (feature_input, height, width).

(** *** Prediction *)

(** A Keras shape: [None] marks a free dimension. *)
Definition shape_tuple : Type := list (option nat).

(** The values [model.input_shape] can take. *)
Inductive input_shape_t : Type :=
| ShapeNone
| ShapeTuple (dims : shape_tuple)
| ShapeList (shapes : list (option shape_tuple)).

(** [str] of a dimension: an integer or [None]. *)
Definition str_dim (d : option nat) : string :=
  match d with
  | Some n => str_nat n
  | None => "None"
  end.

(** [str] of a shape tuple or of [None]. *)
Definition str_shape (s : option shape_tuple) : string :=
  match s with
  | None => "None"
  | Some [] => "()"
  | Some [d] => "(" ++ str_dim d ++ ",)"
  | Some dims => "(" ++ String.concat ", " (List.map str_dim dims) ++ ")"
  end.

(** [d == n] for a dimension [d] and an integer [n]. *)
Definition dim_is (d : option nat) (n : nat) : bool :=
  match d with
  | Some k => Nat.eqb k n
  | None => false
  end.

(** The first lines both services share: unwrap a list of shapes, then
    insist on a rank-3 shape and read (steps, channels) off it. *)
Definition expected_steps_channels (model_input_shape : input_shape_t)
  : result (option nat * option nat) :=
  model_input_shape <-
    match model_input_shape with
    | ShapeList [] => Raise (IndexError "list index out of range")
    | ShapeList (first :: _) => Ok first
    | ShapeTuple dims => Ok (Some dims)
    | ShapeNone => Ok None
    end ;;
  match model_input_shape with
  | Some [_; expected_steps; expected_channels] =>
      Ok (expected_steps, expected_channels)
  | _ =>
      Raise (ValueError ("Unsupported model input shape: "
                         ++ str_shape model_input_shape))
  end.

(** Lines 96-120 of [predict_density]: the model input built from the
    scaled feature matrix. *)
Definition predict_density_reshape (model_input_shape : input_shape_t)
    (scaled_feature_input : array2 f32) : result (array3 f32) :=
  ' (expected_steps, expected_channels) <-
      expected_steps_channels model_input_shape ;;
  let num_features := a2_cols scaled_feature_input in
  if dim_is expected_steps num_features && dim_is expected_channels 1 then
    Ok (Np.reshape_steps scaled_feature_input)
  else if dim_is expected_steps 1 && dim_is expected_channels num_features then
    Ok (Np.reshape_channels scaled_feature_input)
  else if dim_is expected_steps 4 && dim_is expected_channels 6
          && Nat.eqb num_features 6 then
    let feature_reshape := Np.reshape_channels scaled_feature_input in
    Ok (Np.repeat_axis1 feature_reshape 4)
  else
    Raise (ValueError ("Model expects (" ++ str_dim expected_steps ++ ", "
                       ++ str_dim expected_channels ++ ") but "
                       ++ "provided features shape is ("
                       ++ str_nat num_features ++ ").")).

(** A loaded Keras model, as far as the pipeline looks at it. *)
Record keras_model : Type := {
  input_shape : input_shape_t;
  predict : array3 f32 -> array1 f32
}.

(** The JSON body the legacy inference service answers with. *)
Record legacy_body : Type := {
  body_status : option string;
  body_error : option string;
  body_predictions : option (list f32)
}.

Section Predict.
(** [LEGACY_INFER_URL], stripped; [requests.post] followed by
    [raise_for_status] and [response.json()], which either fails with the
    text of a [RequestException] or yields the body; the model behind
    [get_model()]; and scikit-learn's [StandardScaler().fit(x).transform(x)]. *)
Variable legacy_infer_url : string.
Variable requests_post : string -> array2 f32 -> string + legacy_body.
Variable get_model : result keras_model.
Variable standard_scaler : array2 f32 -> array2 f32.

Definition predict_density (feature_input : array2 f32) (height width : nat)
  : result (array2 f32) :=
  let legacy_url := legacy_infer_url in
  if negb (String.eqb legacy_url "") then
    body <-
      match requests_post legacy_url feature_input with
      | inl exc => Raise (RuntimeError ("Legacy inference request failed: " ++ exc))
      | inr body => Ok body
      end ;;
    if negb (match body_status body with
             | Some st => String.eqb st "success"
             | None => false
             end)
    then
      Raise (RuntimeError ("Legacy inference error: "
                           ++ match body_error body with
                              | Some e => e
                              | None => "unknown"
                              end))
    else
      let values := match body_predictions body with
                    | Some l => l
                    | None => []
                    end in
      let preds := mk_array1 (List.length values)
                             (fun i => nth i values (S754_zero false)) in
      let expected_size := (height * width)%nat in
      if negb (Nat.eqb (a1_size preds) expected_size) then
        Raise (ValueError ("Legacy inference returned " ++ str_nat (a1_size preds)
                           ++ " predictions, expected " ++ str_nat expected_size
                           ++ " for output shape (" ++ str_nat height ++ ", "
                           ++ str_nat width ++ ")."))
      else
        Np.reshape_2d preds height width
  else
    let scaled_feature_input := standard_scaler feature_input in
    model <- get_model ;;
    feature_reshape <-
      predict_density_reshape (input_shape model) scaled_feature_input ;;
    let preds := predict model feature_reshape in
    Np.reshape_2d preds height width.
End Predict.

(** *** The adaptation in words *)

(** The shapes the adaptation accepts for a matrix of [num_features]
    columns. *)
Definition supported (num_features : nat) (steps channels : option nat) : Prop :=
  (steps = Some num_features /\ channels = Some 1%nat)
  \/ (steps = Some 1%nat /\ channels = Some num_features)
  \/ (steps = Some 4%nat /\ channels = Some 6%nat /\ num_features = 6%nat).

(** What the adaptation answers when it accepts the declared shape. *)
Definition adapted (x : array2 f32) (steps channels : option nat)
    (tensor : array3 f32) : Prop :=
  a3_dim0 tensor = a2_rows x
  /\ steps = Some (a3_dim1 tensor)
  /\ channels = Some (a3_dim2 tensor).

(** What it answers when it refuses: a [ValueError] that names the expected
    pair and the provided feature count. *)
Definition refused (x : array2 f32) (steps channels : option nat)
    (r : result (array3 f32)) : Prop :=
  exists msg,
    r = Raise (ValueError msg)
    /\ mentions msg ("(" ++ str_dim steps ++ ", " ++ str_dim channels ++ ")")
    /\ mentions msg ("(" ++ str_nat (a2_cols x) ++ ")").

(** *** The feature vector of one pixel

    [indices_calculator] works on whole layers; every operation in it is
    elementwise, so the row of the feature matrix that belongs to a pixel
    depends on the six band values of that pixel only.  [pixel_features]
    is that row, expression by expression as in the source;
    [prepare_features_rows] below proves that the matrix consists of
    these rows. *)

Declare Scope f32_scope.
Delimit Scope f32_scope with f32.
Notation "a + b" := (F32.add a b) : f32_scope.
Notation "a - b" := (F32.sub a b) : f32_scope.
Notation "a * b" := (F32.mul a b) : f32_scope.
Notation "a / b" := (F32.div a b) : f32_scope.

Section Pixel.
Variables B G R NIR SWIR1 SWIR2 : f32.
Let san := sanitize1 fill_value.

Definition px_NDVI : f32 := san ((NIR - R) / (NIR + R))%f32.
Definition px_EVI : f32 :=
  san ((NIR - R) / (NIR + c6_0 * R - c7_5 * B + c1_0))%f32.
Definition px_GNDVI : f32 := san ((NIR - G) / (NIR + G))%f32.
Definition px_SAVI : f32 := san (((NIR - R) / (NIR + R + c0_5)) * c1_5)%f32.
Definition px_NDMI : f32 := san ((NIR - SWIR1) / (NIR + SWIR1))%f32.
Definition px_MSAVI : f32 :=
  san (c0_5 * (c2_0 * NIR + c1_0
               - F32.sqrt ((c2_0 * NIR + c1_0) * (c2_0 * NIR + c1_0)
                           - c8_0 * (NIR - R))))%f32.
Definition px_GCI : f32 := san (NIR / G - c1_0)%f32.
Definition px_RVI_1 : f32 := san (NIR / R)%f32.
Definition px_RGVI : f32 := san (R / G)%f32.
Definition px_NDWI : f32 := san ((G - NIR) / (G + NIR))%f32.
Definition px_RVI_2 : f32 := san (NIR / G)%f32.
Definition px_SIPI : f32 := san ((NIR - B) / (NIR + R))%f32.
Definition px_NEXG : f32 := san ((c2_0 * G - R - B) / (G + R + B))%f32.
Definition px_NGRDI : f32 := san ((G - R) / (G + R))%f32.
Definition px_NIRv : f32 := san (NIR * px_NDVI)%f32.

Definition pixel_features : list f32 :=
  [ san B; san SWIR1; san G; san SWIR2; san R; px_NIRv; san NIR;
    px_NDVI; px_EVI; px_GNDVI; px_SAVI; px_NDMI; px_MSAVI; px_GCI; px_RVI_1;
    px_RGVI; px_NDWI; px_RVI_2; px_SIPI; px_NEXG; px_NGRDI ].
End Pixel.

(** The feature vector of pixel number [p] (row-major) of a raster of shape
    (bands, height, width). *)
Definition features_at (clipped_image : array3 f32) (p : nat) : list f32 :=
  let i := (p / a3_dim2 clipped_image)%nat in
  let j := (p mod a3_dim2 clipped_image)%nat in
  let band k := a3_get clipped_image k i j in
  pixel_features (band 0%nat) (band 1%nat) (band 2%nat) (band 3%nat)
                 (band 4%nat) (band 5%nat).

(** The quotients among the indices: the name of each slot and the
    divisor [indices_calculator] divides by at a pixel. *)
Definition divisors (B G R NIR SWIR1 SWIR2 : f32) : list (string * f32) :=
  [ ("NDVI", (NIR + R)%f32);
    ("EVI", (NIR + c6_0 * R - c7_5 * B + c1_0)%f32);
    ("GNDVI", (NIR + G)%f32);
    ("SAVI", (NIR + R + c0_5)%f32);
    ("NDRE", (NIR + SWIR1)%f32);
    ("GCI", G);
    ("RVI_1", R);
    ("RGVI", G);
    ("NDWI", (G + NIR)%f32);
    ("RVI_2", G);
    ("SIPI", (NIR + R)%f32);
    ("NEXG", (G + R + B)%f32);
    ("NGRDI", (G + R)%f32) ].

Definition divisors_at (clipped_image : array3 f32) (p : nat)
  : list (string * f32) :=
  let i := (p / a3_dim2 clipped_image)%nat in
  let j := (p mod a3_dim2 clipped_image)%nat in
  let band k := a3_get clipped_image k i j in
  divisors (band 0%nat) (band 1%nat) (band 2%nat) (band 3%nat)
           (band 4%nat) (band 5%nat).

(** The column of a feature name in the canonical order. *)
Fixpoint index_of (name : string) (names : list string) : option nat :=
  match names with
  | [] => None
  | n :: rest =>
      if String.eqb n name then Some 0%nat
      else option_map S (index_of name rest)
  end.

Definition slot_of (name : string) : option nat :=
  index_of name FEATURE_ORDER_21.

End DeepLearning.

(** ** legacy_infer/app.py *)

Module LegacyInfer.
Import DeepLearning.
Local Open Scope py_scope.



(** [reshape_for_model(feature_input, model)]. *)
Definition reshape_for_model (feature_input : array2 f32) (model : keras_model)
  : result (array3 f32) :=
  ' (expected_steps, expected_channels) <-
      expected_steps_channels (input_shape model) ;;
  let num_features := a2_cols feature_input in
  if dim_is expected_steps num_features && dim_is expected_channels 1 then
    Ok (Np.reshape_steps feature_input)
  else if dim_is expected_steps 1 && dim_is expected_channels num_features then
    Ok (Np.reshape_channels feature_input)
  else if dim_is expected_steps 4 && dim_is expected_channels 6
          && Nat.eqb num_features 6 then
    let reshaped := Np.reshape_channels feature_input in
    Ok (Np.repeat_axis1 reshaped 4)
  else
    Raise (ValueError ("Model expects (" ++ str_dim expected_steps ++ ", "
                       ++ str_dim expected_channels ++ ") but "
                       ++ "provided feature shape is ("
                       ++ str_nat num_features ++ ").")).

End LegacyInfer.

(** ** tillerDensityApp/views.py *)

(** Code that talks to the file system: the calls it makes are recorded, in
    order, in a log of events of type [E]. *)
Module IO.
Definition t (E A : Type) : Type := list E -> list E * result A.

Definition ret {E A} (a : A) : t E A := fun log => (log, Ok a).

Definition raise {E A} (e : exn) : t E A := fun log => (log, Raise e).

Definition bind {E A B} (c : t E A) (k : A -> t E B) : t E B :=
  fun log =>
    match c log with
    | (log', Ok a) => k a log'
    | (log', Raise e) => (log', Raise e)
    end.

(** A computation without effects. *)
Definition lift {E A} (r : result A) : t E A := fun log => (log, r).

(** An external call: it is logged as [ev] and answers [r]. *)
Definition call {E A} (ev : E) (r : result A) : t E A :=
  fun log => ((log ++ [ev])%list, r).

(** [try: c except ValueError as e: handler(str(e))]. *)
Definition catch_ValueError {E A} (c : t E A) (handler : string -> t E A)
  : t E A :=
  fun log =>
    match c log with
    | (log', Raise (ValueError msg)) => handler msg log'
    | other => other
    end.
End IO.

Declare Scope io_scope.
Delimit Scope io_scope with io.
Notation "x <- c ;; k" := (IO.bind c (fun x => k))
  (at level 61, c at next level, right associativity) : io_scope.
Notation "' p <- c ;; k" := (IO.bind c (fun x => let p := x in k))
  (at level 61, p pattern, c at next level, right associativity) : io_scope.

Module Views.
Import DeepLearning.

(** *** Data *)

(** A GeoJSON geometry: its ["type"] and its ["coordinates"]. *)
Definition coord_pair : Type := list f64.
Definition ring : Type := list coord_pair.

Inductive GeoJSON : Type :=
| Polygon (coordinates : list ring)
| MultiPolygon (coordinates : list (list ring))
| OtherGeometry (type : string).

(** The six coefficients of an affine transform and [transform * (x, y)]. *)
Record affine : Type := {
  af_a : f64; af_b : f64; af_c : f64;
  af_d : f64; af_e : f64; af_f : f64
}.

Definition affine_apply (t : affine) (x y : f64) : f64 * f64 :=
  (F64.add (F64.add (F64.mul x (af_a t)) (F64.mul y (af_b t))) (af_c t),
   F64.add (F64.add (F64.mul x (af_d t)) (F64.mul y (af_e t))) (af_f t)).

Record bounds : Type := {
  bd_left : f64; bd_bottom : f64; bd_right : f64; bd_top : f64
}.

Inductive Resampling : Type := nearest | bilinear | cubic.

(** [nodata_value = -99999.0] and its value in a float32 array. *)
Definition nodata_value : f64 := F64.of_Z (-99999).
Definition nodata_value_f32 : f32 := F32.of_Z (-99999).

(** [s] contains [piece] ([piece in s]). *)
Definition contains (piece s : string) : bool :=
  match String.index 0 piece s with
  | Some _ => true
  | None => false
  end.

(** [int(x // d)] for a Python float [x] and a positive integer [d].
    Floor division of a finite float by a small integer is exact in Python
    as long as [x] is below 2^53 in magnitude; beyond that Python's quotient
    is a rounded float, far outside the range the caller clamps to.
    An infinite or NaN [x] gives NaN, which [int] refuses. *)
Definition int_floordiv (x : f64) (d : positive) : result Z :=
  match x with
  | S754_zero _ => Ok 0%Z
  | S754_finite s m (Zneg k) =>
      Ok (cond_Zopp s (Zpos m) / (Zpos d * 2 ^ Zpos k))%Z
  | S754_finite s m e => Ok (cond_Zopp s (Zpos m) * 2 ^ e / Zpos d)%Z
  | S754_infinity _ | S754_nan =>
      Raise (ValueError "cannot convert float NaN to integer")
  end.

(** The zone [utm_epsg_from_polygon] derives from a longitude:
    floor((lon + 180) / 6) + 1, clamped to 1..60. *)
Definition utm_zone (lon : f64) : Z :=
  Z.max 1 (Z.min (Qfloor (IEEE.to_Q (F64.add lon (F64.of_Z 180)) / (6 # 1)) + 1)
                 60).

(** The polygon coordinate check at the head of [clipping_raster]. *)
Definition all_finite (coord_pair : coord_pair) : bool :=
  forallb IEEE.isfinite coord_pair.

Definition invalid_coordinates : exn :=
  ValueError "Polygon coordinates are invalid. Please check the input polygon.".

(** The two nested loops: the first coordinate pair that is not finite
    raises. *)
Definition check_rings (rings : list ring) : result unit :=
  if forallb (forallb all_finite) rings then Ok tt
  else Raise invalid_coordinates.

Definition check_polygon_coordinates (polygon_geojson : GeoJSON) : result unit :=
  match polygon_geojson with
  | Polygon coords => check_rings coords
  | MultiPolygon coords =>
      if forallb (forallb (forallb all_finite)) coords then Ok tt
      else Raise invalid_coordinates
  | OtherGeometry geometry_type =>
      Raise (ValueError ("Unsupported geometry type: " ++ geometry_type))
  end.

(** The polygon holds a coordinate that is NaN or infinite. *)
Definition has_non_finite (polygon_geojson : GeoJSON) : bool :=
  match polygon_geojson with
  | Polygon coords =>
      existsb (existsb (existsb (fun c => negb (IEEE.isfinite c)))) coords
  | MultiPolygon coords =>
      existsb (existsb (existsb (existsb (fun c => negb (IEEE.isfinite c)))))
              coords
  | OtherGeometry _ => false
  end.

(** [mask] is the validity mask of [clipped_image]: of its height and
    width, and true exactly where some band is not zero. *)
Definition is_validity_mask (clipped_image : array3 f32) (mask : array2 bool)
  : Prop :=
  a2_rows mask = a3_dim1 clipped_image
  /\ a2_cols mask = a3_dim2 clipped_image
  /\ forall i j,
       a2_get mask i j = true
       <-> exists b, (b < a3_dim0 clipped_image)%nat
                     /\ IEEE.is_zero (a3_get clipped_image b i j) = false.

(** A value stored in a raster profile, over the type of coordinate
    reference systems. *)
Inductive pyval (CRS : Type) : Type :=
| VStr (s : string)
| VInt (n : Z)
| VFloat (x : f64)
| VCrs (c : CRS)
| VAffine (t : affine)
| VNone.
Arguments VStr {CRS} s.
Arguments VInt {CRS} n.
Arguments VFloat {CRS} x.
Arguments VCrs {CRS} c.
Arguments VAffine {CRS} t.
Arguments VNone {CRS}.

Definition profile (CRS : Type) : Type := Dict.t (pyval CRS).

(** The arguments of [rasterio.warp.reproject] besides the two arrays. *)
Record reproject_args (CRS : Type) : Type := {
  src_transform : affine;
  src_crs : pyval CRS;
  dst_transform : affine;
  dst_crs : pyval CRS;
  src_nodata : f32;
  dst_nodata : f32;
  init_dest_nodata : bool;
  resampling : Resampling
}.
Arguments src_transform {CRS} _.
Arguments src_crs {CRS} _.
Arguments dst_transform {CRS} _.
Arguments dst_crs {CRS} _.
Arguments src_nodata {CRS} _.
Arguments dst_nodata {CRS} _.
Arguments init_dest_nodata {CRS} _.
Arguments resampling {CRS} _.

(** What the code does to the file system and to rasters. *)
Inductive event (CRS : Type) : Type :=
| Opened (path : string)
| Masked (shapes : GeoJSON)
| Written (path : string) (profile : profile CRS) (band1 : array2 f32).
Arguments Opened {CRS} path.
Arguments Masked {CRS} shapes.
Arguments Written {CRS} path profile band1.

(** The libraries and services the module calls. *)
Class Externals : Type := {
  (** pyproj and rasterio coordinate reference systems: [CRS.from_epsg],
      [crs_a != crs_b] and [crs.to_string()]. *)
  CRS : Type;
  CRS_from_epsg : Z -> result CRS;
  crs_ne : CRS -> CRS -> bool;
  crs_to_string : CRS -> string;
  (** shapely: [shape(geojson)], [.is_valid], [.buffer(0)], [.centroid],
      [.intersects], [box] of a bounds tuple, the WKT round trip with
      [rounding_precision=6] and [mapping]. *)
  geometry : Type;
  shape : GeoJSON -> geometry;
  is_valid : geometry -> bool;
  buffer0 : geometry -> geometry;
  centroid : geometry -> f64 * f64;
  intersects : geometry -> geometry -> bool;
  box : bounds -> geometry;
  round_wkt6 : geometry -> geometry;
  mapping : geometry -> GeoJSON;
  (** [rasterio.warp.transform_geom(src_crs, dst_crs, geom,
      antimeridian_cutting=True, precision=6)]. *)
  transform_geom : CRS -> CRS -> GeoJSON -> result GeoJSON;
  (** An open rasterio dataset and what the code reads off it. *)
  dataset : Type;
  ds_bounds : dataset -> bounds;
  ds_crs : dataset -> CRS;
  ds_meta : dataset -> profile CRS;
  (** [rasterio.open(path)], a [MemoryFile] dataset opened with a profile
      and filled by [dataset.write(array)], and
      [rasterio.mask.mask(dataset, [shapes], crop=True)]. *)
  rasterio_open : string -> result dataset;
  memory_dataset : profile CRS -> array3 f32 -> result dataset;
  rasterio_mask : dataset -> GeoJSON -> result (array3 f32 * affine);
  (** [calculate_default_transform(src_crs, dst_crs, width, height, left=,
      bottom=, right=, top=)] and [reproject(source, destination, ...)],
      which answers the contents of [destination] after the call. *)
  calculate_default_transform :
    pyval CRS -> pyval CRS -> nat -> nat -> bounds
    -> result (affine * nat * nat);
  reproject :
    array2 f32 -> array2 f32 -> reproject_args CRS -> result (array2 f32);
  (** The download of the six-band HLS stack ([fetch_gee_image]), the clock
      behind the output file name and [settings.MEDIA_ROOT]. *)
  fetch_gee_image : GeoJSON -> string -> Z -> result string;
  timestamp : string;
  MEDIA_ROOT : string;
  (** What [deep_learning.predict_density] depends on: the legacy service
      URL, the HTTP client, the Keras model and scikit-learn's scaler. *)
  legacy_infer_url : string;
  requests_post : string -> array2 f32 -> string + legacy_body;
  get_model : result keras_model;
  standard_scaler : array2 f32 -> array2 f32
}.

Section External.
Context {W : Externals}.

Definition open_raster (path : string) : IO.t (event CRS) dataset :=
  IO.call (Opened path) (rasterio_open path).

Definition mask (src : dataset) (shapes : GeoJSON)
  : IO.t (event CRS) (array3 f32 * affine) :=
  IO.call (Masked shapes) (rasterio_mask src shapes).

(** *** Geometry *)

(** [if not g.is_valid: g = g.buffer(0); if not g.is_valid: raise]. *)
Definition repair (g : geometry) (failure : string) : result geometry :=
  if negb (is_valid g) then
    let g := buffer0 g in
    if negb (is_valid g) then Raise (ValueError failure) else Ok g
  else Ok g.

Definition match_crs (raster_crs : CRS) (polygon_geojson : GeoJSON)
    (polygon_crs_epsg : Z) : result GeoJSON :=
  (polygon_crs <- CRS_from_epsg polygon_crs_epsg ;;
   let polygon_shape := shape polygon_geojson in
   _ <- repair polygon_shape
          "Original polygon geometry is invalid and could not be fixed." ;;
   if crs_ne raster_crs polygon_crs then
     reprojected_polygon_geojson <-
       transform_geom polygon_crs raster_crs polygon_geojson ;;
     let reprojected_polygon_shape := shape reprojected_polygon_geojson in
     reprojected_polygon_shape <-
       repair reprojected_polygon_shape
         "Transformed polygon geometry is invalid and could not be fixed." ;;
     let reprojected_polygon_shape := round_wkt6 reprojected_polygon_shape in
     let reprojected_polygon_geojson := mapping reprojected_polygon_shape in
     Ok reprojected_polygon_geojson
   else
     let reprojected_polygon_geojson := polygon_geojson in
     Ok reprojected_polygon_geojson)%py.

(** The part of [utm_epsg_from_polygon] after the centroid is known. *)
Definition utm_epsg_from_centroid (lon lat : f64) : result Z :=
  (if IEEE.gtb lat (F64.of_Z 84) || SFltb lat (F64.of_Z (-80)) then
     Raise (ValueError "UTM is undefined for latitudes beyond 84N/80S.")
   else
     q <- int_floordiv (F64.add lon (F64.of_Z 180)) 6 ;;
     let zone := (q + 1)%Z in
     let zone := Z.max 1 (Z.min zone 60) in
     let epsg := if IEEE.geb lat (F64.of_Z 0) then (32600 + zone)%Z
                 else (32700 + zone)%Z in
     Ok epsg)%py.

Definition utm_epsg_from_polygon (polygon_geojson_wgs84 : GeoJSON) : result Z :=
  (let polygon_shape := shape polygon_geojson_wgs84 in
   polygon_shape <-
     repair polygon_shape
       "WGS84 polygon geometry is invalid and could not be fixed." ;;
   let '(lon, lat) := centroid polygon_shape in
   utm_epsg_from_centroid lon lat)%py.

(** *** Clipping *)

Definition no_overlap : exn :=
  ValueError "Transformed polygon does not overlap the raster.".

Definition clipping_raster (polygon_geojson : GeoJSON) (image_path : string)
  : IO.t (event CRS) (array3 f32 * profile CRS) :=
  (_ <- IO.lift (check_polygon_coordinates polygon_geojson) ;;
   src <- open_raster image_path ;;
   let raster_bounds := ds_bounds src in
   let raster_box := box raster_bounds in
   let transformed_polygon_shape := shape polygon_geojson in
   if negb (intersects transformed_polygon_shape raster_box) then
     IO.raise no_overlap
   else
     ' (cliped_image, cliped_transform) <-
       IO.catch_ValueError (mask src polygon_geojson)
         (fun msg =>
            if contains "Input shapes do not overlap raster" msg
            then IO.raise no_overlap
            else IO.raise (ValueError msg)) ;;
     let out_meta := ds_meta src in
     let out_meta := Dict.set out_meta "driver" (VStr "GTiff") in
     let out_meta :=
       Dict.set out_meta "height" (VInt (Z.of_nat (a3_dim1 cliped_image))) in
     let out_meta :=
       Dict.set out_meta "width" (VInt (Z.of_nat (a3_dim2 cliped_image))) in
     let out_meta := Dict.set out_meta "transform" (VAffine cliped_transform) in
     let out_meta := Dict.set out_meta "crs" (VCrs (ds_crs src)) in
     IO.ret (cliped_image, out_meta))%io.

(** [np.any(clipped_image != 0, axis=0)]. *)
Definition any_band_nonzero (clipped_image : array3 f32) : array2 bool :=
  Np.any_axis0 (fun v => IEEE.neb v (F32.of_Z 0)) clipped_image.

(** What both [band_stacker] functions return. *)
Definition stacked : Type :=
  (array2 f32 * nat * nat * profile CRS * affine * array2 bool)%type.

Definition band_stacker_from_mem (stacked_array : array3 f32)
    (raster_profile : profile CRS) (polygon_geojson : GeoJSON)
    (polygon_crs_epsg : Z) : IO.t (event CRS) stacked :=
  (dataset <- IO.lift (memory_dataset raster_profile stacked_array) ;;
   let raster_crs := ds_crs dataset in
   new_polygon_geojson <-
     IO.lift (match_crs raster_crs polygon_geojson polygon_crs_epsg) ;;
   ' (clipped_image, clipped_transform) <- mask dataset new_polygon_geojson ;;
   let valid_mask := any_band_nonzero clipped_image in
   ' (feature_input, height, width) <-
     IO.lift (prepare_features clipped_image) ;;
   let src_profile := raster_profile in
   IO.ret (feature_input, height, width, src_profile, clipped_transform,
           valid_mask))%io.

Definition band_stacker (raster_path : string) (polygon_geojson : GeoJSON)
    (polygon_crs_epsg : Z) : IO.t (event CRS) stacked :=
  (src <- open_raster raster_path ;;
   let src_profile := ds_meta src in
   let raster_crs := ds_crs src in
   new_polygon_geojson <-
     IO.lift (match_crs raster_crs polygon_geojson polygon_crs_epsg) ;;
   ' (clipped_image, clipped_transform) <- mask src new_polygon_geojson ;;
   let valid_mask := any_band_nonzero clipped_image in
   ' (feature_input, height, width) <-
     IO.lift (prepare_features clipped_image) ;;
   IO.ret (feature_input, height, width, src_profile, clipped_transform,
           valid_mask))%io.


(** *** Output raster *)

Definition create_outputRaster_COG (raster_profile : profile CRS)
    (transform : affine) (predictArray : array2 f32) (output_path : string)
    (target_crs : string) : IO.t (event CRS) string :=
  (source_crs <- IO.lift (Dict.get raster_profile "crs") ;;
   let shape0 := a2_rows predictArray in
   let shape1 := a2_cols predictArray in
   let '(left_, top_) := affine_apply transform (F64.of_Z 0) (F64.of_Z 0) in
   let '(right_, bottom_) :=
     affine_apply transform (F64.of_Z (Z.of_nat shape1))
                  (F64.of_Z (Z.of_nat shape0)) in
   ' (dst_transform, dst_width, dst_height) <-
     IO.lift (calculate_default_transform
                source_crs (VStr target_crs) shape1 shape0
                {| bd_left := left_; bd_bottom := bottom_;
                   bd_right := right_; bd_top := top_ |}) ;;
   let profile := raster_profile in
   let profile := Dict.set profile "driver" (VStr "COG") in
   let profile := Dict.set profile "crs" (VStr target_crs) in
   let profile := Dict.set profile "transform" (VAffine dst_transform) in
   let profile := Dict.set profile "width" (VInt (Z.of_nat dst_width)) in
   let profile := Dict.set profile "height" (VInt (Z.of_nat dst_height)) in
   let profile := Dict.set profile "count" (VInt 1) in
   let profile := Dict.set profile "dtype" (VStr "float32") in
   let profile := Dict.set profile "compress" (VStr "LZW") in
   let profile := Dict.set profile "nodata" (VFloat nodata_value) in
   let profile :=
     fold_left (fun d key => Dict.remove d key)
               ["tiled"; "blockxsize"; "blockysize"; "interleave"] profile in
   let destination := Np.full dst_height dst_width nodata_value_f32 in
   destination <-
     IO.lift (reproject predictArray destination
                {| src_transform := transform;
                   src_crs := source_crs;
                   dst_transform := dst_transform;
                   dst_crs := VStr target_crs;
                   src_nodata := nodata_value_f32;
                   dst_nodata := nodata_value_f32;
                   init_dest_nodata := true;
                   resampling := nearest |}) ;;
   _ <- IO.call (Written output_path profile destination) (Ok tt) ;;
   IO.ret output_path)%io.


(** The rasters a log of events has written, oldest first. *)
Fixpoint written (log : list (event CRS))
  : list (string * profile CRS * array2 f32) :=
  match log with
  | [] => []
  | Written path profile band1 :: rest => (path, profile, band1) :: written rest
  | _ :: rest => written rest
  end.


End External.
End Views.

(** ** Sample inputs *)

Module Samples.
(** A one-pixel raster of shape (6, 1, 1) with NIR = 1 and every other
    band 0. *)
Definition unit_nir : array3 f32 :=
  mk_array3 6 1 1 (fun k _ _ => if Nat.eqb k 3 then F32.of_Z 1 else F32.of_Z 0).

(** One-pixel rasters of all zeros with [bands] bands. *)
Definition zeros (bands : nat) : array3 f32 :=
  mk_array3 bands 1 1 (fun _ _ _ => F32.of_Z 0).

(** The one-pixel layers of [unit_nir]. *)
Definition layer (v : Z) : array2 f32 := Np.full 1 1 (F32.of_Z v).



(** A feature matrix of two rows and [features] columns. *)
Definition features (features : nat) : array2 f32 :=
  mk_array2 2 features (fun i j => F32.of_Z (Z.of_nat (i + j))).

(** A model that declares the input shape (None, steps, channels) and
    predicts zero for every sample. *)
Definition model (steps channels : nat) : DeepLearning.keras_model :=
  {| DeepLearning.input_shape :=
       DeepLearning.ShapeTuple [None; Some steps; Some channels];
     DeepLearning.predict :=
       fun x => mk_array1 (a3_dim0 x) (fun _ => F32.of_Z 0) |}.
End Samples.

(** A stand-in for the libraries, small enough to run the pipeline on:
    coordinate systems are EPSG codes, geometries are their GeoJSON and
    always valid, every raster file clips to [clip], reprojection onto the
    same grid copies the pixels that are not nodata. *)
Module World.
Import Views.

(** A square around Brookings, South Dakota, in EPSG:4326, and the same
    square with a NaN in its first vertex. *)
Definition square : GeoJSON :=
  Polygon [[ [F64.of_Z (-97); F64.of_Z 44]; [F64.of_Z (-96); F64.of_Z 44];
             [F64.of_Z (-96); F64.of_Z 45]; [F64.of_Z (-97); F64.of_Z 45];
             [F64.of_Z (-97); F64.of_Z 44] ]].


(** A clip of shape (6, 1, 2): NIR = 1 in the first pixel, zeros
    elsewhere. *)
Definition clip : array3 f32 :=
  mk_array3 6 1 2
            (fun k _ j => if Nat.eqb k 3 && Nat.eqb j 0 then F32.of_Z 1
                          else F32.of_Z 0).

Definition identity : affine :=
  {| af_a := F64.of_Z 1; af_b := F64.of_Z 0; af_c := F64.of_Z 0;
     af_d := F64.of_Z 0; af_e := F64.of_Z 1; af_f := F64.of_Z 0 |}.

Definition origin : bounds :=
  {| bd_left := F64.of_Z 0; bd_bottom := F64.of_Z 0;
     bd_right := F64.of_Z 0; bd_top := F64.of_Z 0 |}.

Definition copy_valid (source destination : array2 f32)
    (args : reproject_args Z) : result (array2 f32) :=
  Ok (mk_array2 (a2_rows destination) (a2_cols destination)
        (fun i j =>
           if Nat.ltb i (a2_rows source) && Nat.ltb j (a2_cols source)
              && negb (SFeqb (a2_get source i j) (src_nodata args))
           then a2_get source i j
           else if init_dest_nodata args then dst_nodata args
                else a2_get destination i j)).

#[local] Instance world : Externals := {|
  CRS := Z;
  CRS_from_epsg := fun code => Ok code;
  crs_ne := fun a b => negb (Z.eqb a b);
  crs_to_string := fun code => "EPSG:" ++ str_nat (Z.to_nat code);
  geometry := GeoJSON;
  shape := fun g => g;
  is_valid := fun _ => true;
  buffer0 := fun g => g;
  centroid := fun _ => (F64.of_Z (-97), F64.of_Z 44);
  intersects := fun _ _ => true;
  box := fun _ => Polygon [];
  round_wkt6 := fun g => g;
  mapping := fun g => g;
  transform_geom := fun _ _ g => Ok g;
  dataset := string;
  ds_bounds := fun _ => origin;
  ds_crs := fun _ => 32614%Z;
  ds_meta := fun _ => [("crs", VCrs 32614%Z); ("count", VInt 6);
                       ("dtype", VStr "float32"); ("tiled", VStr "yes")];
  rasterio_open := fun path => Ok path;
  memory_dataset := fun _ _ => Ok "memory";
  rasterio_mask := fun _ _ => Ok (clip, identity);
  calculate_default_transform := fun _ _ width height _ =>
                                   Ok (identity, width, height);
  reproject := copy_valid;
  fetch_gee_image := fun _ _ _ => Ok "hls.tif";
  timestamp := "20240601120000";
  MEDIA_ROOT := "/media";
  legacy_infer_url := "";
  requests_post := fun _ _ => inl "no legacy service";
  get_model := Ok (Samples.model 21 1);
  standard_scaler := fun x => x
|}.
End World.

From Stdlib Require Import NArith Ascii.

(** ** More sample inputs *)

Module MoreSamples.
(** A one-pixel raster in (height, width, channel) layout with [channels]
    channels, channel [k] holding the number [k + 1]. *)
Definition ramp (channels : nat) : array3 f32 :=
  mk_array3 1 1 channels (fun _ _ k => F32.of_Z (Z.of_nat (k + 1))).

(** A one-pixel six-band clip of all ones. *)
Definition ones : array3 f32 :=
  mk_array3 6 1 1 (fun _ _ _ => F32.of_Z 1).
End MoreSamples.

(** ** The model handle of both services *)

Module ModelCache.
Import DeepLearning.

(** Exceptions of the standard library that the pipeline core does not
    raise but the service code does. *)
Inductive exc : Type :=
| Builtin (e : exn)
| FileNotFoundError (msg : string)
| AttributeError (msg : string).

(** [str(exc)]: the message, except for a [KeyError], which prints the
    [repr] of its key. *)
Definition str_exc (e : exc) : string :=
  match e with
  | Builtin (KeyError k) => "'" ++ k ++ "'"
  | Builtin (ValueError msg) | Builtin (IndexError msg)
  | Builtin (RuntimeError msg) => msg
  | FileNotFoundError msg | AttributeError msg => msg
  end.

Section Loader.
(** [os.getenv], [tf.keras.models.load_model] and [os.path.exists]. *)
Variable getenv : string -> option string.
Variable load_model : string -> exc + keras_model.
Variable path_exists : string -> bool.

(** [_model_path()] of tillerDensityApp/deep_learning.py; [default_path] is
    the path joined from [settings.BASE_DIR]. *)
Definition _model_path (default_path : string) : string :=
  match getenv "HLS_MODEL_PATH" with
  | Some path => path
  | None => default_path
  end.

(** [get_model()] of tillerDensityApp/deep_learning.py, as a function of the
    global [_MODEL]: it answers the new value of the global and the
    result. *)
Definition get_model (default_path : string) (_MODEL : option keras_model)
  : option keras_model * (exc + keras_model) :=
  match _MODEL with
  | None =>
      match load_model (_model_path default_path) with
      | inr model => (Some model, inr model)
      | inl e => (None, inl e)
      end
  | Some model => (Some model, inr model)
  end.

(** [model_path()] of legacy_infer/app.py. *)
Definition model_path : string :=
  match getenv "LEGACY_MODEL_PATH" with
  | Some path => path
  | None => "/models/PS_1DCNN_best_model.h5"
  end.

(** [get_model()] of legacy_infer/app.py. *)
Definition legacy_get_model (_MODEL : option keras_model)
  : option keras_model * (exc + keras_model) :=
  match _MODEL with
  | None =>
      let path := model_path in
      if negb (path_exists path) then
        (None, inl (FileNotFoundError ("Legacy model file not found: " ++ path)))
      else
        match load_model path with
        | inr model => (Some model, inr model)
        | inl e => (None, inl e)
        end
  | Some model => (Some model, inr model)
  end.
End Loader.
End ModelCache.

(** ** tillerDensityApp/views.py: serving the output raster *)

Module Media.
Local Open Scope py_scope.

(** [str(n)] for an integer. *)
Definition str_Z (n : Z) : string :=
  match n with
  | Zneg p => "-" ++ str_nat (Pos.to_nat p)
  | _ => str_nat (Z.to_nat n)
  end.

(** [\d] on ASCII text. *)
Definition is_digit (c : ascii) : bool :=
  let n := nat_of_ascii c in (48 <=? n)%nat && (n <=? 57)%nat.

(** The longest prefix of digits and what follows it. *)
Fixpoint span_digits (s : string) : string * string :=
  match s with
  | String c rest =>
      if is_digit c then
        let '(digits, tail) := span_digits rest in (String c digits, tail)
      else ("", s)
  | EmptyString => ("", "")
  end.

(** [s] without the prefix [p], if it starts with it. *)
Fixpoint strip_prefix (p s : string) : option string :=
  match p, s with
  | EmptyString, _ => Some s
  | String a p', String b s' =>
      if Ascii.eqb a b then strip_prefix p' s' else None
  | String _ _, EmptyString => None
  end.

(** [re.match] of the range pattern on [range_header], and its two groups:
    the text [bytes=], one or more digits, a dash, any number of digits, and
    the end anchor.  Both digit groups are greedy and are followed by a
    character that is no digit, so each is the longest run of digits; the
    anchor accepts the end of the text or one final newline. *)
Definition range_match (range_header : string) : option (string * string) :=
  match strip_prefix "bytes=" range_header with
  | None => None
  | Some after_unit =>
      let '(first_byte, after_first) := span_digits after_unit in
      match first_byte, after_first with
      | String _ _, String "-"%char after_dash =>
          let '(last_byte_str, tail) := span_digits after_dash in
          if String.eqb tail ""
             || String.eqb tail (String (ascii_of_nat 10) "")
          then Some (first_byte, last_byte_str)
          else None
      | _, _ => None
      end
  end.

(** The value of a string of digits. *)
Definition int_of_digits (s : string) : Z :=
  fold_left (fun acc c => (10 * acc + Z.of_nat (nat_of_ascii c - 48))%Z)
            (list_ascii_of_string s) 0%Z.

(** [int(s)] for a string of digits.  [max_str_digits] is
    [sys.get_int_max_str_digits()], 0 where the interpreter sets no limit:
    a longer string of digits, leading zeros counted, is refused. *)
Definition int (max_str_digits : nat) (s : string) : result Z :=
  if (0 <? max_str_digits)%nat && (max_str_digits <? String.length s)%nat then
    Raise (ValueError
             ("Exceeds the limit (" ++ str_nat max_str_digits
              ++ " digits) for integer string conversion: value has "
              ++ str_nat (String.length s)
              ++ " digits; use sys.set_int_max_str_digits() to increase the limit"))
  else Ok (int_of_digits s).

(** What a response carries: a JSON error object or the byte range of a
    file that [stream_file_range] will read. *)
Inductive payload : Type :=
| JsonError (error : string)
| FileRange (path : string) (start length : Z).

Record response : Type := {
  status_code : Z;
  content_type : string;
  headers : Dict.t string;
  content : payload
}.

(** [JsonResponse({"error": error}, status=status)]. *)
Definition JsonResponse (error : string) (status : Z) : response :=
  {| status_code := status; content_type := "application/json";
     headers := []; content := JsonError error |}.

(** [response[name] = value]. *)
Definition set_header (r : response) (name value : string) : response :=
  {| status_code := status_code r; content_type := content_type r;
     headers := Dict.set (headers r) name value; content := content r |}.

Section Serve.
(** [settings.MEDIA_ROOT]; [os.path.normpath(os.path.join(root, name))];
    [os.path.abspath]; [os.path.exists]; [os.path.getsize];
    [sys.get_int_max_str_digits()]. *)
Variable MEDIA_ROOT : string.
Variable normpath_join : string -> string -> string.
Variable abspath : string -> string.
Variable path_exists : string -> bool.
Variable getsize : string -> nat.
Variable max_str_digits : nat.

(** The tail of [serve_media_range], from [length = ...] on. *)
Definition streaming_response (file_path : string)
    (file_size first_byte last_byte status_code : Z) : response :=
  let length := (last_byte - first_byte + 1)%Z in
  let response :=
    {| status_code := status_code; content_type := "image/tiff";
       headers := [];
       content := FileRange file_path first_byte length |} in
  let response := set_header response "Content-Length" (str_Z length) in
  let response :=
    if (status_code =? 206)%Z then
      set_header response "Content-Range"
                 ("bytes " ++ str_Z first_byte ++ "-" ++ str_Z last_byte
                  ++ "/" ++ str_Z file_size)
    else response in
  let response := set_header response "Accept-Ranges" "bytes" in
  set_header response "Access-Control-Allow-Origin" "*".

(** [serve_media_range(request, filename)]; [range_header] is
    [request.META.get('HTTP_RANGE', '').strip()].  An exception leaves the
    view. *)
Definition serve_media_range (range_header : string) (filename : string)
  : result response :=
  let safe_path := normpath_join MEDIA_ROOT filename in
  if negb (String.prefix (abspath MEDIA_ROOT) safe_path) then
    Ok (JsonResponse "Invalid file path." 400)
  else
    let file_path := safe_path in
    if negb (path_exists file_path) then
      Ok (JsonResponse "File not found." 404)
    else
      let file_size := Z.of_nat (getsize file_path) in
      if negb (String.eqb range_header "") then
        match range_match range_header with
        | None => Ok (JsonResponse "Malformed Range header." 400)
        | Some (first_byte, last_byte_str) =>
            first_byte <- int max_str_digits first_byte ;;
            last_byte <- (if negb (String.eqb last_byte_str "")
                          then int max_str_digits last_byte_str
                          else Ok (file_size - 1)%Z) ;;
            if (file_size <=? first_byte)%Z || (last_byte <? first_byte)%Z then
              let response :=
                JsonResponse "Requested range not satisfiable." 416 in
              let response :=
                set_header response "Content-Range"
                           ("bytes */" ++ str_Z file_size) in
              Ok (set_header response "Accept-Ranges" "bytes")
            else
              let last_byte := Z.min last_byte (file_size - 1) in
              Ok (streaming_response file_path file_size
                                     first_byte last_byte 206)
        end
      else
        Ok (streaming_response file_path file_size 0 (file_size - 1) 200).
End Serve.

(** The read loop of [stream_file_range]: [rest] is what the file holds
    from the current position on, and a [read(n)] on a regular file answers
    its next [n] bytes, or fewer at the end.  Every pass that does not stop
    the loop takes at least one byte off [remaining], so [remaining] passes
    are enough; [passes] counts them down. *)
Fixpoint read_loop {B : Type} (passes chunk_size : nat) (rest : list B)
    (remaining : nat) : list (list B) :=
  match passes with
  | O => []
  | S passes' =>
      if (0 <? remaining)%nat then
        let chunk := firstn (Nat.min chunk_size remaining) rest in
        match chunk with
        | [] => []
        | _ :: _ =>
            chunk :: read_loop passes' chunk_size
                               (skipn (List.length chunk) rest)
                               (remaining - List.length chunk)
        end
      else []
  end.

(** The chunks [stream_file_range(path, start, length, chunk_size)] yields
    for a file of the given bytes ([seek(start)] may lie past the end). *)
Definition stream_file_range {B : Type} (file_bytes : list B)
    (start length chunk_size : nat) : list (list B) :=
  read_loop length chunk_size (skipn start file_bytes) length.

(** The default [chunk_size], 1024 * 128. *)
Definition default_chunk_size : nat := 1024 * 128.

End Media.

(** ** tillerDensityApp/views.py: the Fmask quality word *)

Module Fmask.
Local Open Scope py_scope.

(** [format(j, 'b')] for an unsigned value. *)
Fixpoint binary_digits (p : positive) (low : string) : string :=
  match p with
  | xH => String "1" low
  | xO q => binary_digits q (String "0" low)
  | xI q => binary_digits q (String "1" low)
  end.

Definition format_b (j : N) : string :=
  match j with
  | N0 => "0"
  | Npos p => binary_digits p ""
  end.

(** [s.zfill(width)] for a string without a sign. *)
Definition zfill (s : string) (width : nat) : string :=
  string_of_list_ascii (repeat "0"%char (width - String.length s)) ++ s.

(** The slices [s[start:stop]], [s[start:]] and [s[:stop]] for indices that
    are not negative. *)
Definition slice (s : string) (start stop : nat) : string :=
  substring start (stop - start) s.
Definition slice_from (s : string) (start : nat) : string :=
  substring start (String.length s - start) s.
Definition slice_to (s : string) (stop : nat) : string :=
  substring 0 stop s.

(** [s.split(sep)] for a separator of one character. *)
Fixpoint split (sep : ascii) (s : string) : list string :=
  match s with
  | EmptyString => [""]
  | String c rest =>
      if Ascii.eqb c sep then "" :: split sep rest
      else match split sep rest with
           | head :: tail => String c head :: tail
           | [] => [String c ""]
           end
  end.

(** [int(s)] for a string of binary digits; the empty string is no
    number. *)
Definition int (s : string) : result Z :=
  if String.eqb s "" then
    Raise (ValueError "invalid literal for int() with base 10: ''")
  else Ok (Media.int_of_digits s).

Definition bitword_order : list nat := [1; 1; 1; 1; 1; 1; 2]%nat.

(** The list [all_bits] that the body of the loop over the unique values
    builds for [j]. *)
Definition all_bits (j : N) : list string :=
  let num_bitwords := List.length bitword_order in
  let total_bits := list_sum bitword_order in
  let binary := zfill (format_b j) total_bits in
  let all_bits := [str_nat (N.to_nat j) ++ "=" ++ binary] in
  let '(_, _, all_bits) :=
    fold_left
      (fun '(i, bits, all_bits) b =>
         let Prev_bits := bits in
         let bits := (bits - b)%nat in
         let i := (i + 1)%nat in
         let bitword :=
           if (i =? 1)%nat then slice_from binary bits
           else if (i =? num_bitwords)%nat then slice_to binary Prev_bits
           else slice binary bits Prev_bits in
         (i, bits,
          List.app all_bits ["Bit Word" ++ str_nat i ++ ":" ++ bitword]))
      bitword_order (0%nat, total_bits, all_bits) in
  all_bits.

(** The test that decides whether [j] is appended to [goodQuality].  The
    chain [x == 0 + y == 0] compares [x] with [0 + y] and, if they are
    equal, [0 + y] with 0. *)
Definition good_quality (j : N) : result bool :=
  let all_bits := all_bits j in
  x <- int (last (split ":" (nth 2 all_bits "")) "") ;;
  y <- int (last (split ":" (nth 4 all_bits "")) "") ;;
  let middle := (0 + y)%Z in
  Ok ((x =? middle)%Z && (middle =? 0)%Z).

(** [np.unique] of the values of an array: the distinct values in
    ascending order. *)
Fixpoint insert_unique (x : N) (sorted : list N) : list N :=
  match sorted with
  | [] => [x]
  | y :: rest =>
      if (x <? y)%N then x :: sorted
      else if (x =? y)%N then sorted
      else y :: insert_unique x rest
  end.

Definition unique (values : list N) : list N :=
  fold_right insert_unique [] values.

Fixpoint mask_loop (Unique_val_Fmask goodQuality : list N) : result (list N) :=
  match Unique_val_Fmask with
  | [] => Ok goodQuality
  | j :: rest =>
      good <- good_quality j ;;
      mask_loop rest (if good then (goodQuality ++ [j])%list else goodQuality)
  end.

(** [mask_array(Fmask_clipped)], over the values of the array. *)
Definition mask_array (Fmask_clipped : list N) : result (list N) :=
  mask_loop (unique Fmask_clipped) [].

End Fmask.

(** ** tillerDensityApp/views.py: the order of the downloaded bands *)

Module Gee.

(** [str.lower] on ASCII text. *)
Definition lower_char (c : ascii) : ascii :=
  let n := nat_of_ascii c in
  if (65 <=? n)%nat && (n <=? 90)%nat then ascii_of_nat (n + 32) else c.

Fixpoint lower (s : string) : string :=
  match s with
  | EmptyString => EmptyString
  | String c rest => String (lower_char c) (lower rest)
  end.

Definition desired_order : list string :=
  ["B"; "G"; "R"; "NIR"; "SWIR1"; "SWIR2"].

(** The loop of [band_index] from position [i] on. *)
Fixpoint first_key (i : nat) (keys : list string) (lower_name : string)
  : option nat :=
  match keys with
  | [] => None
  | key :: rest =>
      if Views.contains (lower key) lower_name then Some i
      else first_key (S i) rest lower_name
  end.

(** [band_index(name)], the sort key of [fetch_gee_image] for the files of
    a downloaded archive. *)
Definition band_index (name : string) : nat :=
  match first_key 0 desired_order (lower name) with
  | Some i => i
  | None => List.length desired_order + 1
  end.

(** [band_arrays.sort(key=lambda x: band_index(x[0]))]: a stable sort. *)
Fixpoint insert_by_key {A} (key : A -> nat) (x : A) (sorted : list A)
  : list A :=
  match sorted with
  | [] => [x]
  | y :: rest =>
      if (key y <=? key x)%nat then y :: insert_by_key key x rest
      else x :: sorted
  end.

Definition sort_by_key {A} (key : A -> nat) (l : list A) : list A :=
  fold_left (fun sorted x => insert_by_key key x sorted) l [].

Definition sort_bands {A} (band_arrays : list (string * A))
  : list (string * A) :=
  sort_by_key (fun x => band_index (fst x)) band_arrays.

End Gee.

(** ** Sample services and files *)

Module ServiceSamples.
Import DeepLearning.

(** A legacy service that answers two predictions, 1 and 2, and one that
    reports an error. *)
Definition post_ok (url : string) (feature_input : array2 f32)
  : string + legacy_body :=
  inr {| body_status := Some "success"; body_error := None;
         body_predictions := Some [F32.of_Z 1; F32.of_Z 2] |}.

(** An environment without variables, a loader that answers the
    21-feature model, and a file system without files. *)
Definition no_environment (name : string) : option string := None.
Definition loader (path : string) : ModelCache.exc + keras_model :=
  inr (Samples.model 21 1).
Definition broken_loader (path : string) : ModelCache.exc + keras_model :=
  inl (ModelCache.Builtin (ValueError "bad model file")).
Definition no_files (path : string) : bool := false.
Definition any_file (path : string) : bool := true.

(** A media root /srv/media that holds a raster of ten bytes, 0 to 9, and
    an empty file, beside a directory /srv/media_backup; a file name that
    starts with "../" is resolved against /srv. *)
Definition media_root : string := "/srv/media".

Definition normpath_join (root name : string) : string :=
  match Media.strip_prefix "../" name with
  | Some rest => "/srv/" ++ rest
  | None => root ++ "/" ++ name
  end.

Definition abspath (path : string) : string := path.

Definition path_exists (path : string) : bool :=
  String.eqb path "/srv/media/map.tif"
  || String.eqb path "/srv/media/empty.tif"
  || String.eqb path "/srv/media_backup/map.tif".

Definition getsize (path : string) : nat :=
  if String.eqb path "/srv/media/empty.tif" then 0%nat else 10%nat.

Definition file_bytes : list nat := seq 0 10.

Definition serve (max_str_digits : nat)
  : string -> string -> result Media.response :=
  Media.serve_media_range media_root normpath_join abspath path_exists
                          getsize max_str_digits.

(** The values of an 8-bit Fmask clip. *)
Definition fmask : list N := [64; 2; 0; 8; 64; 255; 4; 0; 194]%N.

(** The band files of a downloaded archive, in the order of the archive,
    each with the number of its place in it. *)
Definition infrared_files : list (string * nat) :=
  [("hls_roi.SWIR2.tif", 0%nat); ("hls_roi.NIR.tif", 1%nat);
   ("hls_roi.R.tif", 2%nat); ("hls_roi.SWIR1.tif", 3%nat)].


End ServiceSamples.

(** The stand-in libraries with a raster that no polygon meets. *)
Module FarAway.
Import Views.

#[local] Instance far_away : Externals := {|
  CRS := Z;
  CRS_from_epsg := fun code => Ok code;
  crs_ne := fun a b => negb (Z.eqb a b);
  crs_to_string := fun code => "EPSG:" ++ str_nat (Z.to_nat code);
  geometry := GeoJSON;
  shape := fun g => g;
  is_valid := fun _ => true;
  buffer0 := fun g => g;
  centroid := fun _ => (F64.of_Z (-97), F64.of_Z 44);
  intersects := fun _ _ => false;
  box := fun _ => Polygon [];
  round_wkt6 := fun g => g;
  mapping := fun g => g;
  transform_geom := fun _ _ g => Ok g;
  dataset := string;
  ds_bounds := fun _ => World.origin;
  ds_crs := fun _ => 32614%Z;
  ds_meta := fun _ => [("crs", VCrs 32614%Z); ("count", VInt 6)];
  rasterio_open := fun path => Ok path;
  memory_dataset := fun _ _ => Ok "memory";
  rasterio_mask := fun _ _ =>
                     Raise (ValueError "Input shapes do not overlap raster.");
  calculate_default_transform := fun _ _ width height _ =>
                                   Ok (World.identity, width, height);
  reproject := World.copy_valid;
  fetch_gee_image := fun _ _ _ => Ok "hls.tif";
  timestamp := "20240601120000";
  MEDIA_ROOT := "/media";
  legacy_infer_url := "";
  requests_post := fun _ _ => inl "no legacy service";
  get_model := Ok (Samples.model 21 1);
  standard_scaler := fun x => x
|}.
End FarAway.

(** ** tillerDensityApp/views.py: signing in to Earth Engine *)

Module GeeInit.

(** What the code reads off the key file: [key_data.get("client_email")]
    and [key_data.get("project_id")], [None] for a key that is missing or
    null. *)
Record key_data : Type := {
  client_email : option string;
  project_id : option string
}.

(** A call of [ee.Initialize]: the service account and key file behind the
    credentials, if it is given credentials, and the project, if it is
    given one. *)
Inductive ee_call : Type :=
| Initialize (credentials : option (string * string)) (project : option string).

(** The truth value of an optional string: [None] and the empty string are
    false. *)
Definition truthy (s : option string) : bool :=
  match s with
  | Some (String _ _) => true
  | _ => false
  end.

(** The two messages after which the sign-in is tried again without a
    project. *)
Definition iam_failure (project_msg : string) : bool :=
  Views.contains "required permission to use project" project_msg
  || Views.contains "serviceusage.services.use" project_msg.

Definition no_key_file : string :=
  "GEE_SERVICE_ACCOUNT is set but no key file was found. "
  ++ "Set GEE_KEY_FILE or place secrets/gee-key.json.".

Definition no_client_email : string :=
  "GEE key file is missing client_email. "
  ++ "Set GEE_SERVICE_ACCOUNT explicitly.".

(** The end of [initialize_gee]: the outer [try] has run to its end, or an
    exception has left it; the globals [_GEE_READY] and [_GEE_LAST_ERROR]
    are set accordingly. *)
Definition set_globals (attempt : list ee_call * option string)
  : list ee_call * (bool * option string) :=
  match attempt with
  | (calls, None) => (calls, (true, None))
  | (calls, Some exc) => (calls, (false, Some exc))
  end.

Section Init.
(** [os.getenv]; [Path(p).expanduser()], [.is_absolute()] and
    [settings.BASE_DIR / p] on paths written as strings; the default key
    path under [settings.BASE_DIR]; [Path.exists]; reading the key file,
    which answers the text of the exception if [open], [json.load] or a
    [.get] raises; [ee.ServiceAccountCredentials] and [ee.Initialize], each
    answering the text of the exception it raises, if it does. *)
Variable getenv : string -> option string.
Variable expanduser : string -> string.
Variable is_absolute : string -> bool.
Variable under_base_dir : string -> string.
Variable default_key_path : string.
Variable path_exists : string -> bool.
Variable load_key : string -> string + key_data.
Variable ServiceAccountCredentials : string -> string -> option string.
Variable ee_Initialize : option (string * string) -> option string
                         -> option string.

(** The inner [try]: the sign-in with the project, if one is set, and
    after an IAM failure once more without it.  It answers the calls made
    and the text of the exception that leaves it, if any. *)
Definition sign_in (credentials : option (string * string))
    (effective_project : option string) : list ee_call * option string :=
  let project := if truthy effective_project then effective_project
                 else None in
  match ee_Initialize credentials project with
  | None => ([Initialize credentials project], None)
  | Some project_error =>
      let project_msg := Gee.lower project_error in
      if truthy effective_project && iam_failure project_msg then
        ([Initialize credentials project; Initialize credentials None],
         ee_Initialize credentials None)
      else ([Initialize credentials project], Some project_error)
  end.

(** [initialize_gee()]: the calls of [ee.Initialize] it makes, the globals
    [_GEE_READY] and [_GEE_LAST_ERROR] it sets, the first of which it
    returns. *)
Definition initialize_gee : list ee_call * (bool * option string) :=
  let service_account := getenv "GEE_SERVICE_ACCOUNT" in
  let key_file_env := getenv "GEE_KEY_FILE" in
  let project_id := getenv "GEE_PROJECT" in
  let key_path :=
    match key_file_env with
    | Some (String c rest) => Some (expanduser (String c rest))
    | _ => None
    end in
  let key_path :=
    match key_path with
    | Some p => if negb (is_absolute p) then Some (under_base_dir p)
                else Some p
    | None => None
    end in
  let key_path :=
    match key_path with
    | None => if path_exists default_key_path then Some default_key_path
              else None
    | Some p => Some p
    end in
  let attempt : list ee_call * option string :=
    match key_path with
    | None =>
        if truthy service_account then ([], Some no_key_file)
        else sign_in None project_id
    | Some p =>
        let from_key_file : string + (option string * option string) :=
          if negb (truthy service_account) && path_exists p then
            match load_key p with
            | inl exc => inl exc
            | inr key_data =>
                let service_account := client_email key_data in
                let project_id :=
                  if negb (truthy project_id)
                  then GeeInit.project_id key_data else project_id in
                if negb (truthy service_account) then inl no_client_email
                else inr (service_account, project_id)
            end
          else inr (service_account, project_id) in
        match from_key_file with
        | inl exc => ([], Some exc)
        | inr (Some (String c rest), project_id) =>
            let service_account := String c rest in
            if negb (path_exists p) then
              ([], Some ("GEE key file not found at " ++ p))
            else
              match ServiceAccountCredentials service_account p with
              | Some exc => ([], Some exc)
              | None => sign_in (Some (service_account, p)) project_id
              end
        | inr (_, project_id) => sign_in None project_id
        end
    end in
  set_globals attempt.

End Init.
End GeeInit.

(** Sample environments for the Earth Engine sign-in: a service account
    without a key file, and an account with a key file and a project on
    which the account lacks the permission to use the project. *)
Module GeeSamples.
Import GeeInit.

Definition account : string := "tiller@wheat.iam.gserviceaccount.com".

Definition account_only (name : string) : option string :=
  if String.eqb name "GEE_SERVICE_ACCOUNT" then Some account else None.

Definition account_key_project (name : string) : option string :=
  if String.eqb name "GEE_SERVICE_ACCOUNT" then Some account
  else if String.eqb name "GEE_KEY_FILE" then Some "/keys/gee.json"
  else if String.eqb name "GEE_PROJECT" then Some "wheat"
  else None.

Definition empty_key (path : string) : string + key_data :=
  inr {| client_email := None; project_id := None |}.

Definition project_denied (credentials : option (string * string))
    (project : option string) : option string :=
  match project with
  | Some _ =>
      Some "Caller does not have required permission to use project wheat."
  | None => None
  end.

Definition run (getenv : string -> option string) (key_exists : bool)
  : list ee_call * (bool * option string) :=
  initialize_gee getenv (fun p => p) (fun _ => true) (fun p => "/app/" ++ p)
                 "/app/secrets/gee-key.json" (fun _ => key_exists) empty_key
                 (fun _ _ => None) project_denied.

End GeeSamples.

(** * Properties *)

(** ** The feature synthesizer *)

Module FeatureFacts.
Import RsIndices DeepLearning.

Lemma feature_order_length : List.length FEATURE_ORDER_21 = 21%nat.
Proof. reflexivity. Qed.

(** The order guard of [indices_calculator] never fires: on a raster with at
    least six bands the dictionary is returned and its keys are the
    canonical sequence. *)
Lemma indices_calculator_keys (input_image : array3 f32) :
  (6 <= a3_dim2 input_image)%nat ->
  exists d, indices_calculator input_image = Ok d
            /\ Dict.keys d = FEATURE_ORDER_21
            /\ List.map (fun layer =>
                           (a2_rows layer, a2_cols layer)) (List.map snd d)
               = repeat (a3_dim0 input_image, a3_dim1 input_image) 21.
Proof.
  intros Hb. unfold indices_calculator, Np.index_last.
  repeat match goal with
  | |- context [(?k <? a3_dim2 input_image)%nat] =>
      replace (k <? a3_dim2 input_image)%nat with true
        by (symmetry; apply Nat.ltb_lt; lia)
  end.
  cbn [bind]. eexists. split; [reflexivity|]. split; reflexivity.
Qed.

(** On a six-band raster [prepare_features] returns the matrix whose row
    [p] is the feature vector of pixel [p]. *)
Lemma prepare_features_rows (clipped_image : array3 f32) :
  a3_dim0 clipped_image = 6%nat ->
  exists feature_input,
    prepare_features clipped_image
    = Ok (feature_input, a3_dim1 clipped_image, a3_dim2 clipped_image)
    /\ a2_rows feature_input
       = (a3_dim1 clipped_image * a3_dim2 clipped_image)%nat
    /\ a2_cols feature_input = 21%nat
    /\ forall p f, (f < 21)%nat ->
         a2_get feature_input p f
         = nth f (features_at clipped_image p) fill_value.
Proof.
  destruct clipped_image as [bands height width px]. cbn [a3_dim0 a3_dim1 a3_dim2].
  intros ->. unfold prepare_features, indices_calculator, Np.index_last.
  cbn -[F32.add F32.sub F32.mul F32.div F32.sqrt sanitize1 fill_value Nat.div Nat.modulo
        c0_5 c1_0 c1_5 c2_0 c2_5 c6_0 c7_5 c8_0].
  rewrite !Nat.eqb_refl.
  cbn -[F32.add F32.sub F32.mul F32.div F32.sqrt sanitize1 fill_value Nat.div Nat.modulo
        c0_5 c1_0 c1_5 c2_0 c2_5 c6_0 c7_5 c8_0].
  eexists. split; [reflexivity|]. split; [reflexivity|].
  split; [reflexivity|]. intros p f Hf.
  cbn -[F32.add F32.sub F32.mul F32.div F32.sqrt sanitize1 fill_value Nat.div Nat.modulo
        c0_5 c1_0 c1_5 c2_0 c2_5 c6_0 c7_5 c8_0].
  do 21 (destruct f as [|f]; [reflexivity|]). lia.
Qed.

(** The dictionary [indices_calculator] builds from a six-band raster,
    looked up by name, yields the layers [prepare_features] stacks. *)
Lemma prepare_features_columns (clipped_image : array3 f32) :
  a3_dim0 clipped_image = 6%nat ->
  exists feature_input features_dict,
    prepare_features clipped_image
    = Ok (feature_input, a3_dim1 clipped_image, a3_dim2 clipped_image)
    /\ indices_calculator (Np.transpose_120 clipped_image) = Ok features_dict
    /\ Dict.keys features_dict = FEATURE_ORDER_21
    /\ forall p f name,
         nth_error FEATURE_ORDER_21 f = Some name ->
         exists layer,
           Dict.get features_dict name = Ok layer
           /\ a2_get feature_input p f
              = a2_get layer (p / a3_dim2 clipped_image)
                             (p mod a3_dim2 clipped_image).
Proof.
  destruct clipped_image as [bands height width px]. cbn [a3_dim0 a3_dim1 a3_dim2].
  intros ->. unfold prepare_features, indices_calculator, Np.index_last.
  cbn -[F32.add F32.sub F32.mul F32.div F32.sqrt sanitize1 fill_value Nat.div Nat.modulo
        c0_5 c1_0 c1_5 c2_0 c2_5 c6_0 c7_5 c8_0].
  rewrite !Nat.eqb_refl.
  cbn -[F32.add F32.sub F32.mul F32.div F32.sqrt sanitize1 fill_value Nat.div Nat.modulo
        c0_5 c1_0 c1_5 c2_0 c2_5 c6_0 c7_5 c8_0].
  eexists. eexists. split; [reflexivity|]. split; [reflexivity|].
  split; [reflexivity|]. intros p f name Hname.
  do 21 (destruct f as [|f];
         [injection Hname as <-; eexists; split; reflexivity|]).
  destruct f; discriminate Hname.
Qed.

(** C1. On every six-band clipped raster [prepare_features] returns a matrix
    with one row per pixel and exactly 21 columns, the names of the layers
    being, in slot order, B, G1, G, Y, R, RE, NIR, NDVI, EVI, GNDVI, SAVI,
    NDRE, MSAVI, GCI, RVI_1, RGVI, NDWI, RVI_2, SIPI, NEXG, NGRDI, and column
    [f] holding the layer of the [f]-th name; on a raster whose band count
    is not 6 it raises the band-count error. *)
Theorem prepare_features_canonical_order (clipped_image : array3 f32) :
  (a3_dim0 clipped_image = 6%nat ->
   exists feature_input features_dict,
     prepare_features clipped_image
     = Ok (feature_input, a3_dim1 clipped_image, a3_dim2 clipped_image)
     /\ a2_rows feature_input
        = (a3_dim1 clipped_image * a3_dim2 clipped_image)%nat
     /\ a2_cols feature_input = 21%nat
     /\ indices_calculator (Np.transpose_120 clipped_image) = Ok features_dict
     /\ Dict.keys features_dict
        = [ "B"; "G1"; "G"; "Y"; "R"; "RE"; "NIR"; "NDVI"; "EVI"; "GNDVI";
            "SAVI"; "NDRE"; "MSAVI"; "GCI"; "RVI_1"; "RGVI"; "NDWI"; "RVI_2";
            "SIPI"; "NEXG"; "NGRDI" ]
     /\ forall p f name,
          nth_error (Dict.keys features_dict) f = Some name ->
          exists layer,
            Dict.get features_dict name = Ok layer
            /\ a2_get feature_input p f
               = a2_get layer (p / a3_dim2 clipped_image)
                              (p mod a3_dim2 clipped_image))
  /\ (a3_dim0 clipped_image <> 6%nat ->
      prepare_features clipped_image
      = Raise (ValueError ("Expected 6-band HLS input, got "
                           ++ str_nat (a3_dim0 clipped_image) ++ " bands."))).
Proof.
  split.
  - intros Hbands.
    destruct (prepare_features_columns clipped_image Hbands)
      as (feature_input & features_dict & Hrun & Hdict & Hkeys & Hcols).
    destruct (prepare_features_rows clipped_image Hbands)
      as (feature_input' & Hrun' & Hrows & Hwidth & _).
    rewrite Hrun in Hrun'. injection Hrun' as <-.
    exists feature_input, features_dict.
    repeat split; try assumption.
    intros p f name Hname. apply Hcols. now rewrite <- Hkeys.
  - intros Hbands. unfold prepare_features.
    apply Nat.eqb_neq in Hbands. now rewrite Hbands.
Qed.

(** A six-band and a seven-band instance of the statement. *)
Lemma prepare_features_canonical_order_witness :
  (exists feature_input features_dict,
     prepare_features Samples.unit_nir = Ok (feature_input, 1%nat, 1%nat)
     /\ a2_rows feature_input = 1%nat
     /\ a2_cols feature_input = 21%nat
     /\ indices_calculator (Np.transpose_120 Samples.unit_nir) = Ok features_dict
     /\ Dict.keys features_dict = FEATURE_ORDER_21
     /\ forall p f name,
          nth_error (Dict.keys features_dict) f = Some name ->
          exists layer,
            Dict.get features_dict name = Ok layer
            /\ a2_get feature_input p f = a2_get layer (p / 1) (p mod 1))
  /\ prepare_features (Samples.zeros 7)
     = Raise (ValueError "Expected 6-band HLS input, got 7 bands.").
Proof.
  split.
  - apply (proj1 (prepare_features_canonical_order Samples.unit_nir)).
    reflexivity.
  - apply (proj2 (prepare_features_canonical_order (Samples.zeros 7))).
    simpl. lia.
Defined.

(** *** Sanitized values *)

Lemma fill_value_finite : IEEE.isfinite fill_value = true.
Proof. reflexivity. Qed.

Lemma sanitize1_finite (x : f32) : IEEE.isfinite (sanitize1 fill_value x) = true.
Proof.
  unfold sanitize1. destruct (IEEE.isfinite x) eqn:Hx; simpl.
  - exact Hx.
  - exact fill_value_finite.
Qed.

Lemma sanitize1_fill (x : f32) :
  IEEE.isfinite x = false -> sanitize1 fill_value x = fill_value.
Proof. intros Hx. unfold sanitize1. now rewrite Hx. Qed.

(** A quotient by a zero is infinite or NaN, whatever the dividend. *)
Lemma div_by_zero_not_finite (x d : f32) :
  IEEE.is_zero d = true -> IEEE.isfinite (F32.div x d) = false.
Proof. destruct d; try discriminate. intros _. now destruct x. Qed.

(** Subtracting from, or scaling, an infinite or NaN value leaves it so. *)
Lemma sub_not_finite (a c : f32) :
  IEEE.isfinite a = false -> IEEE.isfinite (F32.sub a c) = false.
Proof.
  destruct a as [| sa | |]; try discriminate; intros _.
  - destruct c as [| sc | |]; try reflexivity. now destruct sa, sc.
  - reflexivity.
Qed.

Lemma mul_not_finite (a c : f32) :
  IEEE.isfinite a = false -> IEEE.isfinite (F32.mul a c) = false.
Proof.
  destruct a as [| sa | |]; try discriminate; intros _.
  - now destruct c.
  - reflexivity.
Qed.

(** Every value of the feature vector of a pixel is finite. *)
Lemma pixel_features_finite (B G R NIR SWIR1 SWIR2 : f32) (f : nat) :
  IEEE.isfinite (nth f (pixel_features B G R NIR SWIR1 SWIR2) fill_value)
  = true.
Proof.
  unfold pixel_features.
  do 21 (destruct f as [|f]; [apply sanitize1_finite|]).
  destruct f; exact fill_value_finite.
Qed.

(** A zero divisor puts the fill value into the slot of its index. *)
Lemma pixel_features_zero_divisor (B G R NIR SWIR1 SWIR2 : f32)
    (name : string) (den : f32) (slot : nat) :
  In (name, den) (divisors B G R NIR SWIR1 SWIR2) ->
  IEEE.is_zero den = true ->
  slot_of name = Some slot ->
  nth slot (pixel_features B G R NIR SWIR1 SWIR2) fill_value = fill_value.
Proof.
  intros Hin Hzero Hslot. unfold divisors in Hin. simpl in Hin.
  repeat (destruct Hin as [Hin | Hin];
          [ injection Hin as <- <-; injection Hslot as <-;
            cbn [nth pixel_features];
            apply sanitize1_fill;
            repeat first [ apply sub_not_finite | apply mul_not_finite ];
            now apply div_by_zero_not_finite
          | ]).
  contradiction.
Qed.

(** C4. In the matrix [prepare_features] returns for a six-band raster no
    entry is NaN or infinite, and at every pixel where the divisor of an
    index (NIR+R for NDVI, R for RVI_1, G for GCI, ...) is zero the slot of
    that index holds the fill value -9999. *)
Theorem zero_divisor_yields_fill (clipped_image : array3 f32) :
  a3_dim0 clipped_image = 6%nat ->
  exists feature_input,
    prepare_features clipped_image
    = Ok (feature_input, a3_dim1 clipped_image, a3_dim2 clipped_image)
    /\ (forall p f,
          (p < a2_rows feature_input)%nat -> (f < a2_cols feature_input)%nat ->
          IEEE.isfinite (a2_get feature_input p f) = true)
    /\ (forall p name den slot,
          (p < a2_rows feature_input)%nat ->
          In (name, den) (divisors_at clipped_image p) ->
          IEEE.is_zero den = true ->
          slot_of name = Some slot ->
          a2_get feature_input p slot = F32.of_Z (-9999)).
Proof.
  intros Hbands.
  destruct (prepare_features_rows clipped_image Hbands)
    as (feature_input & Hrun & Hrows & Hcols & Hrow).
  exists feature_input. split; [exact Hrun|]. split.
  - intros p f _ Hf. rewrite Hcols in Hf. rewrite (Hrow p f Hf).
    apply pixel_features_finite.
  - intros p name den slot _ Hin Hzero Hslot.
    assert (Hlt : (slot < 21)%nat).
    { unfold divisors_at, divisors in Hin. simpl in Hin.
      repeat (destruct Hin as [Hin | Hin];
              [ injection Hin as <- <-; injection Hslot as <-; lia | ]).
      contradiction. }
    rewrite (Hrow p slot Hlt).
    exact (pixel_features_zero_divisor _ _ _ _ _ _ name den slot Hin Hzero Hslot).
Qed.

(** The all-zero pixel: NIR + R is zero, so its NDVI slot holds -9999, and
    its 21 features are finite. *)
Lemma zero_divisor_yields_fill_witness :
  exists feature_input,
    prepare_features (Samples.zeros 6) = Ok (feature_input, 1%nat, 1%nat)
    /\ IEEE.isfinite (a2_get feature_input 0 13) = true
    /\ a2_get feature_input 0 7 = F32.of_Z (-9999).
Proof.
  destruct (zero_divisor_yields_fill (Samples.zeros 6) eq_refl)
    as (feature_input & Hrun & Hfinite & Hfill).
  assert (Hshape : a2_rows feature_input = 1%nat /\ a2_cols feature_input = 21%nat).
  { destruct (prepare_features_rows (Samples.zeros 6) eq_refl)
      as (fi & Hrun' & Hr & Hc & _).
    rewrite Hrun in Hrun'. injection Hrun' as <-. now split. }
  destruct Hshape as [Hr Hc].
  exists feature_input. split; [exact Hrun|]. split.
  - apply Hfinite; [rewrite Hr | rewrite Hc]; lia.
  - apply (Hfill 0%nat "NDVI" (F32.add (F32.of_Z 0) (F32.of_Z 0)) 7%nat).
    + rewrite Hr. lia.
    + left. reflexivity.
    + reflexivity.
    + reflexivity.
Defined.

(** The EVI column of the matrix is the sanitized quotient
    (NIR - R) / (NIR + 6 R - 7.5 B + 1), without a gain factor. *)
Lemma evi_slot (clipped_image : array3 f32) :
  a3_dim0 clipped_image = 6%nat ->
  exists feature_input,
    prepare_features clipped_image
    = Ok (feature_input, a3_dim1 clipped_image, a3_dim2 clipped_image)
    /\ forall p,
         let i := (p / a3_dim2 clipped_image)%nat in
         let j := (p mod a3_dim2 clipped_image)%nat in
         let B := a3_get clipped_image 0 i j in
         let R := a3_get clipped_image 2 i j in
         let NIR := a3_get clipped_image 3 i j in
         a2_get feature_input p 8
         = sanitize1 fill_value
             ((NIR - R) / (NIR + c6_0 * R - c7_5 * B + c1_0))%f32.
Proof.
  intros Hbands.
  destruct (prepare_features_rows clipped_image Hbands)
    as (feature_input & Hrun & _ & _ & Hrow).
  exists feature_input. split; [exact Hrun|].
  intros p. cbv zeta. rewrite (Hrow p 8%nat) by lia. reflexivity.
Qed.

(** C2 (where the code departs from the design). At the pixel B = G = R = 0,
    NIR = 1 the EVI slot of the feature matrix holds 0.5, the quotient
    (NIR - R) / (NIR + 6 R - 7.5 B + 1) alone, whereas
    2.5 x (NIR - R) / (NIR + 6 R - 7.5 B + 1), which is also what the module's
    own [evi_calculation] returns, is 1.25. *)
Theorem evi_slot_omits_gain :
  exists feature_input,
    prepare_features Samples.unit_nir = Ok (feature_input, 1%nat, 1%nat)
    /\ a2_get feature_input 0 8 = F32.of_scaled 1 (-1)
    /\ sanitize1 fill_value
         (a2_get (evi_calculation (Samples.layer 1) (Samples.layer 0)
                                  (Samples.layer 0)) 0 0)
       = F32.of_scaled 5 (-2)
    /\ SFeqb (a2_get feature_input 0 8) (F32.of_scaled 5 (-2)) = false.
Proof.
  eexists. split; [reflexivity|]. repeat split; vm_compute; reflexivity.
Qed.

End FeatureFacts.

(** ** Input-shape adaptation *)

Module ShapeFacts.
Import DeepLearning LegacyInfer.

Lemma append_assoc (a b c : string) : (a ++ b) ++ c = a ++ (b ++ c).
Proof. induction a as [|ch a IH]; simpl; [reflexivity | now rewrite IH]. Qed.

Lemma dim_is_true (d : option nat) (n : nat) : dim_is d n = true <-> d = Some n.
Proof.
  destruct d as [k|]; simpl.
  - rewrite Nat.eqb_eq. split; [now intros -> | now intros [= ->]].
  - split; discriminate.
Qed.

Lemma dim_is_false (d : option nat) (n : nat) : dim_is d n = false <-> d <> Some n.
Proof.
  rewrite <- dim_is_true. destruct (dim_is d n); split; congruence.
Qed.

(** The message of the mismatch error names the expected pair and the
    provided feature count. *)
Lemma mismatch_message_mentions (steps channels word count : string) :
  let msg := "Model expects (" ++ steps ++ ", " ++ channels ++ ") but "
             ++ word ++ "(" ++ count ++ ")." in
  mentions msg ("(" ++ steps ++ ", " ++ channels ++ ")")
  /\ mentions msg ("(" ++ count ++ ")").
Proof.
  cbv zeta. split.
  - exists "Model expects ", (" but " ++ word ++ "(" ++ count ++ ").").
    repeat first [rewrite append_assoc | progress simpl]. reflexivity.
  - exists ("Model expects (" ++ steps ++ ", " ++ channels ++ ") but " ++ word), ".".
    repeat first [rewrite append_assoc | progress simpl]. reflexivity.
Qed.

(** The three tests of the adaptation, as one decision. *)
Lemma supported_dec (num_features : nat) (steps channels : option nat) :
  (dim_is steps num_features && dim_is channels 1
   || dim_is steps 1 && dim_is channels num_features
   || dim_is steps 4 && dim_is channels 6 && Nat.eqb num_features 6) = true
  <-> supported num_features steps channels.
Proof.
  unfold supported.
  rewrite !Bool.orb_true_iff, !Bool.andb_true_iff, !dim_is_true, Nat.eqb_eq.
  tauto.
Qed.

(** C3, as the code has it. For a feature matrix with F columns and a model
    that declares (steps, channels), both [predict_density] and
    [reshape_for_model] build the model input exactly when
    (steps, channels) is (F, 1) or (1, F), or is (4, 6) with F = 6, and the
    tensor then has the declared shape; for every other declared pair they
    raise a [ValueError] whose message names the expected pair and the
    provided feature count.  For the 21-column matrix of the synthesizer
    the accepted pairs are exactly (21, 1) and (1, 21). *)
Theorem reshape_supported_shapes (x : array2 f32) (model : keras_model)
    (steps channels : option nat) :
  expected_steps_channels (input_shape model) = Ok (steps, channels) ->
  (supported (a2_cols x) steps channels ->
   exists tensor,
     predict_density_reshape (input_shape model) x = Ok tensor
     /\ reshape_for_model x model = Ok tensor
     /\ adapted x steps channels tensor)
  /\ (~ supported (a2_cols x) steps channels ->
      refused x steps channels (predict_density_reshape (input_shape model) x)
      /\ refused x steps channels (reshape_for_model x model))
  /\ (a2_cols x = 21%nat ->
      (supported (a2_cols x) steps channels
       <-> (steps = Some 21%nat /\ channels = Some 1%nat)
           \/ (steps = Some 1%nat /\ channels = Some 21%nat))).
Proof.
  intros Hshape. split; [|split].
  - intros Hs. unfold predict_density_reshape, reshape_for_model.
    rewrite Hshape. cbn [bind].
    destruct Hs as [[-> ->] | [[-> ->] | (-> & -> & H6)]].
    + cbn [dim_is]. rewrite !Nat.eqb_refl. cbn [andb].
      eexists. split; [reflexivity|]. split; [reflexivity|].
      repeat split.
    + cbn [dim_is]. rewrite !Nat.eqb_refl.
      destruct ((1 =? a2_cols x)%nat && (a2_cols x =? 1)%nat) eqn:H1.
      * apply Bool.andb_true_iff in H1. destruct H1 as [H1 _].
        apply Nat.eqb_eq in H1.
        eexists. split; [reflexivity|]. split; [reflexivity|].
        unfold adapted. cbn. rewrite <- H1. repeat split.
      * cbn [andb]. eexists. split; [reflexivity|]. split; [reflexivity|].
        repeat split.
    + rewrite H6. cbn.
      eexists. split; [reflexivity|]. split; [reflexivity|].
      unfold adapted. cbn. rewrite H6. repeat split.
  - intros Hn.
    assert (Hb := proj2 (supported_dec (a2_cols x) steps channels)).
    destruct (dim_is steps (a2_cols x) && dim_is channels 1
              || dim_is steps 1 && dim_is channels (a2_cols x)
              || dim_is steps 4 && dim_is channels 6 && Nat.eqb (a2_cols x) 6)
      eqn:Hdec.
    { exfalso. apply Hn. now apply supported_dec. }
    clear Hb. apply Bool.orb_false_iff in Hdec. destruct Hdec as [Hdec H3].
    apply Bool.orb_false_iff in Hdec. destruct Hdec as [H1 H2].
    unfold refused, predict_density_reshape, reshape_for_model.
    rewrite Hshape. cbn [bind]. rewrite H1, H2, H3.
    split; eexists; (split; [reflexivity|]).
    + exact (mismatch_message_mentions (str_dim steps) (str_dim channels)
               "provided features shape is " (str_nat (a2_cols x))).
    + exact (mismatch_message_mentions (str_dim steps) (str_dim channels)
               "provided feature shape is " (str_nat (a2_cols x))).
  - intros H21. rewrite H21. unfold supported. split.
    + intros [H | [H | (_ & _ & H)]]; [now left | now right | discriminate H].
    + intros [H | H]; [now left | now right; left].
Qed.

(** A model declaring (None, 21, 1) and a 21-column matrix. *)
Lemma reshape_supported_shapes_witness :
  exists tensor,
    predict_density_reshape (input_shape (Samples.model 21 1))
                            (Samples.features 21) = Ok tensor
    /\ reshape_for_model (Samples.features 21) (Samples.model 21 1) = Ok tensor
    /\ adapted (Samples.features 21) (Some 21%nat) (Some 1%nat) tensor.
Proof.
  apply (proj1 (reshape_supported_shapes (Samples.features 21)
                  (Samples.model 21 1) (Some 21%nat) (Some 1%nat) eq_refl)).
  left. split; reflexivity.
Defined.

(** C3 with the constant 21 does not hold of the code: with a six-column matrix the declared
    shape (6, 1), which is none of (21, 1), (1, 21), (4, 6), is accepted,
    and the declared shape (21, 1) is refused. *)
Lemma reshape_fixed_21_counterexample :
  (exists tensor,
     reshape_for_model (Samples.features 6) (Samples.model 6 1) = Ok tensor
     /\ predict_density_reshape (input_shape (Samples.model 6 1))
                                (Samples.features 6) = Ok tensor)
  /\ reshape_for_model (Samples.features 6) (Samples.model 21 1)
     = Raise (ValueError
                "Model expects (21, 1) but provided feature shape is (6).")
  /\ predict_density_reshape (input_shape (Samples.model 21 1))
                             (Samples.features 6)
     = Raise (ValueError
                "Model expects (21, 1) but provided features shape is (6).").
Proof.
  split; [|split].
  - eexists. split; reflexivity.
  - reflexivity.
  - reflexivity.
Qed.

End ShapeFacts.

(** ** Feature scaling of the legacy service *)

(** *** Facts about the float model *)

Module FloatFacts.
Local Open Scope Z_scope.


Lemma shr_1_m (mrs : shr_record) :
  0 <= shr_m mrs -> shr_m (shr_1 mrs) = shr_m mrs / 2.
Proof.
  destruct mrs as [m r s]. cbn [shr_m]. intros Hm. unfold shr_1.
  destruct m as [|p|p]; [reflexivity| |lia].
  destruct p as [p|p|]; cbn [shr_m].
  - rewrite (Pos2Z.inj_xI p). apply Z.div_unique with (r := 1); lia.
  - rewrite (Pos2Z.inj_xO p). apply Z.div_unique with (r := 0); lia.
  - reflexivity.
Qed.

Lemma shr_iter_m (n : positive) : forall mrs,
  0 <= shr_m mrs -> shr_m (SpecFloat.iter_pos shr_1 n mrs) = shr_m mrs / 2 ^ Zpos n.
Proof.
  induction n as [n IH | n IH |]; intros mrs Hm; cbn [SpecFloat.iter_pos].
  - assert (H1 : 0 <= shr_m (shr_1 mrs)) by (rewrite shr_1_m by lia; apply Z.div_pos; lia).
    assert (H2 : 0 <= shr_m (SpecFloat.iter_pos shr_1 n (shr_1 mrs))) by (rewrite IH by lia; apply Z.div_pos; [lia | apply Z.pow_pos_nonneg; lia]).
    rewrite IH, IH, shr_1_m by lia.
    rewrite !Z.div_div by (try apply Z.pow_pos_nonneg; lia).
    f_equal. rewrite Pos2Z.inj_xI.
    rewrite <- Z.pow_add_r, <- Z.pow_succ_r by lia. f_equal. lia.
  - assert (H2 : 0 <= shr_m (SpecFloat.iter_pos shr_1 n mrs)) by (rewrite IH by lia; apply Z.div_pos; [lia | apply Z.pow_pos_nonneg; lia]).
    rewrite IH, IH by lia.
    rewrite !Z.div_div by (try apply Z.pow_pos_nonneg; lia).
    f_equal. rewrite Pos2Z.inj_xO. rewrite <- Z.pow_add_r by lia. f_equal. lia.
  - rewrite shr_1_m by lia. reflexivity.
Qed.

Section Format.
Variables prec emax : Z.
Hypothesis Hprec : 0 < prec.

Lemma shr_record_of_loc_m m l : shr_m (shr_record_of_loc m l) = m.
Proof. destruct l as [|[]]; reflexivity. Qed.




End Format.


(** A finite number minus itself is +0. *)
Lemma sub_diag (a : f32) :
  IEEE.isfinite a = true -> F32.sub a a = S754_zero false.
Proof.
  destruct a as [s | s | | s m e]; try discriminate; intros _.
  - now destruct s.
  - unfold F32.sub, SFsub. rewrite Z.min_id, Z.sub_diag. reflexivity.
Qed.


End FloatFacts.

(** *** [scale_features] *)

Module ScaleFacts.
Import LegacyInfer.








End ScaleFacts.

(** ** Geometry reconciliation *)

Module GeometryFacts.
Import Views.

Section Facts.
Context {W : Externals}.

(** With equal coordinate systems [match_crs] answers its input as soon as
    the validity check passes, be it on the shape as given or on the shape
    repaired by [buffer(0)]: the repaired shape is only checked, never
    returned. *)
Lemma match_crs_equal_crs (raster_crs polygon_crs : CRS)
    (polygon_geojson : GeoJSON) (polygon_crs_epsg : Z) :
  CRS_from_epsg polygon_crs_epsg = Ok polygon_crs ->
  crs_ne raster_crs polygon_crs = false ->
  is_valid (shape polygon_geojson) = true
  \/ is_valid (buffer0 (shape polygon_geojson)) = true ->
  match_crs raster_crs polygon_geojson polygon_crs_epsg = Ok polygon_geojson.
Proof.
  intros Hcrs Hsame Hvalid. unfold match_crs, repair.
  rewrite Hcrs. cbn [bind].
  destruct (is_valid (shape polygon_geojson)) eqn:Hshape; cbn [negb bind].
  - now rewrite Hsame.
  - destruct Hvalid as [Hvalid | Hvalid]; [discriminate Hvalid|].
    rewrite Hvalid. cbn [negb bind]. now rewrite Hsame.
Qed.

(** C9. For a valid polygon whose coordinate system equals that of the
    raster, [match_crs] returns the polygon it was given. *)
Theorem match_crs_same_crs (raster_crs polygon_crs : CRS)
    (polygon_geojson : GeoJSON) (polygon_crs_epsg : Z) :
  CRS_from_epsg polygon_crs_epsg = Ok polygon_crs ->
  crs_ne raster_crs polygon_crs = false ->
  is_valid (shape polygon_geojson) = true ->
  match_crs raster_crs polygon_geojson polygon_crs_epsg = Ok polygon_geojson.
Proof.
  intros Hcrs Hsame Hvalid.
  apply match_crs_equal_crs with polygon_crs; auto.
Qed.

(** *** The UTM zone *)

(** [int(x // d)] is the floor of the exact quotient. *)
Lemma int_floordiv_floor (x : f64) (d : positive) :
  IEEE.isfinite x = true ->
  int_floordiv x d = Ok (Qfloor (IEEE.to_Q x / (Zpos d # 1))).
Proof.
  destruct x as [s | s | | s m e]; try discriminate; intros _.
  - reflexivity.
  - destruct e as [|e|e]; cbn [int_floordiv IEEE.to_Q]; f_equal;
      unfold Qdiv, Qinv, Qmult, Qfloor; cbn [Qnum Qden].
    + rewrite ?Z.pow_0_r, !Z.mul_1_r, Pos.mul_1_l. reflexivity.
    + rewrite !Z.mul_1_r, Pos.mul_1_l. reflexivity.
    + rewrite !Z.mul_1_r, Pos2Z.inj_mul, Pos2Z.inj_pow, Z.mul_comm.
      reflexivity.
Qed.

Lemma utm_zone_range (lon : f64) : (1 <= utm_zone lon <= 60)%Z.
Proof. unfold utm_zone. lia. Qed.

(** C6. For a polygon that is valid or repaired by [buffer(0)] and whose
    centroid is a pair of numbers (the latitude is finite and so is
    lon + 180, which no overflow can make infinite for a finite longitude),
    [utm_epsg_from_polygon] raises exactly when the centroid latitude is
    above 84 or below -80; otherwise it returns 32600 + zone for a latitude
    of at least 0 and 32700 + zone below 0, with
    zone = floor((lon + 180) / 6) + 1 clamped to 1..60, so the result lies
    in 32601..32660 in the north and in 32701..32760 in the south. *)
Theorem utm_epsg_from_polygon_zone (polygon_geojson_wgs84 : GeoJSON)
    (polygon_shape : geometry) (lon lat : f64) :
  repair (shape polygon_geojson_wgs84)
         "WGS84 polygon geometry is invalid and could not be fixed."
  = Ok polygon_shape ->
  centroid polygon_shape = (lon, lat) ->
  IEEE.isfinite (F64.add lon (F64.of_Z 180)) = true ->
  IEEE.isfinite lat = true ->
  let outside := SFltb (F64.of_Z 84) lat || SFltb lat (F64.of_Z (-80)) in
  let northern := SFleb (F64.of_Z 0) lat in
  let zone := utm_zone lon in
  (outside = true ->
   utm_epsg_from_polygon polygon_geojson_wgs84
   = Raise (ValueError "UTM is undefined for latitudes beyond 84N/80S."))
  /\ (outside = false ->
      (northern = true ->
       utm_epsg_from_polygon polygon_geojson_wgs84 = Ok (32600 + zone)%Z
       /\ (32601 <= 32600 + zone <= 32660)%Z)
      /\ (northern = false ->
          utm_epsg_from_polygon polygon_geojson_wgs84 = Ok (32700 + zone)%Z
          /\ (32701 <= 32700 + zone <= 32760)%Z)).
Proof.
  intros Hrepair Hcentroid Hlon Hlat. cbv zeta.
  pose proof (utm_zone_range lon) as Hzone.
  unfold utm_epsg_from_polygon. rewrite Hrepair. cbn [bind].
  rewrite Hcentroid. unfold utm_epsg_from_centroid, IEEE.gtb, IEEE.geb.
  split.
  - intros ->. reflexivity.
  - intros ->. rewrite (int_floordiv_floor _ 6 Hlon). cbn [bind].
    fold (utm_zone lon).
    split; intros ->; (split; [reflexivity | lia]).
Qed.

End Facts.
End GeometryFacts.

(** ** Clipping *)

Module ClipFacts.
Import DeepLearning Views.

Lemma forallb_existsb {A} (p : A -> bool) (l : list A) :
  forallb p l = negb (existsb (fun x => negb (p x)) l).
Proof.
  induction l as [|x l IH]; [reflexivity|].
  cbn [forallb existsb]. rewrite IH, Bool.negb_orb, Bool.negb_involutive.
  reflexivity.
Qed.

Lemma existsb_ext_in {A} (p q : A -> bool) (l : list A) :
  (forall x, p x = q x) -> existsb p l = existsb q l.
Proof.
  intros H. induction l as [|x l IH]; [reflexivity|].
  cbn [existsb]. now rewrite H, IH.
Qed.

(** The check at the head of [clipping_raster] raises on every polygon and
    multipolygon that holds a non-finite coordinate. *)
Lemma check_rejects_non_finite (polygon_geojson : GeoJSON) :
  has_non_finite polygon_geojson = true ->
  check_polygon_coordinates polygon_geojson = Raise invalid_coordinates.
Proof.
  destruct polygon_geojson as [coords | coords | other]; cbn; try discriminate.
  - intros H. unfold check_rings, all_finite.
    rewrite forallb_existsb.
    rewrite (existsb_ext_in _ (existsb (existsb (fun c => negb (IEEE.isfinite c))))).
    + now rewrite H.
    + intros ring. rewrite forallb_existsb, Bool.negb_involutive.
      apply existsb_ext_in. intros pair.
      now rewrite forallb_existsb, Bool.negb_involutive.
  - intros H. unfold all_finite.
    rewrite forallb_existsb.
    rewrite (existsb_ext_in _
               (existsb (existsb (existsb (fun c => negb (IEEE.isfinite c)))))).
    + now rewrite H.
    + intros poly. rewrite forallb_existsb, Bool.negb_involutive.
      apply existsb_ext_in. intros ring.
      rewrite forallb_existsb, Bool.negb_involutive.
      apply existsb_ext_in. intros pair.
      now rewrite forallb_existsb, Bool.negb_involutive.
Qed.

Lemma neb_zero (v : f32) : IEEE.neb v (F32.of_Z 0) = negb (IEEE.is_zero v).
Proof. destruct v as [s | s | | s m e]; try reflexivity; now destruct s. Qed.

(** [np.any(clipped_image != 0, axis=0)] is the validity mask. *)
Lemma any_band_nonzero_mask (clipped_image : array3 f32) :
  is_validity_mask clipped_image (any_band_nonzero clipped_image).
Proof.
  unfold is_validity_mask, any_band_nonzero, Np.any_axis0.
  cbn [a2_rows a2_cols a2_get]. split; [reflexivity|]. split; [reflexivity|].
  intros i j. rewrite existsb_exists. split.
  - intros (b & Hb & Hne). exists b. apply in_seq in Hb.
    split; [exact (proj2 Hb)|].
    rewrite neb_zero in Hne. now apply Bool.negb_true_iff.
  - intros (b & Hb & Hz). exists b.
    split; [apply in_seq; split; [apply Nat.le_0_l | exact Hb]|].
    rewrite neb_zero. now apply Bool.negb_true_iff.
Qed.

Section Facts.
Context {W : Externals}.

(** [clipping_raster] raises on a polygon with a non-finite coordinate
    before it opens or masks the raster: the log is untouched. *)
Lemma clipping_raster_rejects_non_finite (polygon_geojson : GeoJSON)
    (image_path : string) (log : list (event CRS)) :
  has_non_finite polygon_geojson = true ->
  clipping_raster polygon_geojson image_path log
  = (log, Raise invalid_coordinates).
Proof.
  intros H. unfold clipping_raster, IO.bind, IO.lift.
  now rewrite (check_rejects_non_finite _ H).
Qed.

(** What a successful [band_stacker] run has done: opened the raster,
    reconciled the polygon, clipped, and derived mask and features from the
    clip. *)
Lemma band_stacker_ok (raster_path : string) (polygon_geojson : GeoJSON)
    (polygon_crs_epsg : Z) (log log' : list (event CRS))
    (feature_input : array2 f32) (height width : nat)
    (src_profile : profile CRS) (clipped_transform : affine)
    (valid_mask : array2 bool) :
  band_stacker raster_path polygon_geojson polygon_crs_epsg log
  = (log', Ok (feature_input, height, width, src_profile, clipped_transform,
               valid_mask)) ->
  exists src new_polygon_geojson clipped_image,
    rasterio_open raster_path = Ok src
    /\ match_crs (ds_crs src) polygon_geojson polygon_crs_epsg
       = Ok new_polygon_geojson
    /\ rasterio_mask src new_polygon_geojson
       = Ok (clipped_image, clipped_transform)
    /\ prepare_features clipped_image = Ok (feature_input, height, width)
    /\ valid_mask = any_band_nonzero clipped_image
    /\ src_profile = ds_meta src
    /\ log' = (log ++ [Opened raster_path; Masked new_polygon_geojson])%list.
Proof.
  unfold band_stacker, IO.bind, IO.lift, IO.ret, open_raster, mask, IO.call.
  destruct (rasterio_open raster_path) as [src|e] eqn:Hopen; [|discriminate].
  destruct (match_crs (ds_crs src) polygon_geojson polygon_crs_epsg)
    as [new_polygon_geojson|e] eqn:Hmatch; [|discriminate].
  destruct (rasterio_mask src new_polygon_geojson)
    as [[clipped_image tr]|e] eqn:Hmask; [|discriminate].
  destruct (prepare_features clipped_image) as [[[fi h] w]|e] eqn:Hprep;
    [|discriminate].
  intros [= <- <- <- <- <- <- <-].
  exists src, new_polygon_geojson, clipped_image.
  rewrite <- app_assoc. repeat split; assumption || reflexivity.
Qed.

Lemma band_stacker_from_mem_ok (stacked_array : array3 f32)
    (raster_profile : profile CRS) (polygon_geojson : GeoJSON)
    (polygon_crs_epsg : Z) (log log' : list (event CRS))
    (feature_input : array2 f32) (height width : nat)
    (src_profile : profile CRS) (clipped_transform : affine)
    (valid_mask : array2 bool) :
  band_stacker_from_mem stacked_array raster_profile polygon_geojson
                        polygon_crs_epsg log
  = (log', Ok (feature_input, height, width, src_profile, clipped_transform,
               valid_mask)) ->
  exists dataset new_polygon_geojson clipped_image,
    memory_dataset raster_profile stacked_array = Ok dataset
    /\ match_crs (ds_crs dataset) polygon_geojson polygon_crs_epsg
       = Ok new_polygon_geojson
    /\ rasterio_mask dataset new_polygon_geojson
       = Ok (clipped_image, clipped_transform)
    /\ prepare_features clipped_image = Ok (feature_input, height, width)
    /\ valid_mask = any_band_nonzero clipped_image
    /\ src_profile = raster_profile
    /\ log' = (log ++ [Masked new_polygon_geojson])%list.
Proof.
  unfold band_stacker_from_mem, IO.bind, IO.lift, IO.ret, mask, IO.call.
  destruct (memory_dataset raster_profile stacked_array) as [ds|e] eqn:Hopen;
    [|discriminate].
  destruct (match_crs (ds_crs ds) polygon_geojson polygon_crs_epsg)
    as [new_polygon_geojson|e] eqn:Hmatch; [|discriminate].
  destruct (rasterio_mask ds new_polygon_geojson)
    as [[clipped_image tr]|e] eqn:Hmask; [|discriminate].
  destruct (prepare_features clipped_image) as [[[fi h] w]|e] eqn:Hprep;
    [|discriminate].
  intros [= <- <- <- <- <- <- <-].
  exists ds, new_polygon_geojson, clipped_image.
  repeat split; assumption || reflexivity.
Qed.

(** C8. Whenever [band_stacker] (raster on disk) or [band_stacker_from_mem]
    (raster in memory) returns, the mask it returns has the height and width
    of the clipped raster and is true at a pixel exactly when some band of
    the clipped raster is not zero there. *)
Theorem valid_mask_any_band_nonzero (log log' : list (event CRS))
    (polygon_geojson : GeoJSON) (polygon_crs_epsg : Z)
    (feature_input : array2 f32) (height width : nat)
    (src_profile : profile CRS) (clipped_transform : affine)
    (valid_mask : array2 bool) :
  (forall raster_path,
     band_stacker raster_path polygon_geojson polygon_crs_epsg log
     = (log', Ok (feature_input, height, width, src_profile,
                  clipped_transform, valid_mask)) ->
     exists src new_polygon_geojson clipped_image,
       rasterio_open raster_path = Ok src
       /\ rasterio_mask src new_polygon_geojson
          = Ok (clipped_image, clipped_transform)
       /\ height = a3_dim1 clipped_image /\ width = a3_dim2 clipped_image
       /\ is_validity_mask clipped_image valid_mask)
  /\ (forall stacked_array raster_profile,
        band_stacker_from_mem stacked_array raster_profile polygon_geojson
                              polygon_crs_epsg log
        = (log', Ok (feature_input, height, width, src_profile,
                     clipped_transform, valid_mask)) ->
        exists dataset new_polygon_geojson clipped_image,
          memory_dataset raster_profile stacked_array = Ok dataset
          /\ rasterio_mask dataset new_polygon_geojson
             = Ok (clipped_image, clipped_transform)
          /\ height = a3_dim1 clipped_image /\ width = a3_dim2 clipped_image
          /\ is_validity_mask clipped_image valid_mask).
Proof.
  assert (Hshape : forall clipped_image,
            prepare_features clipped_image = Ok (feature_input, height, width) ->
            height = a3_dim1 clipped_image /\ width = a3_dim2 clipped_image).
  { intros clipped_image. unfold prepare_features.
    destruct (negb (a3_dim0 clipped_image =? 6)%nat); [discriminate|].
    destruct (RsIndices.indices_calculator _) as [d|]; [|discriminate].
    cbn [bind]. destruct (RsIndices.keys_differ _ _); [discriminate|].
    destruct (lookup_all _ _) as [layers|]; [|discriminate]. cbn [bind].
    destruct (Np.stack layers) as [st|]; [|discriminate]. cbn [bind].
    intros [= _ <- <-]. now split. }
  split.
  - intros raster_path Hrun.
    destruct (band_stacker_ok _ _ _ _ _ _ _ _ _ _ _ Hrun)
      as (src & np & clipped & Hopen & _ & Hmask & Hprep & -> & _ & _).
    exists src, np, clipped. destruct (Hshape _ Hprep) as [-> ->].
    repeat split; try assumption; apply any_band_nonzero_mask.
  - intros stacked_array raster_profile Hrun.
    destruct (band_stacker_from_mem_ok _ _ _ _ _ _ _ _ _ _ _ _ Hrun)
      as (ds & np & clipped & Hopen & _ & Hmask & Hprep & -> & _ & _).
    exists ds, np, clipped. destruct (Hshape _ Hprep) as [-> ->].
    repeat split; try assumption; apply any_band_nonzero_mask.
Qed.


End Facts.
End ClipFacts.

(** ** Output raster *)

Module OutputFacts.
Import DeepLearning Views.

Lemma dict_get_set_same {V} (d : Dict.t V) (k : string) (v : V) :
  Dict.get (Dict.set d k v) k = Ok v.
Proof.
  induction d as [|[k' v'] d IH]; cbn.
  - now rewrite String.eqb_refl.
  - destruct (String.eqb k' k) eqn:Hk; cbn; rewrite Hk; [reflexivity | exact IH].
Qed.

Lemma dict_get_set_other {V} (d : Dict.t V) (k k' : string) (v : V) :
  k <> k' -> Dict.get (Dict.set d k v) k' = Dict.get d k'.
Proof.
  intros Hne. induction d as [|[k0 v0] d IH]; cbn.
  - apply String.eqb_neq in Hne. now rewrite Hne.
  - destruct (String.eqb k0 k) eqn:Hk; cbn.
    + apply String.eqb_eq in Hk. subst k0.
      apply String.eqb_neq in Hne. now rewrite Hne.
    + destruct (String.eqb k0 k'); [reflexivity | exact IH].
Qed.

Lemma dict_get_remove_other {V} (d : Dict.t V) (k k' : string) :
  k <> k' -> Dict.get (Dict.remove d k) k' = Dict.get d k'.
Proof.
  intros Hne. induction d as [|[k0 v0] d IH]; cbn; [reflexivity|].
  destruct (String.eqb k0 k) eqn:Hk; cbn.
  - apply String.eqb_eq in Hk. subst k0.
    apply String.eqb_neq in Hne. now rewrite Hne.
  - destruct (String.eqb k0 k'); [reflexivity | exact IH].
Qed.


Section Facts.
Context {W : Externals}.






End Facts.
End OutputFacts.

(** The square around Brookings: its centroid (-97, 44) lies in zone 14
    north. *)
Lemma utm_epsg_from_polygon_zone_witness :
  Views.utm_epsg_from_polygon (W := World.world) World.square = Ok 32614%Z
  /\ (32601 <= 32614 <= 32660)%Z.
Proof.
  apply (proj2 (GeometryFacts.utm_epsg_from_polygon_zone
                  (W := World.world) World.square World.square
                  (F64.of_Z (-97)) (F64.of_Z 44)
                  eq_refl eq_refl eq_refl eq_refl)).
  - reflexivity.
  - reflexivity.
Defined.

(** The square, already in the coordinate system of the raster. *)
Lemma match_crs_same_crs_witness :
  Views.match_crs (W := World.world) 32614%Z World.square 32614 = Ok World.square.
Proof.
  apply (GeometryFacts.match_crs_same_crs (W := World.world)
           32614%Z 32614%Z World.square 32614); reflexivity.
Defined.



(** Clipping the sample raster: the mask is true at the first pixel and
    false at the second. *)
Lemma valid_mask_any_band_nonzero_witness :
  exists src clipped,
    Views.rasterio_mask (Externals := World.world) src World.square
    = Ok (clipped, World.identity)
    /\ Views.is_validity_mask clipped (Views.any_band_nonzero World.clip)
    /\ a2_get (Views.any_band_nonzero World.clip) 0 0 = true
    /\ a2_get (Views.any_band_nonzero World.clip) 0 1 = false.
Proof.
  destruct (proj1 (ClipFacts.valid_mask_any_band_nonzero
                     (W := World.world) [] _ World.square 32614 _ 1 2 _
                     World.identity (Views.any_band_nonzero World.clip))
                  "hls.tif" eq_refl)
    as (src & np & clipped & _ & Hmask & _ & _ & Hvalid).
  exists src, clipped. split; [exact Hmask|]. split; [exact Hvalid|].
  split; reflexivity.
Defined.


(** * Further properties *)

(** ** The feature synthesizer, continued *)

(** More facts about the float model. *)
Module FloatMore.
Import FloatFacts.
Local Open Scope Z_scope.

Section Format.
Variables prec emax : Z.

Lemma shr_fexp_nonneg (m e : Z) (l : location) :
  0 <= m -> 0 <= shr_m (fst (shr_fexp prec emax m e l)).
Proof.
  intros Hm. unfold shr_fexp, shr.
  destruct (fexp prec emax (Zdigits2 m + e) - e) as [|n|n]; cbn [fst];
    try (rewrite shr_record_of_loc_m; exact Hm).
  rewrite shr_iter_m by (rewrite shr_record_of_loc_m; exact Hm).
  rewrite shr_record_of_loc_m. apply Z.div_pos; [exact Hm|].
  apply Z.pow_pos_nonneg; lia.
Qed.

(** Rounding a non-negative mantissa never yields NaN. *)
Lemma binary_round_aux_not_nan (s : bool) (m e : Z) (l : location) :
  0 <= m -> binary_round_aux prec emax s m e l <> S754_nan.
Proof.
  intros Hm. unfold binary_round_aux.
  pose proof (shr_fexp_nonneg m e l Hm) as H1.
  destruct (shr_fexp prec emax m e l) as [mrs' e']. cbn [fst] in H1.
  assert (Hr : 0 <= round_nearest_even (shr_m mrs') (loc_of_shr_record mrs')).
  { destruct (loc_of_shr_record mrs') as [|[]]; cbn; try lia.
    destruct (Z.even (shr_m mrs')); lia. }
  pose proof (shr_fexp_nonneg _ e' loc_Exact Hr) as H2.
  destruct (shr_fexp prec emax _ e' loc_Exact) as [mrs'' e'']. cbn [fst] in H2.
  destruct (shr_m mrs'') as [|q|q]; try lia; try discriminate.
  destruct (e'' <=? emax - prec); discriminate.
Qed.

Lemma binary_normalize_not_nan (m e : Z) (sz : bool) :
  binary_normalize prec emax m e sz <> S754_nan.
Proof.
  unfold binary_normalize, binary_round.
  destruct m as [|p|p]; try discriminate.
  - destruct (shl_align p e _) as [mz ez].
    apply binary_round_aux_not_nan. lia.
  - destruct (shl_align p e _) as [mz ez].
    apply binary_round_aux_not_nan. lia.
Qed.

(** The sum of two finite numbers is a number: finite or, on overflow,
    infinite. *)
Lemma add_finite_not_nan (x y : spec_float) :
  IEEE.isfinite x = true -> IEEE.isfinite y = true ->
  SFadd prec emax x y <> S754_nan.
Proof.
  destruct x as [sx | sx | | sx mx ex]; try discriminate;
    destruct y as [sy | sy | | sy my ey]; try discriminate; intros _ _.
  - destruct sx, sy; intros H; discriminate H.
  - apply binary_normalize_not_nan.
Qed.
End Format.

(** +0 divided by a number that is neither zero nor NaN is a zero. *)
Lemma zero_div (d : f32) :
  IEEE.is_zero d = false -> d <> S754_nan ->
  IEEE.is_zero (F32.div (S754_zero false) d) = true.
Proof. destruct d; try reflexivity; [discriminate | congruence]. Qed.

End FloatMore.

Module FeatureMore.
Import RsIndices DeepLearning.

(** X1. A raster with fewer than six channels makes [indices_calculator] raise
    NumPy's [IndexError] at the first channel that is missing. *)
Theorem indices_calculator_short (input_image : array3 f32) :
  (a3_dim2 input_image < 6)%nat ->
  indices_calculator input_image
  = Raise (IndexError ("index " ++ str_nat (a3_dim2 input_image)
                       ++ " is out of bounds for axis 2 with size "
                       ++ str_nat (a3_dim2 input_image))).
Proof.
  intros Hlt. unfold indices_calculator, Np.index_last.
  destruct (a3_dim2 input_image) as [|[|[|[|[|[|n]]]]]]; try lia; reflexivity.
Qed.

(** The layers of [indices_calculator], pixel by pixel: on a raster with at
    least six channels the layer of the [f]-th feature name holds, at every
    pixel, the [f]-th feature of the first six channel values. *)
Lemma indices_calculator_layers (input_image : array3 f32) :
  (6 <= a3_dim2 input_image)%nat ->
  exists features_dict,
    indices_calculator input_image = Ok features_dict
    /\ forall f name,
         nth_error FEATURE_ORDER_21 f = Some name ->
         exists layer,
           Dict.get features_dict name = Ok layer
           /\ a2_rows layer = a3_dim0 input_image
           /\ a2_cols layer = a3_dim1 input_image
           /\ forall i j,
                a2_get layer i j
                = nth f (pixel_features
                           (a3_get input_image i j 0) (a3_get input_image i j 1)
                           (a3_get input_image i j 2) (a3_get input_image i j 3)
                           (a3_get input_image i j 4) (a3_get input_image i j 5))
                      fill_value.
Proof.
  intros Hb. unfold indices_calculator, Np.index_last.
  repeat match goal with
  | |- context [(?k <? a3_dim2 input_image)%nat] =>
      replace (k <? a3_dim2 input_image)%nat with true
        by (symmetry; apply Nat.ltb_lt; lia)
  end.
  cbn [bind]. eexists. split; [reflexivity|].
  intros f name Hname.
  do 21 (destruct f as [|f];
         [injection Hname as <-; eexists; repeat split; reflexivity|]).
  destruct f; discriminate Hname.
Qed.

(** X2. Channels beyond the sixth are not looked at: two rasters that agree on
    their first six channels get the same layers (whereas [prepare_features]
    refuses a seventh band). *)
Theorem indices_calculator_first_six (a b : array3 f32) :
  (6 <= a3_dim2 a)%nat -> (6 <= a3_dim2 b)%nat ->
  a3_dim0 a = a3_dim0 b -> a3_dim1 a = a3_dim1 b ->
  (forall i j k, (i < a3_dim0 a)%nat -> (j < a3_dim1 a)%nat -> (k < 6)%nat ->
                 a3_get a i j k = a3_get b i j k) ->
  exists da db,
    indices_calculator a = Ok da
    /\ indices_calculator b = Ok db
    /\ forall f name,
         nth_error FEATURE_ORDER_21 f = Some name ->
         exists la lb,
           Dict.get da name = Ok la
           /\ Dict.get db name = Ok lb
           /\ a2_rows la = a2_rows lb
           /\ a2_cols la = a2_cols lb
           /\ forall i j, (i < a2_rows la)%nat -> (j < a2_cols la)%nat ->
                          a2_get la i j = a2_get lb i j.
Proof.
  intros Ha Hb H0 H1 Hagree.
  destruct (indices_calculator_layers a Ha) as (da & Hda & Hla).
  destruct (indices_calculator_layers b Hb) as (db & Hdb & Hlb).
  exists da, db. split; [exact Hda|]. split; [exact Hdb|].
  intros f name Hname.
  destruct (Hla f name Hname) as (la & Hgeta & Hra & Hca & Hpa).
  destruct (Hlb f name Hname) as (lb & Hgetb & Hrb & Hcb & Hpb).
  exists la, lb. split; [exact Hgeta|]. split; [exact Hgetb|].
  split; [congruence|]. split; [congruence|].
  intros i j Hi Hj. rewrite Hra in Hi. rewrite Hca in Hj.
  rewrite Hpa, Hpb. now rewrite !(Hagree i j) by (assumption || lia).
Qed.

(** A quotient whose two operands are the same finite value, over a sum of
    finite values that is not zero, sanitizes to a zero. *)
Lemma equal_operands_zero (a s t : f32) :
  IEEE.isfinite a = true -> IEEE.isfinite s = true -> IEEE.isfinite t = true ->
  IEEE.is_zero (F32.add s t) = false ->
  IEEE.is_zero (sanitize1 fill_value (F32.div (F32.sub a a) (F32.add s t)))
  = true.
Proof.
  intros Ha Hs Ht Hnz. rewrite FloatFacts.sub_diag by exact Ha.
  pose proof (FloatMore.zero_div (F32.add s t) Hnz
                (FloatMore.add_finite_not_nan _ _ s t Hs Ht)) as Hz.
  unfold sanitize1.
  destruct (F32.div (S754_zero false) (F32.add s t)); try discriminate Hz.
  reflexivity.
Qed.

(** X3. Where NIR equals red (both finite, their sum not zero) the NDVI column
    of the feature matrix is zero, and where green equals red the NGRDI
    column is zero. *)
Theorem equal_bands_zero_index (clipped_image : array3 f32) :
  a3_dim0 clipped_image = 6%nat ->
  exists feature_input,
    prepare_features clipped_image
    = Ok (feature_input, a3_dim1 clipped_image, a3_dim2 clipped_image)
    /\ forall p,
         let i := (p / a3_dim2 clipped_image)%nat in
         let j := (p mod a3_dim2 clipped_image)%nat in
         let G := a3_get clipped_image 1 i j in
         let R := a3_get clipped_image 2 i j in
         let NIR := a3_get clipped_image 3 i j in
         IEEE.isfinite R = true ->
         IEEE.is_zero (F32.add R R) = false ->
         (NIR = R -> IEEE.is_zero (a2_get feature_input p 7) = true)
         /\ (G = R -> IEEE.is_zero (a2_get feature_input p 20) = true).
Proof.
  intros Hbands.
  destruct (FeatureFacts.prepare_features_rows clipped_image Hbands)
    as (feature_input & Hrun & _ & _ & Hrow).
  exists feature_input. split; [exact Hrun|].
  intros p. cbv zeta. intros HR Hnz. split; intros Heq.
  - rewrite (Hrow p 7%nat) by lia. unfold features_at.
    cbn [nth pixel_features]. unfold px_NDVI. rewrite Heq.
    now apply equal_operands_zero.
  - rewrite (Hrow p 20%nat) by lia. unfold features_at.
    cbn [nth pixel_features]. unfold px_NGRDI. rewrite Heq.
    now apply equal_operands_zero.
Qed.

(** X4. The red-edge slot is fed the sanitized NDVI: where NIR + red is zero it
    holds NIR x (-9999), not the fill value, and in particular a zero, not
    -9999, where NIR itself is zero. *)
Theorem red_edge_slot_of_invalid_ndvi (clipped_image : array3 f32) :
  a3_dim0 clipped_image = 6%nat ->
  exists feature_input,
    prepare_features clipped_image
    = Ok (feature_input, a3_dim1 clipped_image, a3_dim2 clipped_image)
    /\ forall p,
         let i := (p / a3_dim2 clipped_image)%nat in
         let j := (p mod a3_dim2 clipped_image)%nat in
         let R := a3_get clipped_image 2 i j in
         let NIR := a3_get clipped_image 3 i j in
         IEEE.is_zero (F32.add NIR R) = true ->
         a2_get feature_input p 7 = F32.of_Z (-9999)
         /\ a2_get feature_input p 5
            = sanitize1 fill_value (F32.mul NIR (F32.of_Z (-9999)))
         /\ (IEEE.is_zero NIR = true ->
             IEEE.is_zero (a2_get feature_input p 5) = true).
Proof.
  intros Hbands.
  destruct (FeatureFacts.prepare_features_rows clipped_image Hbands)
    as (feature_input & Hrun & _ & _ & Hrow).
  exists feature_input. split; [exact Hrun|].
  intros p. cbv zeta. intros Hz.
  assert (Hndvi : px_NDVI (a3_get clipped_image 2 (p / a3_dim2 clipped_image)
                                  (p mod a3_dim2 clipped_image))
                          (a3_get clipped_image 3 (p / a3_dim2 clipped_image)
                                  (p mod a3_dim2 clipped_image))
                  = fill_value).
  { unfold px_NDVI. apply FeatureFacts.sanitize1_fill.
    now apply FeatureFacts.div_by_zero_not_finite. }
  split; [|split].
  - rewrite (Hrow p 7%nat) by lia. exact Hndvi.
  - rewrite (Hrow p 5%nat) by lia. unfold features_at.
    cbn [nth pixel_features]. unfold px_NIRv. now rewrite Hndvi.
  - intros Hnir. rewrite (Hrow p 5%nat) by lia. unfold features_at.
    cbn [nth pixel_features]. unfold px_NIRv. rewrite Hndvi.
    destruct (a3_get clipped_image 3 _ _) as [s| | |]; try discriminate Hnir.
    now destruct s.
Qed.

(** X5. The six raw slots: columns 0, 1, 2, 3, 4 and 6 of the feature matrix
    hold blue, SWIR1, green, SWIR2, red and NIR, unchanged where the band
    value is finite and -9999 where it is not. *)
Theorem raw_slots (clipped_image : array3 f32) :
  a3_dim0 clipped_image = 6%nat ->
  exists feature_input,
    prepare_features clipped_image
    = Ok (feature_input, a3_dim1 clipped_image, a3_dim2 clipped_image)
    /\ forall p slot band,
         In (slot, band) [(0, 0); (1, 4); (2, 1); (3, 5); (4, 2); (6, 3)]%nat ->
         let v := a3_get clipped_image band (p / a3_dim2 clipped_image)
                         (p mod a3_dim2 clipped_image) in
         (IEEE.isfinite v = true -> a2_get feature_input p slot = v)
         /\ (IEEE.isfinite v = false ->
             a2_get feature_input p slot = F32.of_Z (-9999)).
Proof.
  intros Hbands.
  destruct (FeatureFacts.prepare_features_rows clipped_image Hbands)
    as (feature_input & Hrun & _ & _ & Hrow).
  exists feature_input. split; [exact Hrun|].
  intros p slot band Hin. cbv zeta.
  repeat (destruct Hin as [Hin | Hin];
          [ injection Hin as <- <-; rewrite Hrow by lia;
            unfold features_at; cbn [nth pixel_features]; unfold sanitize1;
            split; intros ->; reflexivity | ]).
  contradiction.
Qed.

End FeatureMore.

(** Five channels: channel 5 is the first one missing. *)
Lemma indices_calculator_short_witness :
  RsIndices.indices_calculator (MoreSamples.ramp 5)
  = Raise (IndexError "index 5 is out of bounds for axis 2 with size 5").
Proof.
  apply (FeatureMore.indices_calculator_short (MoreSamples.ramp 5)).
  simpl. lia.
Defined.

(** Seven channels against the first six of them. *)
Lemma indices_calculator_first_six_witness :
  exists da db la lb,
    RsIndices.indices_calculator (MoreSamples.ramp 7) = Ok da
    /\ RsIndices.indices_calculator (MoreSamples.ramp 6) = Ok db
    /\ Dict.get da "NDVI" = Ok la /\ Dict.get db "NDVI" = Ok lb
    /\ a2_get la 0 0 = a2_get lb 0 0.
Proof.
  destruct (FeatureMore.indices_calculator_first_six
              (MoreSamples.ramp 7) (MoreSamples.ramp 6))
    as (da & db & Hda & Hdb & Hlayers).
  - simpl. lia.
  - simpl. lia.
  - reflexivity.
  - reflexivity.
  - intros i j k _ _ _. reflexivity.
  - destruct (Hlayers 7%nat "NDVI" eq_refl)
      as (la & lb & Hla & Hlb & Hr & _ & Hpix).
    exists da, db, la, lb. repeat split; try assumption.
    apply Hpix.
    + destruct (FeatureMore.indices_calculator_layers (MoreSamples.ramp 7))
        as (d & Hd & Hl); [simpl; lia|].
      rewrite Hda in Hd. injection Hd as <-.
      destruct (Hl 7%nat "NDVI" eq_refl) as (l & Hget & Hrows & _).
      rewrite Hla in Hget. injection Hget as <-. rewrite Hrows. simpl. lia.
    + destruct (FeatureMore.indices_calculator_layers (MoreSamples.ramp 7))
        as (d & Hd & Hl); [simpl; lia|].
      rewrite Hda in Hd. injection Hd as <-.
      destruct (Hl 7%nat "NDVI" eq_refl) as (l & Hget & _ & Hcols & _).
      rewrite Hla in Hget. injection Hget as <-. rewrite Hcols. simpl. lia.
Defined.

(** The all-ones clip: NDVI and NGRDI are zero. *)
Lemma equal_bands_zero_index_witness :
  exists feature_input,
    DeepLearning.prepare_features MoreSamples.ones
    = Ok (feature_input, 1%nat, 1%nat)
    /\ IEEE.is_zero (a2_get feature_input 0 7) = true
    /\ IEEE.is_zero (a2_get feature_input 0 20) = true.
Proof.
  destruct (FeatureMore.equal_bands_zero_index MoreSamples.ones eq_refl)
    as (feature_input & Hrun & Hzero).
  exists feature_input. split; [exact Hrun|].
  destruct (Hzero 0%nat eq_refl eq_refl) as [Hndvi Hngrdi].
  split; [apply Hndvi | apply Hngrdi]; reflexivity.
Defined.

(** The all-zero clip: NDVI is -9999 and the red-edge slot is a zero. *)
Lemma red_edge_slot_of_invalid_ndvi_witness :
  exists feature_input,
    DeepLearning.prepare_features (Samples.zeros 6)
    = Ok (feature_input, 1%nat, 1%nat)
    /\ a2_get feature_input 0 7 = F32.of_Z (-9999)
    /\ IEEE.is_zero (a2_get feature_input 0 5) = true.
Proof.
  destruct (FeatureMore.red_edge_slot_of_invalid_ndvi (Samples.zeros 6) eq_refl)
    as (feature_input & Hrun & Hre).
  exists feature_input. split; [exact Hrun|].
  destruct (Hre 0%nat eq_refl) as (Hndvi & _ & Hzero).
  split; [exact Hndvi | now apply Hzero].
Defined.

(** The clip with NIR = 1: column 6 holds the 1, column 1 the SWIR1 zero. *)
Lemma raw_slots_witness :
  exists feature_input,
    DeepLearning.prepare_features Samples.unit_nir
    = Ok (feature_input, 1%nat, 1%nat)
    /\ a2_get feature_input 0 6 = F32.of_Z 1
    /\ a2_get feature_input 0 1 = F32.of_Z 0.
Proof.
  destruct (FeatureMore.raw_slots Samples.unit_nir eq_refl)
    as (feature_input & Hrun & Hraw).
  exists feature_input. split; [exact Hrun|]. split.
  - apply (proj1 (Hraw 0%nat 6%nat 3%nat ltac:(simpl; tauto))). reflexivity.
  - apply (proj1 (Hraw 0%nat 1%nat 4%nat ltac:(simpl; tauto))). reflexivity.
Defined.

(** ** Prediction *)

Module PredictFacts.
Import DeepLearning LegacyInfer.

Section Facts.
Variable legacy_infer_url : string.
Variable requests_post : string -> array2 f32 -> string + legacy_body.
Variable get_model : result keras_model.
Variable standard_scaler : array2 f32 -> array2 f32.

(** X6. With a legacy service URL configured, [predict_density] answers from
    the service alone: a failed request and a body whose status is not
    "success" raise a [RuntimeError], a number of predictions other than
    height x width raises a [ValueError], and otherwise the predictions are
    laid out row by row in a height x width grid. *)
Theorem predict_density_legacy (feature_input : array2 f32)
    (height width : nat) :
  legacy_infer_url <> "" ->
  let run := predict_density legacy_infer_url requests_post get_model
                             standard_scaler feature_input height width in
  (forall exc,
     requests_post legacy_infer_url feature_input = inl exc ->
     run = Raise (RuntimeError ("Legacy inference request failed: " ++ exc)))
  /\ (forall body,
        requests_post legacy_infer_url feature_input = inr body ->
        body_status body <> Some "success" ->
        run = Raise (RuntimeError
                       ("Legacy inference error: "
                        ++ match body_error body with
                           | Some e => e
                           | None => "unknown"
                           end)))
  /\ (forall body,
        requests_post legacy_infer_url feature_input = inr body ->
        body_status body = Some "success" ->
        let values := match body_predictions body with
                      | Some l => l
                      | None => []
                      end in
        (List.length values <> (height * width)%nat ->
         run = Raise (ValueError
                        ("Legacy inference returned "
                         ++ str_nat (List.length values)
                         ++ " predictions, expected "
                         ++ str_nat (height * width)
                         ++ " for output shape (" ++ str_nat height ++ ", "
                         ++ str_nat width ++ ").")))
        /\ (List.length values = (height * width)%nat ->
            exists preds,
              run = Ok preds
              /\ a2_rows preds = height /\ a2_cols preds = width
              /\ forall i j,
                   a2_get preds i j
                   = nth (i * width + j) values (S754_zero false))).
Proof.
  intros Hurl. cbv zeta. unfold predict_density.
  apply String.eqb_neq in Hurl. rewrite Hurl. cbn [negb].
  split; [|split].
  - intros exc ->. reflexivity.
  - intros body -> Hstatus. cbn [bind].
    destruct (body_status body) as [st|].
    + destruct (String.eqb st "success") eqn:Hst; [|reflexivity].
      apply String.eqb_eq in Hst. congruence.
    + reflexivity.
  - intros body -> Hstatus. cbn [bind]. rewrite Hstatus.
    rewrite String.eqb_refl. cbn [negb a1_size].
    split.
    + intros Hlen. apply Nat.eqb_neq in Hlen. now rewrite Hlen.
    + intros Hlen. unfold Np.reshape_2d. cbn [a1_size a1_get].
      rewrite Hlen, Nat.eqb_refl. cbn [negb].
      eexists. split; [reflexivity|]. repeat split.
Qed.

(** X7. Which of the two back ends is consulted: with a URL configured the
    answer does not depend on the local model or scaler, and without one it
    does not depend on the HTTP client. *)
Theorem predict_density_back_end (feature_input : array2 f32)
    (height width : nat) :
  (legacy_infer_url <> "" ->
   forall get_model' standard_scaler',
     predict_density legacy_infer_url requests_post get_model
                     standard_scaler feature_input height width
     = predict_density legacy_infer_url requests_post get_model'
                       standard_scaler' feature_input height width)
  /\ (legacy_infer_url = "" ->
      forall requests_post',
        predict_density legacy_infer_url requests_post get_model
                        standard_scaler feature_input height width
        = predict_density legacy_infer_url requests_post' get_model
                          standard_scaler feature_input height width).
Proof.
  split.
  - intros Hurl gm sc. unfold predict_density.
    apply String.eqb_neq in Hurl. now rewrite Hurl.
  - intros -> post. reflexivity.
Qed.

(** X8. Without a legacy URL the prediction grid comes from the local model: it
    is returned exactly when the model loads, accepts the scaled matrix and
    answers height x width predictions, which are laid out row by row. *)
Theorem predict_density_local (feature_input : array2 f32)
    (height width : nat) (model : keras_model) (tensor : array3 f32) :
  legacy_infer_url = "" ->
  get_model = Ok model ->
  predict_density_reshape (input_shape model) (standard_scaler feature_input)
  = Ok tensor ->
  let run := predict_density legacy_infer_url requests_post get_model
                             standard_scaler feature_input height width in
  let preds := predict model tensor in
  (a1_size preds = (height * width)%nat ->
   exists grid,
     run = Ok grid
     /\ a2_rows grid = height /\ a2_cols grid = width
     /\ forall i j, a2_get grid i j = a1_get preds (i * width + j))
  /\ (a1_size preds <> (height * width)%nat ->
      exists msg, run = Raise (ValueError msg)).
Proof.
  intros -> Hmodel Htensor. cbv zeta. unfold predict_density.
  cbn [String.eqb negb]. rewrite Hmodel. cbn [bind]. rewrite Htensor.
  cbn [bind]. unfold Np.reshape_2d. split.
  - intros ->. rewrite Nat.eqb_refl. eexists. split; [reflexivity|].
    repeat split.
  - intros Hne. apply Nat.eqb_neq in Hne. rewrite Hne. eexists. reflexivity.
Qed.

End Facts.

(** *** The model input *)

(** X9. What the three conventions put into the tensor: one feature per step,
    all features in one step, or, for the (4, 6) model, the six features
    repeated in each of the four steps. *)
Theorem reshape_contents (x : array2 f32) (model : keras_model)
    (steps channels : option nat) (tensor : array3 f32) :
  expected_steps_channels (input_shape model) = Ok (steps, channels) ->
  reshape_for_model x model = Ok tensor ->
  predict_density_reshape (input_shape model) x = Ok tensor
  /\ (channels = Some 1%nat -> steps = Some (a2_cols x) ->
      forall s step, a3_get tensor s step 0 = a2_get x s step)
  /\ (steps = Some 1%nat -> channels = Some (a2_cols x) ->
      forall s ch, (ch < a3_dim2 tensor)%nat ->
                   a3_get tensor s 0 ch = a2_get x s ch)
  /\ (steps = Some 4%nat -> channels = Some 6%nat ->
      a3_dim1 tensor = 4%nat
      /\ forall s step ch, (step < 4)%nat ->
                           a3_get tensor s step ch = a2_get x s ch).
Proof.
  intros Hshape. unfold reshape_for_model, predict_density_reshape.
  rewrite Hshape. cbn [bind].
  destruct (dim_is steps (a2_cols x) && dim_is channels 1) eqn:H1.
  { intros [= <-]. split; [reflexivity|].
    apply Bool.andb_true_iff in H1. destruct H1 as [Hs Hc].
    apply ShapeFacts.dim_is_true in Hs, Hc. subst steps channels.
    split; [|split].
    - intros _ _ s step. reflexivity.
    - intros [= H1] [= Hc]. intros s ch Hch. cbn in Hch |- *.
      now replace ch with 0%nat by lia.
    - intros [= H4] [= H6]. }
  destruct (dim_is steps 1 && dim_is channels (a2_cols x)) eqn:H2.
  { intros [= <-]. split; [reflexivity|].
    apply Bool.andb_true_iff in H2. destruct H2 as [Hs Hc].
    apply ShapeFacts.dim_is_true in Hs, Hc. subst steps channels.
    split; [|split].
    - intros [= Hc] [= Hs]. cbn [dim_is] in H1. rewrite Hc in H1.
      discriminate H1.
    - intros _ _ s ch _. reflexivity.
    - intros [= H4]. }
  destruct (dim_is steps 4 && dim_is channels 6 && (a2_cols x =? 6)%nat) eqn:H3;
    [|discriminate].
  intros [= <-]. split; [reflexivity|].
  apply Bool.andb_true_iff in H3. destruct H3 as [H3 H6].
  apply Bool.andb_true_iff in H3. destruct H3 as [Hs Hc].
  apply ShapeFacts.dim_is_true in Hs, Hc. subst steps channels.
  apply Nat.eqb_eq in H6.
  split; [|split].
  - intros [= Hc]. 
  - intros [= Hs].
  - intros _ _. split; [reflexivity|]. intros s step ch Hstep.
    reflexivity.
Qed.

(** X10. How the declared input shape is read: [None] and shapes of a rank other
    than 3 are refused as unsupported, an empty list of shapes raises an
    [IndexError], and of a list of shapes only the first counts. *)
Theorem declared_shape_reading (x : array2 f32)
    (predict : array3 f32 -> array1 f32) :
  let model shape := {| input_shape := shape; predict := predict |} in
  let unsupported s :=
    Raise (ValueError ("Unsupported model input shape: " ++ str_shape s)) in
  (reshape_for_model x (model ShapeNone) = unsupported None
   /\ predict_density_reshape ShapeNone x = unsupported None)
  /\ (forall dims,
        List.length dims <> 3%nat ->
        reshape_for_model x (model (ShapeTuple dims)) = unsupported (Some dims)
        /\ predict_density_reshape (ShapeTuple dims) x
           = unsupported (Some dims))
  /\ (reshape_for_model x (model (ShapeList []))
      = Raise (IndexError "list index out of range")
      /\ predict_density_reshape (ShapeList []) x
         = Raise (IndexError "list index out of range"))
  /\ (forall first rest,
        let single := match first with
                      | Some dims => ShapeTuple dims
                      | None => ShapeNone
                      end in
        reshape_for_model x (model (ShapeList (first :: rest)))
        = reshape_for_model x (model single)
        /\ predict_density_reshape (ShapeList (first :: rest)) x
           = predict_density_reshape single x).
Proof.
  cbv zeta. split; [split; reflexivity|]. split; [|split].
  - intros dims Hlen. unfold reshape_for_model, predict_density_reshape.
    cbn [input_shape expected_steps_channels bind].
    destruct dims as [|a [|b [|c [|d dims]]]]; cbn in Hlen; try lia;
      split; reflexivity.
  - split; reflexivity.
  - intros first rest. destruct first; split; reflexivity.
Qed.

End PredictFacts.

(** ** The model handle *)

Module ModelCacheFacts.
Import DeepLearning ModelCache.

(** X11. Both [get_model] functions load the model at most once: after a call
    that succeeded, every later call answers the same model and leaves the
    global alone, whatever the environment, the loader and the file system
    have become; a call that failed leaves the global empty, so the next
    call tries again. *)
Theorem get_model_loads_once
    (getenv getenv' : string -> option string)
    (load_model load_model' : string -> exc + keras_model)
    (path_exists path_exists' : string -> bool)
    (default_path default_path' : string) (cached : option keras_model) :
  (forall st r,
     get_model getenv load_model default_path cached = (st, r) ->
     (forall model, r = inr model ->
        st = Some model
        /\ get_model getenv' load_model' default_path' st = (st, inr model))
     /\ (forall e, r = inl e -> st = None /\ cached = None))
  /\ (forall st r,
        legacy_get_model getenv load_model path_exists cached = (st, r) ->
        (forall model, r = inr model ->
           st = Some model
           /\ legacy_get_model getenv' load_model' path_exists' st
              = (st, inr model))
        /\ (forall e, r = inl e -> st = None /\ cached = None)).
Proof.
  split; intros st r; unfold get_model, legacy_get_model.
  - destruct cached as [m|].
    + intros [= <- <-]. split; [intros model [= <-]; now split | discriminate].
    + destruct (load_model _) as [e|m]; intros [= <- <-].
      * split; [discriminate | intros e' _; now split].
      * split; [intros model [= <-]; now split | discriminate].
  - destruct cached as [m|].
    + intros [= <- <-]. split; [intros model [= <-]; now split | discriminate].
    + destruct (negb (path_exists _)).
      * intros [= <- <-]. split; [discriminate | intros e' _; now split].
      * destruct (load_model _) as [e|m]; intros [= <- <-].
        -- split; [discriminate | intros e' _; now split].
        -- split; [intros model [= <-]; now split | discriminate].
Qed.

(** X12. The legacy service refuses to load a model file that does not exist,
    without calling the loader. *)
Theorem legacy_get_model_missing_file
    (getenv : string -> option string)
    (load_model : string -> exc + keras_model)
    (path_exists : string -> bool) :
  path_exists (model_path getenv) = false ->
  legacy_get_model getenv load_model path_exists None
  = (None, inl (FileNotFoundError
                  ("Legacy model file not found: " ++ model_path getenv)))
  /\ forall load_model',
       legacy_get_model getenv load_model' path_exists None
       = legacy_get_model getenv load_model path_exists None.
Proof.
  intros Hmissing. unfold legacy_get_model. rewrite Hmissing. cbn [negb].
  split; [reflexivity|]. intros load'. reflexivity.
Qed.

End ModelCacheFacts.

(** ** Scaling in the legacy service *)

Module ScaleMore.
Import LegacyInfer.





End ScaleMore.

(** ** Serving the output raster *)

Module MediaFacts.
Import Media.

Lemma int_of_digits_nonneg (s : string) : (0 <= int_of_digits s)%Z.
Proof.
  unfold int_of_digits.
  assert (H : forall l acc, (0 <= acc)%Z ->
            (0 <= fold_left (fun acc c =>
                               (10 * acc + Z.of_nat (nat_of_ascii c - 48))%Z)
                            l acc)%Z).
  { induction l as [|c l IH]; intros acc Hacc; cbn [fold_left]; [exact Hacc|].
    apply IH. lia. }
  apply H. lia.
Qed.

Lemma int_nonneg (limit : nat) (s : string) (n : Z) :
  int limit s = Ok n -> (0 <= n)%Z.
Proof.
  unfold int. destruct (_ && _); [discriminate|].
  intros [= <-]. apply int_of_digits_nonneg.
Qed.

Lemma prefix_append (p s : string) : String.prefix p (p ++ s) = true.
Proof.
  induction p as [|c p IH]; cbn.
  - now destruct s.
  - destruct (ascii_dec c c) as [_|Hne]; [exact IH | now elim Hne].
Qed.

Lemma firstn_length_firstn {B} (n : nat) (l : list B) :
  firstn (List.length (firstn n l)) l = firstn n l.
Proof.
  revert l. induction n as [|n IH]; intros [|b l]; cbn; try reflexivity.
  now rewrite IH.
Qed.

Lemma firstn_split {B} (k n : nat) (l : list B) :
  (k <= n)%nat ->
  firstn n l = (firstn k l ++ firstn (n - k) (skipn k l))%list.
Proof.
  revert n l. induction k as [|k IH]; intros n l Hk.
  - cbn. now rewrite Nat.sub_0_r.
  - destruct n as [|n]; [lia|]. destruct l as [|b l]; cbn.
    + now rewrite firstn_nil.
    + f_equal. apply IH. lia.
Qed.

(** The chunks of the read loop are the next [remaining] bytes of the file,
    in order. *)
Lemma read_loop_concat {B} (chunk_size : nat) :
  (0 < chunk_size)%nat ->
  forall passes (rest : list B) remaining,
    (remaining <= passes)%nat ->
    List.concat (read_loop passes chunk_size rest remaining) = firstn remaining rest.
Proof.
  intros Hcs. induction passes as [|passes IH]; intros rest remaining Hle.
  - replace remaining with 0%nat by lia. reflexivity.
  - cbn [read_loop]. destruct remaining as [|r]; [reflexivity|].
    cbn [Nat.ltb Nat.leb].
    destruct (firstn (Nat.min chunk_size (S r)) rest) as [|b chunk] eqn:Hchunk.
    + destruct rest as [|b rest]; [reflexivity|].
      destruct chunk_size as [|c]; [lia|]. discriminate Hchunk.
    + cbn [List.concat]. rewrite IH.
      * rewrite <- Hchunk.
        assert (Hk : (List.length (firstn (Nat.min chunk_size (S r)) rest)
                      <= S r)%nat).
        { rewrite length_firstn. lia. }
        rewrite (firstn_split _ (S r) rest Hk).
        now rewrite firstn_length_firstn.
      * cbn [List.length]. lia.
Qed.

(** No chunk is empty and none is longer than [chunk_size]. *)
Lemma read_loop_chunks {B} (chunk_size : nat) :
  forall passes (rest : list B) remaining,
    Forall (fun chunk => (1 <= List.length chunk <= chunk_size)%nat)
           (read_loop passes chunk_size rest remaining).
Proof.
  induction passes as [|passes IH]; intros rest remaining; [constructor|].
  cbn [read_loop]. destruct (0 <? remaining)%nat; [|constructor].
  destruct (firstn (Nat.min chunk_size remaining) rest) as [|b chunk] eqn:Hchunk;
    [constructor|].
  constructor; [|apply IH].
  rewrite <- Hchunk. rewrite length_firstn.
  assert (H := f_equal (@List.length _) Hchunk).
  rewrite length_firstn in H. cbn in H. lia.
Qed.

Section Facts.
Variable MEDIA_ROOT : string.
Variable normpath_join : string -> string -> string.
Variable abspath : string -> string.
Variable path_exists : string -> bool.
Variable getsize : string -> nat.
Variable max_str_digits : nat.

(** Every response the view builds. *)
Lemma serve_media_range_cases (range_header filename : string)
    (r : response) :
  serve_media_range MEDIA_ROOT normpath_join abspath path_exists getsize
    max_str_digits range_header filename = Ok r ->
  let file_path := normpath_join MEDIA_ROOT filename in
  let file_size := Z.of_nat (getsize file_path) in
  r = JsonResponse "Invalid file path." 400
  \/ r = JsonResponse "File not found." 404
  \/ (range_header <> "" /\ r = JsonResponse "Malformed Range header." 400)
  \/ (range_header <> "" /\ status_code r = 416%Z
      /\ content r = JsonError "Requested range not satisfiable.")
  \/ (range_header <> ""
      /\ exists first_byte last_byte,
           (0 <= first_byte <= last_byte)%Z /\ (last_byte <= file_size - 1)%Z
           /\ r = streaming_response file_path file_size first_byte last_byte
                                     206)
  \/ (range_header = ""
      /\ r = streaming_response file_path file_size 0 (file_size - 1) 200).
Proof.
  unfold serve_media_range. cbv zeta.
  destruct (negb (String.prefix _ _)); [intros [= <-]; now left|].
  destruct (negb (path_exists _)); [intros [= <-]; right; now left|].
  destruct (String.eqb range_header "") eqn:Hrange; cbn [negb].
  - intros [= <-]. apply String.eqb_eq in Hrange. do 5 right. now split.
  - apply String.eqb_neq in Hrange.
    destruct (range_match range_header) as [[first last_str]|];
      [|intros [= <-]; right; right; left; now split].
    destruct (int max_str_digits first) as [first_byte|e] eqn:Hfirst;
      [|discriminate].
    cbn [bind].
    match goal with
    | |- context [bind ?c _] => destruct c as [last_byte|e] eqn:Hlast;
                                  [|discriminate]
    end.
    cbn [bind].
    destruct (_ || _) eqn:Hcheck.
    + intros [= <-]. do 3 right. left. now repeat split.
    + intros [= <-]. do 4 right. left. split; [exact Hrange|].
      apply Bool.orb_false_iff in Hcheck. destruct Hcheck as [H1 H2].
      apply Z.leb_gt in H1. apply Z.ltb_ge in H2.
      apply int_nonneg in Hfirst.
      eexists first_byte, _. split; [|split; [|reflexivity]]; lia.
Qed.

(** X14. A response that streams a file announces, as [Content-Length], exactly
    the number of bytes [stream_file_range] goes on to yield for it: the
    bytes of the file from [start] on, [length] of them, all inside the
    file. *)
Theorem content_length_is_streamed {B} (range_header filename : string)
    (r : response) (path : string) (start length : Z) (file_bytes : list B)
    (chunk_size : nat) :
  serve_media_range MEDIA_ROOT normpath_join abspath path_exists getsize
    max_str_digits range_header filename = Ok r ->
  content r = FileRange path start length ->
  getsize path = List.length file_bytes ->
  (0 < chunk_size)%nat ->
  let chunks := stream_file_range file_bytes (Z.to_nat start)
                                  (Z.to_nat length) chunk_size in
  path = normpath_join MEDIA_ROOT filename
  /\ Dict.get (headers r) "Content-Length" = Ok (str_Z length)
  /\ (0 <= start)%Z /\ (0 <= length)%Z
  /\ (start + length <= Z.of_nat (List.length file_bytes))%Z
  /\ List.concat chunks
     = firstn (Z.to_nat length) (skipn (Z.to_nat start) file_bytes)
  /\ Z.of_nat (List.length (List.concat chunks)) = length.
Proof.
  intros Hserve Hcontent Hsize Hcs chunks.
  assert (Hconcat : List.concat chunks
                    = firstn (Z.to_nat length)
                             (skipn (Z.to_nat start) file_bytes)).
  { apply read_loop_concat; [exact Hcs | lia]. }
  clearbody chunks.
  apply serve_media_range_cases in Hserve. cbv zeta in Hserve.
  destruct Hserve as [->|[->|[[_ ->]|[[_ [_ H]]|[H|H]]]]]; try discriminate;
    try (rewrite H in Hcontent; discriminate).
  - destruct H as [_ (first_byte & last_byte & Hb1 & Hb2 & ->)].
    cbn in Hcontent. injection Hcontent as <- <- <-.
    rewrite Hsize in Hb2.
    split; [reflexivity|]. split; [reflexivity|].
    split; [lia|]. split; [lia|]. split; [lia|]. split; [exact Hconcat|].
    rewrite Hconcat, length_firstn, length_skipn. lia.
  - destruct H as [_ ->].
    cbn in Hcontent. injection Hcontent as <- <- <-.
    rewrite Hsize in Hconcat |- *.
    split; [reflexivity|]. split; [reflexivity|].
    split; [lia|]. split; [lia|]. split; [lia|]. split; [exact Hconcat|].
    rewrite Hconcat, length_firstn, length_skipn. lia.
Qed.

(** X15. A 206 response is only given to a Range header, and its range lies in
    the file: 0 <= first <= last <= size - 1, with the last byte clamped to
    the end of the file; [Content-Range] names that range and the size, and
    the body starts at [first] and has last - first + 1 >= 1 bytes. *)
Theorem partial_content_range (range_header filename : string)
    (r : response) :
  serve_media_range MEDIA_ROOT normpath_join abspath path_exists getsize
    max_str_digits range_header filename = Ok r ->
  status_code r = 206%Z ->
  let file_path := normpath_join MEDIA_ROOT filename in
  let file_size := Z.of_nat (getsize file_path) in
  range_header <> ""
  /\ exists first_byte last_byte,
       (0 <= first_byte <= last_byte)%Z /\ (last_byte <= file_size - 1)%Z
       /\ content r = FileRange file_path first_byte
                                (last_byte - first_byte + 1)
       /\ Dict.get (headers r) "Content-Range"
          = Ok ("bytes " ++ str_Z first_byte ++ "-" ++ str_Z last_byte
                ++ "/" ++ str_Z file_size)
       /\ content_type r = "image/tiff".
Proof.
  intros Hserve Hstatus. apply serve_media_range_cases in Hserve.
  cbv zeta in Hserve |- *.
  destruct Hserve as [->|[->|[[_ ->]|[[_ [H _]]|[H|[_ ->]]]]]];
    try discriminate Hstatus; [congruence|].
  destruct H as [Hrange (first_byte & last_byte & Hb1 & Hb2 & ->)].
  split; [exact Hrange|]. exists first_byte, last_byte.
  repeat split; try lia.
Qed.

(** X16. A suffix range, "bytes=-N", is not understood: for a file that could be
    served the answer is 400, "Malformed Range header.". *)
Theorem suffix_range_malformed (rest filename : string) :
  String.prefix (abspath MEDIA_ROOT) (normpath_join MEDIA_ROOT filename)
  = true ->
  path_exists (normpath_join MEDIA_ROOT filename) = true ->
  serve_media_range MEDIA_ROOT normpath_join abspath path_exists getsize
    max_str_digits ("bytes=-" ++ rest) filename
  = Ok (JsonResponse "Malformed Range header." 400).
Proof.
  intros Hprefix Hexists. unfold serve_media_range. cbv zeta.
  rewrite Hprefix, Hexists. reflexivity.
Qed.

(** X17. No range of an empty file can be served: with a Range header the answer
    is never 206, and without one it is a 200 with an empty body. *)
Theorem empty_file_has_no_ranges (range_header filename : string)
    (r : response) :
  getsize (normpath_join MEDIA_ROOT filename) = 0%nat ->
  serve_media_range MEDIA_ROOT normpath_join abspath path_exists getsize
    max_str_digits range_header filename = Ok r ->
  status_code r <> 206%Z
  /\ (range_header <> "" -> status_code r <> 200%Z)
  /\ (status_code r = 200%Z ->
      content r = FileRange (normpath_join MEDIA_ROOT filename) 0 0
      /\ Dict.get (headers r) "Content-Length" = Ok "0").
Proof.
  intros Hsize Hserve. apply serve_media_range_cases in Hserve.
  cbv zeta in Hserve. rewrite Hsize in Hserve.
  destruct Hserve as [->|[->|[[_ ->]|[[_ [H _]]|[H|[Hrange ->]]]]]].
  1-3: cbn; repeat split; intros; discriminate.
  - rewrite H. repeat split; intros; discriminate.
  - destruct H as [_ (first_byte & last_byte & Hb1 & Hb2 & _)].
    cbn in Hb2. lia.
  - split; [discriminate|]. split; [intros Hne; now elim Hne|].
    intros _. split; reflexivity.
Qed.

(** X18. The guard against path traversal compares text: every normalised path
    that begins with the characters of the media root passes it, whatever
    follows them, a sibling directory whose name continues the root's name
    included, and an existing file there is served in full. *)
Theorem path_guard_is_textual (suffix filename : string) :
  normpath_join MEDIA_ROOT filename = abspath MEDIA_ROOT ++ suffix ->
  path_exists (abspath MEDIA_ROOT ++ suffix) = true ->
  exists r,
    serve_media_range MEDIA_ROOT normpath_join abspath path_exists getsize
      max_str_digits "" filename = Ok r
    /\ status_code r = 200%Z
    /\ content r
       = FileRange (abspath MEDIA_ROOT ++ suffix) 0
                   (Z.of_nat (getsize (abspath MEDIA_ROOT ++ suffix))).
Proof.
  intros Hpath Hexists. unfold serve_media_range. cbv zeta.
  rewrite Hpath, prefix_append, Hexists. cbn [negb String.eqb].
  eexists. split; [reflexivity|]. split; [reflexivity|].
  cbn. f_equal. lia.
Qed.

(** X19. The digits of a Range header are converted without a guard: where the
    interpreter limits the length of a number to convert, a first byte
    position with more digits than that makes the view raise a
    [ValueError] instead of answering. *)
Theorem overlong_range_raises
    (range_header filename first_byte last_byte_str : string) :
  String.prefix (abspath MEDIA_ROOT) (normpath_join MEDIA_ROOT filename)
  = true ->
  path_exists (normpath_join MEDIA_ROOT filename) = true ->
  range_match range_header = Some (first_byte, last_byte_str) ->
  (0 < max_str_digits < String.length first_byte)%nat ->
  exists msg,
    serve_media_range MEDIA_ROOT normpath_join abspath path_exists getsize
      max_str_digits range_header filename = Raise (ValueError msg).
Proof.
  intros Hprefix Hexists Hmatch [Hlimit Hlong].
  unfold serve_media_range. cbv zeta.
  rewrite Hprefix, Hexists. cbn [negb].
  destruct (String.eqb range_header "") eqn:Hrange.
  { apply String.eqb_eq in Hrange. subst range_header. discriminate Hmatch. }
  cbn [negb]. rewrite Hmatch. unfold int at 1.
  apply Nat.ltb_lt in Hlimit, Hlong. rewrite Hlimit, Hlong. cbn [andb bind].
  eexists. reflexivity.
Qed.

End Facts.

(** X20. The chunks [stream_file_range] yields are, put end to end, the [length]
    bytes of the file that follow position [start], or as many of them as
    the file has; no chunk is empty and none is longer than [chunk_size]. *)
Theorem stream_file_range_yields {B} (file_bytes : list B)
    (start length chunk_size : nat) :
  (0 < chunk_size)%nat ->
  let chunks := stream_file_range file_bytes start length chunk_size in
  List.concat chunks = firstn length (skipn start file_bytes)
  /\ Forall (fun chunk => (1 <= List.length chunk <= chunk_size)%nat) chunks.
Proof.
  intros Hcs. cbv zeta. unfold stream_file_range. split.
  - apply read_loop_concat; [exact Hcs | lia].
  - apply read_loop_chunks.
Qed.

End MediaFacts.

(** ** The Fmask quality word and the band order *)

Module FmaskFacts.
Import Fmask.

(** The 256 values of an 8-bit word are decoded as their bits 1 and 3. *)
Lemma good_quality_uint8 (j : N) :
  (j < 256)%N ->
  good_quality j = Ok (negb (N.testbit j 1) && negb (N.testbit j 3)).
Proof.
  intros Hj.
  assert (Hall : forallb
                   (fun n =>
                      match good_quality (N.of_nat n) with
                      | Ok b => Bool.eqb b (negb (N.testbit (N.of_nat n) 1)
                                            && negb (N.testbit (N.of_nat n) 3))
                      | Raise _ => false
                      end)
                   (seq 0 256) = true) by (vm_compute; reflexivity).
  rewrite forallb_forall in Hall.
  specialize (Hall (N.to_nat j)).
  rewrite N2Nat.id in Hall.
  assert (Hin : In (N.to_nat j) (seq 0 256)) by (apply in_seq; lia).
  apply Hall in Hin.
  destruct (good_quality j) as [b|e]; [|discriminate].
  apply Bool.eqb_prop in Hin. now subst b.
Qed.

Lemma insert_unique_in (x j : N) (sorted : list N) :
  In j (insert_unique x sorted) <-> j = x \/ In j sorted.
Proof.
  induction sorted as [|y rest IH]; cbn.
  - intuition.
  - destruct (x <? y)%N; [cbn; intuition|].
    destruct (x =? y)%N eqn:Hxy.
    + apply N.eqb_eq in Hxy. subst y. cbn. intuition.
    + cbn. rewrite IH. intuition.
Qed.

Lemma unique_in (values : list N) (j : N) :
  In j (unique values) <-> In j values.
Proof.
  induction values as [|x values IH]; cbn; [reflexivity|].
  rewrite insert_unique_in, IH. intuition.
Qed.

Lemma mask_loop_uint8 (values goodQuality : list N) :
  Forall (fun j => (j < 256)%N) values ->
  mask_loop values goodQuality
  = Ok (goodQuality
        ++ filter (fun j => negb (N.testbit j 1) && negb (N.testbit j 3))
                  values)%list.
Proof.
  intros Hall. revert goodQuality.
  induction Hall as [|j values Hj Hall IH]; intros goodQuality; cbn.
  - now rewrite app_nil_r.
  - rewrite (good_quality_uint8 j Hj). cbn [bind].
    rewrite IH. destruct (_ && _); [|reflexivity].
    rewrite <- List.app_assoc. reflexivity.
Qed.

(** X21. For an 8-bit Fmask band, [mask_array] answers the distinct values of
    the band, in ascending order, whose bit 1 (cloud) and bit 3 (cloud
    shadow) are both clear. *)
Theorem mask_array_uint8 (Fmask_clipped : list N) :
  Forall (fun j => (j < 256)%N) Fmask_clipped ->
  mask_array Fmask_clipped
  = Ok (filter (fun j => negb (N.testbit j 1) && negb (N.testbit j 3))
               (unique Fmask_clipped))
  /\ forall goodQuality j,
       mask_array Fmask_clipped = Ok goodQuality ->
       (In j goodQuality
        <-> In j Fmask_clipped
            /\ N.testbit j 1 = false /\ N.testbit j 3 = false).
Proof.
  intros Hall.
  assert (Hrun : mask_array Fmask_clipped
                 = Ok (filter (fun j => negb (N.testbit j 1)
                                        && negb (N.testbit j 3))
                              (unique Fmask_clipped))).
  { unfold mask_array. rewrite mask_loop_uint8; [reflexivity|].
    apply Forall_forall. intros j Hj.
    apply (proj1 (unique_in _ _)) in Hj.
    exact (proj1 (Forall_forall _ _) Hall j Hj). }
  split; [exact Hrun|].
  intros goodQuality j. rewrite Hrun. intros [= <-].
  rewrite filter_In, unique_in, Bool.andb_true_iff, !Bool.negb_true_iff.
  reflexivity.
Qed.

End FmaskFacts.

Module GeeFacts.
Import Gee.

Lemma prefix_chars (p t : string) (c : ascii) :
  String.prefix p t = true ->
  In c (list_ascii_of_string p) -> In c (list_ascii_of_string t).
Proof.
  revert t. induction p as [|a p IH]; intros t Hp Hc; [contradiction|].
  destruct t as [|b t]; [discriminate|]. cbn in Hp.
  destruct (ascii_dec a b) as [<-|]; [|discriminate].
  destruct Hc as [<-|Hc]; [now left | right; now apply IH].
Qed.

Lemma index_chars (p s : string) (c : ascii) (n : nat) :
  String.index 0 p s = Some n ->
  In c (list_ascii_of_string p) -> In c (list_ascii_of_string s).
Proof.
  revert n. induction s as [|b s IH]; intros n Hidx Hc.
  - destruct p; [contradiction | discriminate].
  - cbn [String.index] in Hidx.
    destruct (String.prefix p (String b s)) eqn:Hp.
    + exact (prefix_chars _ _ _ Hp Hc).
    + destruct (String.index 0 p s) as [m|] eqn:Hm; [|discriminate].
      right. exact (IH m eq_refl Hc).
Qed.

(** A text that holds [piece] holds each of its characters. *)
Lemma contains_chars (p s : string) (c : ascii) :
  Views.contains p s = true ->
  In c (list_ascii_of_string p) -> In c (list_ascii_of_string s).
Proof.
  unfold Views.contains.
  destruct (String.index 0 p s) as [n|] eqn:Hidx; [|discriminate].
  intros _. exact (index_chars _ _ _ _ Hidx).
Qed.

Lemma contains_char (c : ascii) (s : string) :
  In c (list_ascii_of_string s) -> Views.contains (String c "") s = true.
Proof.
  unfold Views.contains. induction s as [|b s IH]; [contradiction|].
  intros [<-|Hc]; cbn [String.index String.prefix].
  - destruct (ascii_dec b b) as [_|Hne]; [|now elim Hne].
    now destruct s.
  - destruct (ascii_dec c b); [now destruct s|].
    specialize (IH Hc). now destruct (String.index 0 (String c "") s).
Qed.

(** A piece with the character [c] in it is not found where [c] alone is
    not. *)
Lemma contains_without_char (c : ascii) (p s : string) :
  Views.contains (String c "") s = false ->
  In c (list_ascii_of_string p) ->
  Views.contains p s = false.
Proof.
  intros Hnone Hc. destruct (Views.contains p s) eqn:Hp; [|reflexivity].
  rewrite (contains_char c s (contains_chars p s c Hp Hc)) in Hnone.
  discriminate.
Qed.

(** X22. The sort key of a band file is 0, 1, 2 or 7, never 3, 4 or 5: a name
    that holds "nir", "swir1" or "swir2" holds an "r" and stops the search
    at "R" at the latest.  The key is 7 exactly when the lower-cased name
    holds none of "b", "g" and "r". *)
Theorem band_index_keys (name : string) :
  In (band_index name) [0; 1; 2; 7]%nat
  /\ (Views.contains "r" (lower name) = true -> (band_index name <= 2)%nat)
  /\ (band_index name = 7%nat
      <-> Views.contains "b" (lower name) = false
          /\ Views.contains "g" (lower name) = false
          /\ Views.contains "r" (lower name) = false).
Proof.
  unfold band_index, desired_order. cbn [first_key].
  change (lower "B") with "b". change (lower "G") with "g".
  change (lower "R") with "r". change (lower "NIR") with "nir".
  change (lower "SWIR1") with "swir1". change (lower "SWIR2") with "swir2".
  destruct (Views.contains "b" (lower name)) eqn:Hb.
  { cbn. split; [now left|]. split; [lia|]. split; [discriminate|].
    intros [H _]. discriminate H. }
  destruct (Views.contains "g" (lower name)) eqn:Hg.
  { cbn. split; [right; now left|]. split; [lia|]. split; [discriminate|].
    intros [_ [H _]]. discriminate H. }
  destruct (Views.contains "r" (lower name)) eqn:Hr.
  { cbn. split; [right; right; now left|]. split; [lia|].
    split; [discriminate|]. intros [_ [_ H]]. discriminate H. }
  rewrite (contains_without_char "r" "nir" _ Hr) by (cbn; tauto).
  rewrite (contains_without_char "r" "swir1" _ Hr) by (cbn; tauto).
  rewrite (contains_without_char "r" "swir2" _ Hr) by (cbn; tauto).
  cbn. split; [do 3 right; now left|]. split; [discriminate|].
  split; [now intros _ | reflexivity].
Qed.

Lemma insert_by_key_last {A} (key : A -> nat) (x : A) (sorted : list A) :
  Forall (fun y => (key y <= key x)%nat) sorted ->
  insert_by_key key x sorted = (sorted ++ [x])%list.
Proof.
  induction 1 as [|y rest Hy Hrest IH]; cbn; [reflexivity|].
  apply Nat.leb_le in Hy. now rewrite Hy, IH.
Qed.

Lemma sort_by_key_equal_keys {A} (key : A -> nat) (k : nat) (l : list A) :
  Forall (fun x => key x = k) l ->
  sort_by_key key l = l.
Proof.
  intros Hall. unfold sort_by_key.
  assert (H : forall sorted,
            Forall (fun x => key x = k) sorted ->
            fold_left (fun sorted x => insert_by_key key x sorted) l sorted
            = (sorted ++ l)%list).
  { induction Hall as [|x l Hx Hall IH]; intros sorted Hsorted; cbn.
    - now rewrite app_nil_r.
    - rewrite insert_by_key_last.
      + rewrite IH; [now rewrite <- app_assoc|].
        apply Forall_app. split; [exact Hsorted | now constructor].
      + eapply Forall_impl; [|exact Hsorted]. cbn. intros y ->. lia. }
  apply (H []). constructor.
Qed.

(** X23. The sort does not tell the red, near-infrared and short-wave bands
    apart: files whose lower-cased names hold an "r" but neither "b" nor
    "g" all get the key 2 and stay in the order of the archive. *)
Theorem red_and_infrared_keep_archive_order {A}
    (band_arrays : list (string * A)) :
  Forall (fun x => Views.contains "b" (lower (fst x)) = false
                   /\ Views.contains "g" (lower (fst x)) = false
                   /\ Views.contains "r" (lower (fst x)) = true)
         band_arrays ->
  Forall (fun x => band_index (fst x) = 2%nat) band_arrays
  /\ sort_bands band_arrays = band_arrays.
Proof.
  intros Hall.
  assert (Hkeys : Forall (fun x => band_index (fst x) = 2%nat) band_arrays).
  { eapply Forall_impl; [|exact Hall]. cbn. intros [name a] (Hb & Hg & Hr).
    cbn [fst] in *. unfold band_index, desired_order. cbn [first_key].
    change (lower "B") with "b". change (lower "G") with "g".
    change (lower "R") with "r". now rewrite Hb, Hg, Hr. }
  split; [exact Hkeys|].
  unfold sort_bands. now apply (sort_by_key_equal_keys _ 2%nat).
Qed.

End GeeFacts.

(** ** Clipping and writing rasters *)

Module RasterFacts.
Import DeepLearning Views.

Lemma dict_keys_set_in {V} (d : Dict.t V) (k k' : string) (v : V) :
  In k' (Dict.keys (Dict.set d k v)) <-> k' = k \/ In k' (Dict.keys d).
Proof.
  unfold Dict.keys. induction d as [|[k0 v0] d IH]; cbn.
  - intuition.
  - destruct (String.eqb k0 k) eqn:Hk; cbn.
    + apply String.eqb_eq in Hk. subst k0. intuition.
    + rewrite IH. intuition.
Qed.

Lemma dict_keys_set_nodup {V} (d : Dict.t V) (k : string) (v : V) :
  NoDup (Dict.keys d) -> NoDup (Dict.keys (Dict.set d k v)).
Proof.
  induction d as [|[k0 v0] d IH]; cbn; intros Hnd.
  - constructor; [intros [] | constructor].
  - inversion Hnd as [|? ? Hnotin Hnd']; subst.
    destruct (String.eqb k0 k) eqn:Hk; cbn.
    + now constructor.
    + constructor; [|now apply IH].
      intros Hin. apply dict_keys_set_in in Hin. destruct Hin as [->|Hin].
      * now rewrite String.eqb_refl in Hk.
      * now apply Hnotin.
Qed.

Lemma dict_keys_remove_in {V} (d : Dict.t V) (k k' : string) :
  In k' (Dict.keys (Dict.remove d k)) -> In k' (Dict.keys d).
Proof.
  unfold Dict.keys. induction d as [|[k0 v0] d IH]; cbn; [tauto|].
  destruct (String.eqb k0 k); cbn; intuition.
Qed.

Lemma dict_keys_remove_nodup {V} (d : Dict.t V) (k : string) :
  NoDup (Dict.keys d) -> NoDup (Dict.keys (Dict.remove d k)).
Proof.
  induction d as [|[k0 v0] d IH]; cbn; intros Hnd; [constructor|].
  inversion Hnd as [|? ? Hnotin Hnd']; subst.
  destruct (String.eqb k0 k); cbn; [exact Hnd'|].
  constructor; [|now apply IH].
  intros Hin. apply Hnotin. exact (dict_keys_remove_in _ _ _ Hin).
Qed.

Lemma dict_get_absent {V} (d : Dict.t V) (k : string) :
  ~ In k (Dict.keys d) -> Dict.get d k = Raise (KeyError k).
Proof.
  induction d as [|[k0 v0] d IH]; cbn; intros Hnotin; [reflexivity|].
  destruct (String.eqb k0 k) eqn:Hk.
  - apply String.eqb_eq in Hk. subst k0. elim Hnotin. now left.
  - apply IH. intros Hin. apply Hnotin. now right.
Qed.

(** A key that has been popped is gone. *)
Lemma dict_get_remove_same {V} (d : Dict.t V) (k : string) :
  NoDup (Dict.keys d) -> Dict.get (Dict.remove d k) k = Raise (KeyError k).
Proof.
  intros Hnd. apply dict_get_absent.
  induction d as [|[k0 v0] d IH]; cbn; [tauto|].
  inversion Hnd as [|? ? Hnotin Hnd']; subst.
  destruct (String.eqb k0 k) eqn:Hk; cbn.
  - apply String.eqb_eq in Hk. now subst k0.
  - intros [->|Hin]; [now rewrite String.eqb_refl in Hk | now apply IH].
Qed.

Section Facts.
Context {W : Externals}.

(** What a successful [create_outputRaster_COG] has done. *)
Lemma create_outputRaster_COG_ok (raster_profile : profile CRS)
    (transform : affine) (predictArray : array2 f32)
    (output_path target_crs : string) (log log' : list (event CRS))
    (answer : string) :
  create_outputRaster_COG raster_profile transform predictArray output_path
                          target_crs log = (log', Ok answer) ->
  answer = output_path
  /\ exists profile destination source_crs dst_transform dst_width dst_height
            bounds,
       log' = (log ++ [Written output_path profile destination])%list
       /\ Dict.get raster_profile "crs" = Ok source_crs
       /\ calculate_default_transform
            source_crs (VStr target_crs) (a2_cols predictArray)
            (a2_rows predictArray) bounds
          = Ok (dst_transform, dst_width, dst_height)
       /\ profile
          = fold_left (fun d key => Dict.remove d key)
              ["tiled"; "blockxsize"; "blockysize"; "interleave"]
              (fold_left (fun d kv => Dict.set d (fst kv) (snd kv))
                 [("driver", VStr "COG"); ("crs", VStr target_crs);
                  ("transform", VAffine dst_transform);
                  ("width", VInt (Z.of_nat dst_width));
                  ("height", VInt (Z.of_nat dst_height));
                  ("count", VInt 1); ("dtype", VStr "float32");
                  ("compress", VStr "LZW");
                  ("nodata", VFloat nodata_value)]
                 raster_profile).
Proof.
  unfold create_outputRaster_COG, IO.bind, IO.lift, IO.ret, IO.call.
  destruct (Dict.get raster_profile "crs") as [source_crs|e]; [|discriminate].
  destruct (affine_apply transform (F64.of_Z 0) (F64.of_Z 0)) as [left_ top_].
  destruct (affine_apply transform _ _) as [right_ bottom_].
  destruct (calculate_default_transform _ _ _ _ _)
    as [[[dst_transform dst_width] dst_height]|e] eqn:Hgrid; [|discriminate].
  match goal with
  | |- context [reproject ?src ?dst ?args] =>
      destruct (reproject src dst args) as [destination|e]; [|discriminate]
  end.
  intros [= <- <-]. split; [reflexivity|].
  eexists _, destination, source_crs, dst_transform, dst_width, dst_height, _.
  split; [reflexivity|]. split; [reflexivity|]. split; [exact Hgrid|].
  reflexivity.
Qed.

(** X24. The profile of the raster [create_outputRaster_COG] writes: the driver
    is COG, the reference system the target one, the grid the one
    [calculate_default_transform] chose, compression LZW; the four tiling
    keys of the source profile are gone; every other key is the source's. *)
Theorem create_outputRaster_COG_profile (raster_profile : profile CRS)
    (transform : affine) (predictArray : array2 f32)
    (output_path target_crs : string) (log log' : list (event CRS))
    (answer : string) :
  NoDup (Dict.keys raster_profile) ->
  create_outputRaster_COG raster_profile transform predictArray output_path
                          target_crs log = (log', Ok answer) ->
  answer = output_path
  /\ exists profile destination source_crs dst_transform dst_width dst_height
            bounds,
       log' = (log ++ [Written output_path profile destination])%list
       /\ Dict.get raster_profile "crs" = Ok source_crs
       /\ calculate_default_transform
            source_crs (VStr target_crs) (a2_cols predictArray)
            (a2_rows predictArray) bounds
          = Ok (dst_transform, dst_width, dst_height)
       /\ Dict.get profile "driver" = Ok (VStr "COG")
       /\ Dict.get profile "crs" = Ok (VStr target_crs)
       /\ Dict.get profile "transform" = Ok (VAffine dst_transform)
       /\ Dict.get profile "width" = Ok (VInt (Z.of_nat dst_width))
       /\ Dict.get profile "height" = Ok (VInt (Z.of_nat dst_height))
       /\ Dict.get profile "compress" = Ok (VStr "LZW")
       /\ (forall key,
             In key ["tiled"; "blockxsize"; "blockysize"; "interleave"] ->
             Dict.get profile key = Raise (KeyError key))
       /\ (forall key,
             ~ In key ["driver"; "crs"; "transform"; "width"; "height";
                       "count"; "dtype"; "compress"; "nodata"; "tiled";
                       "blockxsize"; "blockysize"; "interleave"] ->
             Dict.get profile key = Dict.get raster_profile key).
Proof.
  intros Hnd Hrun.
  destruct (create_outputRaster_COG_ok _ _ _ _ _ _ _ _ Hrun)
    as [Hanswer (profile & destination & source_crs & dst_transform
                 & dst_width & dst_height & bounds & Hlog & Hcrs & Hgrid
                 & Hprofile)].
  split; [exact Hanswer|].
  exists profile, destination, source_crs, dst_transform, dst_width,
         dst_height, bounds.
  split; [exact Hlog|]. split; [exact Hcrs|]. split; [exact Hgrid|].
  subst profile. cbn [fold_left fst snd].
  repeat match goal with
         | |- _ /\ _ => split
         end.
  1-6: repeat first
         [ rewrite OutputFacts.dict_get_remove_other by discriminate
         | rewrite OutputFacts.dict_get_set_other by discriminate ];
       apply OutputFacts.dict_get_set_same.
  - intros key Hkey.
    repeat match goal with
           | |- context [Dict.set ?d ?k ?v] =>
               lazymatch d with
               | context [Dict.set] => fail
               | _ => idtac
               end;
               let H := fresh "Hnd" in
               pose proof (dict_keys_set_nodup d k v ltac:(assumption)) as H;
               set (Dict.set d k v) in *
           end.
    cbn in Hkey.
    destruct Hkey as [<-|[<-|[<-|[<-|[]]]]].
    + repeat rewrite OutputFacts.dict_get_remove_other by discriminate.
      now apply dict_get_remove_same.
    + rewrite !OutputFacts.dict_get_remove_other by discriminate.
      apply dict_get_remove_same. now apply dict_keys_remove_nodup.
    + rewrite !OutputFacts.dict_get_remove_other by discriminate.
      apply dict_get_remove_same. now repeat apply dict_keys_remove_nodup.
    + apply dict_get_remove_same. now repeat apply dict_keys_remove_nodup.
  - intros key Hkey. cbn in Hkey.
    repeat first
      [ rewrite OutputFacts.dict_get_remove_other by (intros Heq; apply Hkey; tauto)
      | rewrite OutputFacts.dict_get_set_other by (intros Heq; apply Hkey; tauto) ].
    reflexivity.
Qed.

(** X25. A polygon that misses the raster is refused with one and the same
    error whether the bounding-box test finds it out, in which case the
    raster is never masked, or rasterio does while masking; any other
    [ValueError] of the masking is passed on as it is. *)
Theorem clipping_raster_outside (polygon_geojson : GeoJSON)
    (image_path : string) (src : dataset) (log : list (event CRS)) :
  check_polygon_coordinates polygon_geojson = Ok tt ->
  rasterio_open image_path = Ok src ->
  (intersects (shape polygon_geojson) (box (ds_bounds src)) = false ->
   clipping_raster polygon_geojson image_path log
   = ((log ++ [Opened image_path])%list, Raise no_overlap))
  /\ (forall msg,
        intersects (shape polygon_geojson) (box (ds_bounds src)) = true ->
        rasterio_mask src polygon_geojson = Raise (ValueError msg) ->
        clipping_raster polygon_geojson image_path log
        = (((log ++ [Opened image_path]) ++ [Masked polygon_geojson])%list,
           Raise (if contains "Input shapes do not overlap raster" msg
                  then no_overlap else ValueError msg))).
Proof.
  intros Hcheck Hopen.
  unfold clipping_raster, IO.bind, IO.lift, open_raster, mask, IO.call,
    IO.catch_ValueError, IO.raise.
  rewrite Hcheck, Hopen. split.
  - intros ->. reflexivity.
  - intros msg -> ->. cbn [negb].
    now destruct (contains _ msg).
Qed.

(** X26. The metadata a successful [clipping_raster] answers describe the clip:
    driver GTiff, the height and width of the clipped array, the transform
    of the clip and the reference system of the raster; every other entry
    is the raster's own. *)
Theorem clipping_raster_metadata (polygon_geojson : GeoJSON)
    (image_path : string) (log log' : list (event CRS))
    (cliped_image : array3 f32) (out_meta : profile CRS) :
  clipping_raster polygon_geojson image_path log
  = (log', Ok (cliped_image, out_meta)) ->
  exists src cliped_transform,
    rasterio_open image_path = Ok src
    /\ rasterio_mask src polygon_geojson = Ok (cliped_image, cliped_transform)
    /\ log' = ((log ++ [Opened image_path]) ++ [Masked polygon_geojson])%list
    /\ Dict.get out_meta "driver" = Ok (VStr "GTiff")
    /\ Dict.get out_meta "height"
       = Ok (VInt (Z.of_nat (a3_dim1 cliped_image)))
    /\ Dict.get out_meta "width"
       = Ok (VInt (Z.of_nat (a3_dim2 cliped_image)))
    /\ Dict.get out_meta "transform" = Ok (VAffine cliped_transform)
    /\ Dict.get out_meta "crs" = Ok (VCrs (ds_crs src))
    /\ forall key,
         ~ In key ["driver"; "height"; "width"; "transform"; "crs"] ->
         Dict.get out_meta key = Dict.get (ds_meta src) key.
Proof.
  unfold clipping_raster, IO.bind, IO.lift, open_raster, mask, IO.call,
    IO.catch_ValueError, IO.raise, IO.ret.
  destruct (check_polygon_coordinates polygon_geojson) as [[]|e];
    [|discriminate].
  destruct (rasterio_open image_path) as [src|e]; [|discriminate].
  destruct (negb (intersects _ _)); [discriminate|].
  destruct (rasterio_mask src polygon_geojson) as [[image tr]|e] eqn:Hmask.
  - intros [= <- <- <-]. exists src, tr.
    split; [reflexivity|]. split; [exact Hmask|]. split; [reflexivity|].
    repeat match goal with
           | |- _ /\ _ => split
           end.
    1-5: repeat rewrite OutputFacts.dict_get_set_other by discriminate;
         apply OutputFacts.dict_get_set_same.
    intros key Hkey. cbn in Hkey.
    repeat rewrite OutputFacts.dict_get_set_other
      by (intros Heq; apply Hkey; tauto).
    reflexivity.
  - destruct e as [msg| | |]; try discriminate.
    destruct (contains _ msg); discriminate.
Qed.


End Facts.
End RasterFacts.

(** ** Runs of the properties above *)

(** A legacy service that answers two predictions fills a 1 x 2 grid. *)
Lemma predict_density_legacy_witness :
  exists preds,
    DeepLearning.predict_density
      "http://legacy:5001/predict" ServiceSamples.post_ok
      (Ok (Samples.model 21 1)) (fun x => x) (Samples.features 21) 1 2
    = Ok preds
    /\ a2_get preds 0 1 = F32.of_Z 2.
Proof.
  destruct (PredictFacts.predict_density_legacy
              "http://legacy:5001/predict" ServiceSamples.post_ok
              (Ok (Samples.model 21 1)) (fun x => x) (Samples.features 21)
              1 2 ltac:(discriminate)) as (_ & _ & Hbody).
  destruct (Hbody _ eq_refl eq_refl) as [_ Hgrid].
  destruct (Hgrid eq_refl) as (preds & Hrun & _ & _ & Hget).
  exists preds. split; [exact Hrun|]. rewrite Hget. reflexivity.
Defined.

(** With the URL set, a model that cannot be loaded changes nothing. *)
Lemma predict_density_back_end_witness :
  DeepLearning.predict_density
    "http://legacy:5001/predict" ServiceSamples.post_ok
    (Ok (Samples.model 21 1)) (fun x => x) (Samples.features 21) 1 2
  = DeepLearning.predict_density
      "http://legacy:5001/predict" ServiceSamples.post_ok
      (Raise (RuntimeError "no model")) (fun x => x) (Samples.features 21) 1 2.
Proof.
  apply (proj1 (PredictFacts.predict_density_back_end
                  "http://legacy:5001/predict" ServiceSamples.post_ok
                  (Ok (Samples.model 21 1)) (fun x => x)
                  (Samples.features 21) 1 2)).
  discriminate.
Defined.

(** Without a URL, the 21-feature model answers a 1 x 2 grid of zeros. *)
Lemma predict_density_local_witness :
  exists grid,
    DeepLearning.predict_density
      "" ServiceSamples.post_ok (Ok (Samples.model 21 1)) (fun x => x)
      (Samples.features 21) 1 2
    = Ok grid
    /\ a2_get grid 0 1 = F32.of_Z 0.
Proof.
  destruct (PredictFacts.predict_density_local
              "" ServiceSamples.post_ok (Ok (Samples.model 21 1))
              (fun x => x) (Samples.features 21) 1 2 (Samples.model 21 1)
              (Np.reshape_steps (Samples.features 21))
              eq_refl eq_refl eq_refl) as [Hgrid _].
  destruct (Hgrid eq_refl) as (grid & Hrun & _ & _ & Hget).
  exists grid. split; [exact Hrun|]. rewrite Hget. reflexivity.
Defined.

(** The 21-feature model gets one feature per step. *)
Lemma reshape_contents_witness :
  DeepLearning.predict_density_reshape
    (DeepLearning.input_shape (Samples.model 21 1)) (Samples.features 21)
  = Ok (Np.reshape_steps (Samples.features 21))
  /\ a3_get (Np.reshape_steps (Samples.features 21)) 1 3 0
     = a2_get (Samples.features 21) 1 3.
Proof.
  destruct (PredictFacts.reshape_contents
              (Samples.features 21) (Samples.model 21 1)
              (Some 21%nat) (Some 1%nat)
              (Np.reshape_steps (Samples.features 21)) eq_refl eq_refl)
    as (Hsame & Hsteps & _).
  split; [exact Hsame|]. apply Hsteps; reflexivity.
Defined.

(** A shape of rank 2 is refused by both services. *)
Lemma declared_shape_reading_witness :
  LegacyInfer.reshape_for_model
    (Samples.features 21)
    {| DeepLearning.input_shape := DeepLearning.ShapeTuple [None; Some 21%nat];
       DeepLearning.predict := DeepLearning.predict (Samples.model 21 1) |}
  = Raise (ValueError "Unsupported model input shape: (None, 21)").
Proof.
  destruct (PredictFacts.declared_shape_reading
              (Samples.features 21)
              (DeepLearning.predict (Samples.model 21 1)))
    as (_ & Hrank & _).
  destruct (Hrank [None; Some 21%nat]) as [Hlegacy _].
  - simpl. lia.
  - exact Hlegacy.
Defined.

(** A model that has been loaded survives a loader that has since
    broken. *)
Lemma get_model_loads_once_witness :
  ModelCache.get_model ServiceSamples.no_environment
                       ServiceSamples.broken_loader "other.h5"
                       (Some (Samples.model 21 1))
  = (Some (Samples.model 21 1), inr (Samples.model 21 1)).
Proof.
  destruct (ModelCacheFacts.get_model_loads_once
              ServiceSamples.no_environment ServiceSamples.no_environment
              ServiceSamples.loader ServiceSamples.broken_loader
              ServiceSamples.no_files ServiceSamples.no_files
              "model.h5" "other.h5" None) as [Hfirst _].
  destruct (Hfirst (Some (Samples.model 21 1)) (inr (Samples.model 21 1))
                   eq_refl) as [Hloaded _].
  exact (proj2 (Hloaded _ eq_refl)).
Defined.

(** Without files, the legacy service reports the default model path. *)
Lemma legacy_get_model_missing_file_witness :
  ModelCache.legacy_get_model ServiceSamples.no_environment
                              ServiceSamples.loader ServiceSamples.no_files
                              None
  = (None,
     inl (ModelCache.FileNotFoundError
            "Legacy model file not found: /models/PS_1DCNN_best_model.h5")).
Proof.
  apply (proj1 (ModelCacheFacts.legacy_get_model_missing_file
                  ServiceSamples.no_environment ServiceSamples.loader
                  ServiceSamples.no_files eq_refl)).
Defined.


(** Bytes 2 to 5 of the ten-byte raster: the length announced is 4 and the
    chunks of at most three bytes are those four bytes. *)
Lemma content_length_is_streamed_witness :
  Dict.get (Media.headers
              (Media.streaming_response "/srv/media/map.tif" 10 2 5 206))
           "Content-Length" = Ok "4"
  /\ List.concat (Media.stream_file_range ServiceSamples.file_bytes 2 4 3)
     = [2; 3; 4; 5]%nat.
Proof.
  destruct (MediaFacts.content_length_is_streamed
              ServiceSamples.media_root ServiceSamples.normpath_join
              ServiceSamples.abspath ServiceSamples.path_exists
              ServiceSamples.getsize 4300
              "bytes=2-5" "map.tif"
              (Media.streaming_response "/srv/media/map.tif" 10 2 5 206)
              "/srv/media/map.tif" 2 4 ServiceSamples.file_bytes 3)
    as (_ & Hlength & _ & _ & _ & Hchunks & _).
  - reflexivity.
  - reflexivity.
  - reflexivity.
  - lia.
  - split; [exact Hlength | exact Hchunks].
Defined.

(** A range that runs past the end is cut at the last byte. *)
Lemma partial_content_range_witness :
  exists first_byte last_byte,
    (0 <= first_byte <= last_byte)%Z /\ (last_byte <= 9)%Z
    /\ Media.content
         (Media.streaming_response "/srv/media/map.tif" 10 7 9 206)
       = Media.FileRange "/srv/media/map.tif" first_byte
                         (last_byte - first_byte + 1).
Proof.
  destruct (MediaFacts.partial_content_range
              ServiceSamples.media_root ServiceSamples.normpath_join
              ServiceSamples.abspath ServiceSamples.path_exists
              ServiceSamples.getsize 4300
              "bytes=7-5000" "map.tif"
              (Media.streaming_response "/srv/media/map.tif" 10 7 9 206))
    as (_ & first_byte & last_byte & Hfirst & Hlast & Hcontent & _).
  - reflexivity.
  - reflexivity.
  - exists first_byte, last_byte. split; [exact Hfirst|].
    split; [exact Hlast | exact Hcontent].
Defined.

(** The last 500 bytes cannot be asked for. *)
Lemma suffix_range_malformed_witness :
  ServiceSamples.serve 4300 "bytes=-500" "map.tif"
  = Ok (Media.JsonResponse "Malformed Range header." 400).
Proof.
  apply (MediaFacts.suffix_range_malformed
           ServiceSamples.media_root ServiceSamples.normpath_join
           ServiceSamples.abspath ServiceSamples.path_exists
           ServiceSamples.getsize 4300 "500" "map.tif");
    reflexivity.
Defined.

(** The empty file without a Range header: a 200 that announces no
    bytes. *)
Lemma empty_file_has_no_ranges_witness :
  Media.content (Media.streaming_response "/srv/media/empty.tif" 0 0 (-1) 200)
  = Media.FileRange "/srv/media/empty.tif" 0 0
  /\ Dict.get (Media.headers
                 (Media.streaming_response "/srv/media/empty.tif" 0 0 (-1)
                                           200))
              "Content-Length" = Ok "0".
Proof.
  destruct (MediaFacts.empty_file_has_no_ranges
              ServiceSamples.media_root ServiceSamples.normpath_join
              ServiceSamples.abspath ServiceSamples.path_exists
              ServiceSamples.getsize 4300 "" "empty.tif"
              (Media.streaming_response "/srv/media/empty.tif" 0 0 (-1) 200)
              eq_refl eq_refl) as (_ & _ & H200).
  apply H200. reflexivity.
Defined.

(** A file in /srv/media_backup is served through a name that climbs out
    of the media root. *)
Lemma path_guard_is_textual_witness :
  exists r,
    ServiceSamples.serve 4300 "" "../media_backup/map.tif" = Ok r
    /\ Media.status_code r = 200%Z
    /\ Media.content r = Media.FileRange "/srv/media_backup/map.tif" 0 10.
Proof.
  apply (MediaFacts.path_guard_is_textual
           ServiceSamples.media_root ServiceSamples.normpath_join
           ServiceSamples.abspath ServiceSamples.path_exists
           ServiceSamples.getsize 4300 "_backup/map.tif"
           "../media_backup/map.tif");
    reflexivity.
Defined.

(** With a limit of three digits, a first byte of four digits raises. *)
Lemma overlong_range_raises_witness :
  exists msg,
    ServiceSamples.serve 3 "bytes=1234-" "map.tif" = Raise (ValueError msg).
Proof.
  apply (MediaFacts.overlong_range_raises
           ServiceSamples.media_root ServiceSamples.normpath_join
           ServiceSamples.abspath ServiceSamples.path_exists
           ServiceSamples.getsize 3 "bytes=1234-" "map.tif" "1234" "").
  - reflexivity.
  - reflexivity.
  - reflexivity.
  - simpl. lia.
Defined.

(** Seven bytes from position 2 in chunks of at most three. *)
Lemma stream_file_range_yields_witness :
  List.concat (Media.stream_file_range ServiceSamples.file_bytes 2 7 3)
  = [2; 3; 4; 5; 6; 7; 8]%nat.
Proof.
  apply (proj1 (MediaFacts.stream_file_range_yields
                  ServiceSamples.file_bytes 2 7 3 ltac:(lia))).
Defined.

(** Of the sample values, 0, 4 and 64 have neither bit set. *)
Lemma mask_array_uint8_witness :
  Fmask.mask_array ServiceSamples.fmask = Ok [0; 4; 64]%N.
Proof.
  apply (proj1 (FmaskFacts.mask_array_uint8 ServiceSamples.fmask
                  ltac:(repeat constructor))).
Defined.

(** The near-infrared file gets the key of the red band. *)
Lemma band_index_keys_witness :
  (Gee.band_index "hls_roi.NIR.tif" <= 2)%nat.
Proof.
  apply (proj1 (proj2 (GeeFacts.band_index_keys "hls_roi.NIR.tif"))).
  reflexivity.
Defined.

(** Four files in the order SWIR2, NIR, R, SWIR1 stay in that order. *)
Lemma red_and_infrared_keep_archive_order_witness :
  Gee.sort_bands ServiceSamples.infrared_files = ServiceSamples.infrared_files.
Proof.
  apply (proj2 (GeeFacts.red_and_infrared_keep_archive_order
                  ServiceSamples.infrared_files
                  ltac:(repeat constructor))).
Defined.

(** The profile of the sample raster, written as a COG: the driver is set
    and the tiling key is gone. *)
Lemma create_outputRaster_COG_profile_witness :
  let run :=
    Views.create_outputRaster_COG
      (W := World.world) (Views.ds_meta (Externals := World.world) "hls.tif")
      World.identity (Samples.layer 1) "/media/out.tif" "EPSG:3857" [] in
  exists profile band,
    fst run = [Views.Written "/media/out.tif" profile band]
    /\ Dict.get profile "driver" = Ok (Views.VStr "COG")
    /\ Dict.get profile "tiled" = Raise (KeyError "tiled")
    /\ Dict.get profile "count" = Ok (Views.VInt 1).
Proof.
  cbv zeta.
  destruct (Views.create_outputRaster_COG
              (W := World.world)
              (Views.ds_meta (Externals := World.world) "hls.tif")
              World.identity (Samples.layer 1) "/media/out.tif" "EPSG:3857" [])
    as [log' [answer|e]] eqn:Hrun.
  - assert (Hkeys : NoDup (Dict.keys
                             (Views.ds_meta (Externals := World.world)
                                            "hls.tif"))).
    { vm_compute.
      repeat (apply NoDup_cons; [simpl; intuition discriminate|]).
      apply NoDup_nil. }
    destruct (RasterFacts.create_outputRaster_COG_profile
                (W := World.world) _ _ _ _ _ _ _ _ Hkeys Hrun)
      as (_ & profile & band & source_crs & dst_transform & dst_width
          & dst_height & bounds & Hlog & _ & _ & Hdriver & _ & _ & _ & _ & _
          & Hgone & Hkept).
    exists profile, band. split; [exact Hlog|]. split; [exact Hdriver|].
    split; [apply Hgone; simpl; tauto|].
    apply (f_equal (fun r => List.map
                               (fun w => Dict.get (snd (fst w)) "count")
                               (Views.written (fst r)))) in Hrun.
    rewrite Hlog in Hrun. vm_compute in Hrun.
    injection Hrun as Hcount. symmetry. exact Hcount.
  - apply (f_equal (fun r => match snd r with
                             | Ok _ => true
                             | Raise _ => false
                             end)) in Hrun.
    vm_compute in Hrun. discriminate Hrun.
Defined.

(** A raster that the polygon misses is opened and never masked. *)
Lemma clipping_raster_outside_witness :
  Views.clipping_raster (W := FarAway.far_away) World.square "hls.tif" []
  = ([Views.Opened "hls.tif"], Raise Views.no_overlap).
Proof.
  apply (proj1 (RasterFacts.clipping_raster_outside
                  (W := FarAway.far_away) World.square "hls.tif" "hls.tif" []
                  eq_refl eq_refl)).
  reflexivity.
Defined.

(** The clip of the sample raster is one pixel high and two wide. *)
Lemma clipping_raster_metadata_witness :
  exists out_meta,
    snd (Views.clipping_raster (W := World.world) World.square "hls.tif" [])
    = Ok (World.clip, out_meta)
    /\ Dict.get out_meta "height" = Ok (Views.VInt 1)
    /\ Dict.get out_meta "width" = Ok (Views.VInt 2)
    /\ Dict.get out_meta "count" = Ok (Views.VInt 6).
Proof.
  destruct (Views.clipping_raster (W := World.world) World.square "hls.tif" [])
    as [log' [[cliped_image out_meta]|e]] eqn:Hrun.
  - destruct (RasterFacts.clipping_raster_metadata
                (W := World.world) _ _ _ _ _ _ Hrun)
      as (src & tr & _ & Hmask & _ & _ & Hheight & Hwidth & _ & _ & Hkept).
    injection Hmask as <- _.
    exists out_meta. split; [reflexivity|].
    split; [exact Hheight|]. split; [exact Hwidth|].
    rewrite Hkept; [reflexivity | simpl; intuition discriminate].
  - apply (f_equal (fun r => match snd r with
                             | Ok _ => true
                             | Raise _ => false
                             end)) in Hrun.
    vm_compute in Hrun. discriminate Hrun.
Defined.


(** ** Signing in to Earth Engine *)

Module GeeInitFacts.
Import GeeInit.

Section Facts.
Variable getenv : string -> option string.
Variable expanduser : string -> string.
Variable is_absolute : string -> bool.
Variable under_base_dir : string -> string.
Variable default_key_path : string.
Variable path_exists : string -> bool.
Variable load_key : string -> string + key_data.
Variable ServiceAccountCredentials : string -> string -> option string.
Variable ee_Initialize : option (string * string) -> option string
                         -> option string.

(** Every run either stops before any sign-in, with an error, or is one
    sign-in. *)
Lemma initialize_gee_runs :
  let run := initialize_gee getenv expanduser is_absolute under_base_dir
                            default_key_path path_exists load_key
                            ServiceAccountCredentials ee_Initialize in
  (exists exc, run = ([], (false, Some exc)))
  \/ exists credentials project,
       run = set_globals (sign_in ee_Initialize credentials project).
Proof.
  cbv zeta. unfold initialize_gee.
  match goal with
  | |- context [match ?kp with
                | Some p => _
                | None => if truthy (getenv "GEE_SERVICE_ACCOUNT") then _ else _
                end] => destruct kp as [p|]
  end.
  - match goal with
    | |- context [match ?r with inl _ => _ | inr _ => _ end] =>
        destruct r as [exc|[[[|c rest]|] project]]
    end.
    + left. now exists exc.
    + right. now exists None, project.
    + destruct (negb (path_exists p)); [left; eexists; reflexivity|].
      destruct (ServiceAccountCredentials _ p) as [exc|];
        [left; now exists exc|].
      right. now exists (Some (String c rest, p)), project.
    + right. now exists None, project.
  - destruct (truthy (getenv "GEE_SERVICE_ACCOUNT"));
      [left; eexists; reflexivity|].
    right. now exists None, (getenv "GEE_PROJECT").
Qed.

(** X28. Earth Engine is reported ready only after a call of [ee.Initialize] that
    succeeded, the last one made, and an error text is kept exactly when it
    is not ready.  [ee.Initialize] is called at most twice; a second call
    is made only after the first, made with a project, failed with one of
    the two IAM messages, and it uses the same credentials without a
    project. *)
Theorem initialize_gee_sign_in (calls : list ee_call) (ready : bool)
    (last_error : option string) :
  initialize_gee getenv expanduser is_absolute under_base_dir
                 default_key_path path_exists load_key
                 ServiceAccountCredentials ee_Initialize
  = (calls, (ready, last_error)) ->
  (ready = true <-> last_error = None)
  /\ (ready = true ->
      exists earlier credentials project,
        calls = (earlier ++ [Initialize credentials project])%list
        /\ ee_Initialize credentials project = None)
  /\ (List.length calls <= 2)%nat
  /\ (forall first second rest,
        calls = first :: second :: rest ->
        exists credentials project project_error,
          first = Initialize credentials (Some project)
          /\ second = Initialize credentials None
          /\ rest = []
          /\ project <> ""
          /\ ee_Initialize credentials (Some project) = Some project_error
          /\ iam_failure (Gee.lower project_error) = true).
Proof.
  intros Hrun.
  destruct initialize_gee_runs as [[exc Hstop]|(credentials & project & Hsign)];
    cbv zeta in *.
  - rewrite Hstop in Hrun. injection Hrun as <- <- <-.
    split; [split; discriminate|]. split; [discriminate|].
    split; [cbn; lia|]. intros first second rest H. discriminate H.
  - rewrite Hsign in Hrun. clear Hsign. unfold sign_in in Hrun.
    destruct (ee_Initialize credentials
                (if truthy project then project else None))
      as [project_error|] eqn:Hfirst.
    + destruct (truthy project && iam_failure (Gee.lower project_error))
        eqn:Hretry.
      * apply Bool.andb_true_iff in Hretry. destruct Hretry as [Hproject Hiam].
        rewrite Hproject in Hfirst.
        destruct project as [[|c p]|]; try discriminate Hproject.
        destruct (ee_Initialize credentials None) as [exc|] eqn:Hsecond;
          cbn in Hrun; injection Hrun as <- <- <-.
        -- split; [split; discriminate|]. split; [discriminate|].
           split; [cbn; lia|]. intros first second rest [= <- <- <-].
           exists credentials, (String c p), project_error.
           repeat split; try assumption. discriminate.
        -- split; [split; reflexivity|].
           split; [intros _;
                   exists [Initialize credentials (Some (String c p))],
                          credentials, None; now split|].
           split; [cbn; lia|]. intros first second rest [= <- <- <-].
           exists credentials, (String c p), project_error.
           repeat split; try assumption. discriminate.
      * cbn in Hrun. injection Hrun as <- <- <-.
        split; [split; discriminate|]. split; [discriminate|].
        split; [cbn; lia|]. intros first second rest H. discriminate H.
    + cbn in Hrun. injection Hrun as <- <- <-.
      split; [split; reflexivity|].
      split; [intros _; exists [], credentials,
                               (if truthy project then project else None);
              now split|].
      split; [cbn; lia|]. intros first second rest H. discriminate H.
Qed.

(** X29. A service account named in the environment needs a key file: with
    neither [GEE_KEY_FILE] nor the default key file, the function gives up
    before any call of [ee.Initialize]. *)
Theorem service_account_needs_key :
  truthy (getenv "GEE_SERVICE_ACCOUNT") = true ->
  truthy (getenv "GEE_KEY_FILE") = false ->
  path_exists default_key_path = false ->
  initialize_gee getenv expanduser is_absolute under_base_dir
                 default_key_path path_exists load_key
                 ServiceAccountCredentials ee_Initialize
  = ([], (false, Some no_key_file)).
Proof.
  intros Haccount Hkey Hdefault. unfold initialize_gee.
  rewrite Haccount, Hdefault.
  destruct (getenv "GEE_KEY_FILE") as [[|c rest]|]; try discriminate Hkey;
    reflexivity.
Qed.

(** X30. The service account of the environment wins over the key file's: when
    it is set the key file is not read, and every sign-in that is given
    credentials is given that account. *)
Theorem environment_account_wins (account : string) :
  getenv "GEE_SERVICE_ACCOUNT" = Some account ->
  account <> "" ->
  let run load_key :=
    initialize_gee getenv expanduser is_absolute under_base_dir
                   default_key_path path_exists load_key
                   ServiceAccountCredentials ee_Initialize in
  (forall load_key', run load_key' = run load_key)
  /\ forall credentials project,
       In (Initialize credentials project) (fst (run load_key)) ->
       exists key_path, credentials = Some (account, key_path).
Proof.
  intros Haccount Hne. cbv zeta. unfold initialize_gee. rewrite Haccount.
  destruct account as [|c rest]; [now elim Hne|]. cbn [truthy negb andb].
  split; [reflexivity|].
  intros credentials project.
  match goal with
  | |- context [match ?kp with
                | Some p => _
                | None => ([], Some no_key_file)
                end] => destruct kp as [p|]
  end; [|intros []].
  destruct (negb (path_exists p)); [intros []|].
  destruct (ServiceAccountCredentials _ p) as [exc|]; [intros []|].
  unfold sign_in.
  destruct (ee_Initialize _ _) as [project_error|];
    [destruct (_ && _); [destruct (ee_Initialize _ None)|]|];
    cbn; intros H;
    repeat match type of H with
           | _ \/ _ => destruct H as [H|H]
           | False => contradiction
           end;
    injection H as <- _; now exists p.
Qed.

End Facts.
End GeeInitFacts.

(** The account that may not use its project signs in at the second call,
    without the project. *)
Lemma initialize_gee_sign_in_witness :
  GeeSamples.run GeeSamples.account_key_project true
  = ([GeeInit.Initialize (Some (GeeSamples.account, "/keys/gee.json"))
                         (Some "wheat");
      GeeInit.Initialize (Some (GeeSamples.account, "/keys/gee.json")) None],
     (true, None))
  /\ exists earlier credentials project,
       [GeeInit.Initialize (Some (GeeSamples.account, "/keys/gee.json"))
                           (Some "wheat");
        GeeInit.Initialize (Some (GeeSamples.account, "/keys/gee.json")) None]
       = (earlier ++ [GeeInit.Initialize credentials project])%list
       /\ GeeSamples.project_denied credentials project = None.
Proof.
  split; [reflexivity|].
  destruct (GeeInitFacts.initialize_gee_sign_in
              GeeSamples.account_key_project (fun p => p) (fun _ => true)
              (fun p => "/app/" ++ p) "/app/secrets/gee-key.json"
              (fun _ => true) GeeSamples.empty_key (fun _ _ => None)
              GeeSamples.project_denied
              [GeeInit.Initialize (Some (GeeSamples.account, "/keys/gee.json"))
                                  (Some "wheat");
               GeeInit.Initialize (Some (GeeSamples.account, "/keys/gee.json"))
                                  None]
              true None eq_refl) as (_ & Hready & _).
  exact (Hready eq_refl).
Defined.

(** The account without any key file: no call is made. *)
Lemma service_account_needs_key_witness :
  GeeSamples.run GeeSamples.account_only false
  = ([], (false, Some GeeInit.no_key_file)).
Proof.
  apply (GeeInitFacts.service_account_needs_key
           GeeSamples.account_only (fun p => p) (fun _ => true)
           (fun p => "/app/" ++ p) "/app/secrets/gee-key.json"
           (fun _ => false) GeeSamples.empty_key (fun _ _ => None)
           GeeSamples.project_denied);
    reflexivity.
Defined.

(** Both sign-ins of the sample run carry the account of the
    environment. *)
Lemma environment_account_wins_witness :
  exists key_path,
    Some (GeeSamples.account, "/keys/gee.json")
    = Some (GeeSamples.account, key_path).
Proof.
  destruct (GeeInitFacts.environment_account_wins
              GeeSamples.account_key_project (fun p => p) (fun _ => true)
              (fun p => "/app/" ++ p) "/app/secrets/gee-key.json"
              (fun _ => true) GeeSamples.empty_key (fun _ _ => None)
              GeeSamples.project_denied GeeSamples.account eq_refl
              ltac:(discriminate)) as [_ Hcalls].
  apply (Hcalls (Some (GeeSamples.account, "/keys/gee.json")) None).
  simpl. tauto.
Defined.
